(** * OpenGraph: the provenance graph builder of openmsimodel

    A shallow embedding of [openmsimodel/graph/open_graph.py]: the records
    read from the GEMD JSON files, the networkx [DiGraph] the builder mutates,
    the attribute attacher and the subgraph slicer, followed by the
    properties of the builder.

    Conventions of the embedding.
    - A Python dict that the code only reads (a parsed JSON object) is an
      association list in key order; its keys are distinct, as in a dict.
    - The graph is [nx.DiGraph]: a dict of node attribute dicts and a dict
      of dicts of successors.  Node dicts are finite maps and the successor
      structure is the finite set of ordered pairs, which is what a dict of
      dicts with empty edge data holds: the builder never gives an edge data.
    - An exception is a value [Raise e]; the exceptions are those of the
      Python run time at the line that raises.
    - A string holds the UTF-8 bytes of a Python text.  The characters
      of Python are code points: a byte that is not a continuation byte
      starts one, and the continuation bytes after it belong to it.  The
      tests of the code on substrings, prefixes and suffixes give the same
      answer on the bytes as on the code points; the slice [obj_uid[:3]]
      counts code points.
    - Identifiers, attribute names and file link urls are strings (GEMD
      writes them so).  Where the code would accept a number in their place
      as a dict key, the embedding answers [OutOfModel] and says nothing.
    - Printing, the layout engine and the two files written by
      [save_graph] are not part of the state. *)

From Stdlib Require Import QArith.
From stdpp Require Import gmap strings list fin_maps.

Local Open Scope string_scope.
Set Warnings "-register-all,-clear-no-such-hyp".

(** ** Parsed JSON *)

Inductive json : Type :=
| JNull
| JBool (b : bool)
| JInt (z : Z)
| JFloat (q : Q)
| JStr (s : string)
| JList (l : list json)
| JObj (kv : list (string * json)).

(** ** Outcomes of a call *)

Inductive exn : Type :=
| KeyError
| TypeError
| AttributeError
| ValueError
| UnboundLocalError
| OSError
| NetworkXError.

Inductive result (A : Type) : Type :=
| Ok (a : A)
| Raise (e : exn)
| OutOfModel.

Arguments Ok {A} a.
Arguments Raise {A} e.
Arguments OutOfModel {A}.

(** The sequencing of statements: the first exception ends the call. *)
#[global] Instance result_bind : MBind result := fun A B k r =>
  match r with
  | Ok a => k a
  | Raise e => Raise e
  | OutOfModel => OutOfModel
  end.

(** ** The operations of Python the code uses on parsed JSON *)

(** [bool(v)] *)
Definition truthy (v : json) : bool :=
  match v with
  | JNull => false
  | JBool b => b
  | JInt z => negb (z =? 0)%Z
  | JFloat q => negb (Qeq_bool q 0)
  | JStr s => negb (String.eqb s "")
  | JList l => match l with [] => false | _ => true end
  | JObj kv => match kv with [] => false | _ => true end
  end.

Fixpoint assoc (k : string) (kv : list (string * json)) : option json :=
  match kv with
  | [] => None
  | (k', v) :: rest => if String.eqb k k' then Some v else assoc k rest
  end.

(** [k in d] for a dict [d] *)
Definition has_key (k : string) (kv : list (string * json)) : bool :=
  match assoc k kv with Some _ => true | None => false end.

(** [d[k]] for a dict [d] *)
Definition dict_get (kv : list (string * json)) (k : string) : result json :=
  match assoc k kv with
  | Some v => Ok v
  | None => Raise KeyError
  end.

(** [v[k]] with a string [k]: only a dict can be indexed by a string. *)
Definition getitem (v : json) (k : string) : result json :=
  match v with
  | JObj kv => dict_get kv k
  | _ => Raise TypeError
  end.

(** [v == s] for a string literal [s] *)
Definition eq_str (v : json) (s : string) : bool :=
  match v with
  | JStr t => String.eqb t s
  | _ => false
  end.

(** [sub in s] on strings *)
Definition contains (sub s : string) : bool :=
  match String.index 0 sub s with
  | Some _ => true
  | None => false
  end.

Definition startswith (s pre : string) : bool := String.prefix pre s.

Definition endswith (s suf : string) : bool :=
  (String.length suf <=? String.length s)%nat
  && String.eqb
       (String.substring (String.length s - String.length suf)
          (String.length suf) s)
       suf.

(** A continuation byte of UTF-8, [10xxxxxx]: it goes on with the
    character that the bytes before it started. *)
Definition is_continuation (c : Ascii.ascii) : bool :=
  match c with
  | Ascii.Ascii _ _ _ _ _ _ b6 b7 => b7 && negb b6
  end.

(** [s[:n]]: the first [n] characters (code points) of the text, each
    with all of its bytes. *)
Fixpoint take_chars (n : nat) (s : string) : string :=
  match s with
  | EmptyString => EmptyString
  | String c rest =>
      if is_continuation c then String c (take_chars n rest)
      else
        match n with
        | O => EmptyString
        | S k => String c (take_chars k rest)
        end
  end.

(** [len(s)]: the number of characters (code points) of the text. *)
Fixpoint characters (s : string) : nat :=
  match s with
  | EmptyString => O
  | String c rest => ((if is_continuation c then 0 else 1) + characters rest)%nat
  end.

(** [s[:3]] *)
Definition first3 (s : string) : string := take_chars 3 s.

(** ["raw_jsons" in obj]: a key of a dict, an element of a list, a
    substring of a string; the other values are not containers. *)
Definition py_in (s : string) (v : json) : result bool :=
  match v with
  | JObj kv => Ok (has_key s kv)
  | JList l => Ok (existsb (fun x => eq_str x s) l)
  | JStr t => Ok (contains s t)
  | _ => Raise TypeError
  end.

(** [for att in assets]: the elements of a list, the characters of a
    string, the keys of a dict.  A string is gone through byte by byte:
    the loop body does one thing with a string, the test ["::" in att],
    which is false on one character as it is on each of its bytes. *)
Fixpoint chars (s : string) : list json :=
  match s with
  | EmptyString => []
  | String c rest => JStr (String c EmptyString) :: chars rest
  end.

Definition py_iter (v : json) : result (list json) :=
  match v with
  | JList l => Ok l
  | JStr s => Ok (chars s)
  | JObj kv => Ok (map (fun p => JStr (fst p)) kv)
  | _ => Raise TypeError
  end.

(** A JSON value used as a node key of the graph: [None] is refused by
    networkx, a list or a dict is not hashable. *)
Definition as_node (v : json) : result string :=
  match v with
  | JStr s => Ok s
  | JNull => Raise ValueError
  | JList _ | JObj _ => Raise TypeError
  | _ => OutOfModel
  end.

(** A JSON value used as an attribute name or as a url. *)
Definition as_text (v : json) : result string :=
  match v with
  | JStr s => Ok s
  | _ => OutOfModel
  end.

(** ** The graph *)

(** A node attribute: one string, or the index to string dict that
    [add_to_graph] builds. *)
Inductive attr : Type :=
| AStr (s : string)
| AIdx (m : gmap nat string).

Record DiGraph : Type := mkGraph {
  nodes : gmap string (gmap string attr);
  edges : gset (string * string)
}.

Definition empty_graph : DiGraph := mkGraph ∅ ∅.

(** [G.add_node(n, **attrs)]: a new node starts with no attribute; the
    given attributes update the node's dict. *)
Definition add_node (n : string) (attrs : gmap string attr) (G : DiGraph) : DiGraph :=
  mkGraph (<[n := attrs ∪ default ∅ (nodes G !! n)]> (nodes G)) (edges G).

(** [G.add_edge(u, v)]: both ends become nodes when they are not, and
    [v] is recorded among the successors of [u]. *)
Definition touch (n : string) (ns : gmap string (gmap string attr)) : gmap string (gmap string attr) :=
  match ns !! n with
  | Some _ => ns
  | None => <[n := ∅]> ns
  end.

Definition add_edge (u v : string) (G : DiGraph) : DiGraph :=
  mkGraph (touch v (touch u (nodes G))) ({[ (u, v) ]} ∪ edges G).

(** [G.number_of_edges(u, v)] and [G.number_of_edges()] *)
Definition number_of_edges_between (G : DiGraph) (u v : string) : nat :=
  if decide ((u, v) ∈ edges G) then 1 else 0.

Definition number_of_edges (G : DiGraph) : nat := size (edges G).

Definition has_node (G : DiGraph) (n : string) : bool :=
  bool_decide (n ∈ dom (nodes G)).

Definition node_attr (G : DiGraph) (n a : string) : option attr :=
  attrs ← nodes G !! n; attrs !! a.

(** [G.subgraph(els)]: the nodes of [G] that are in [els], and the edges
    of [G] between two of them. *)
Definition subgraph (G : DiGraph) (els : gset string) : DiGraph :=
  mkGraph (filter (fun kv => kv.1 ∈ els) (nodes G))
          (filter (fun e => e.1 ∈ els ∧ e.2 ∈ els) (edges G)).

(** ** add_to_graph *)

Definition set_attr (G : DiGraph) (uid a : string) (x : attr) : DiGraph :=
  mkGraph (alter (fun attrs => <[a := x]> attrs) uid (nodes G)) (edges G).

Definition separate_style : gmap string attr :=
  <["shape" := AStr "rectangle"]> (<["color" := AStr "orange"]> ∅).

Definition add_to_graph (G : DiGraph) (uid node_name att_name : string)
    (add_separate_node : bool) : result DiGraph :=
  if add_separate_node then
    Ok (add_edge uid node_name (add_node node_name separate_style G))
  else
    match nodes G !! uid with
    | None => Raise KeyError
    | Some attrs =>
        match attrs !! att_name with
        | Some (AIdx m) => Ok (set_attr G uid att_name (AIdx (<[size m := node_name]> m)))
        | Some (AStr s) => Raise TypeError
        | None =>
            if bool_decide (att_name ∈ ["file_links"; "tags"]) then
              Ok (set_attr G uid att_name (AIdx {[ 0%nat := node_name ]}))
            else
              Ok (set_attr G uid att_name (AStr node_name))
        end
    end.

(** ** What the builder takes from outside the repository *)

(** What [open(path, "r")] and [json.load] find at a path: a file that
    cannot be opened ([open] raises [OSError]), a text that is not JSON
    ([json.load] raises [JSONDecodeError], a [ValueError]), or a value. *)
Inductive file : Type :=
| Unreadable
| Malformed
| Content (data : json).

Class Host : Type := mkHost {
  (** [str(v)] of a value that is not a string (a number, [None], a
      list, a dict), as [str.format] prints it *)
  repr : json -> string;
  (** [json.load(open(path, "r"))] *)
  read_json : string -> file;
  (** pygraphviz' graph, [nx.nx_agraph.to_agraph] followed by the layout *)
  AGraph : Type;
  to_agraph : DiGraph -> AGraph;
  (** [nx.relabel_nodes(G, mapping)] *)
  relabel_nodes : DiGraph -> gmap string string -> DiGraph
}.

(** [assets_to_add] *)
Record assets_flags : Type := mkFlags {
  add_attributes : bool;
  add_file_links : bool;
  add_tags : bool
}.

Fixpoint for_each {S A : Type} (body : S -> A -> result S) (l : list A) (s : S) : result S :=
  match l with
  | [] => Ok s
  | a :: rest => s' ← body s a; for_each body rest s'
  end.

Section Builder.
Context `{Host}.

(** One argument of [str.format]. *)
Definition fmt (v : json) : string :=
  match v with
  | JStr s => s
  | _ => repr v
  end.

(** The chain of tests on [value["type"]] in [handle_gemd_value];
    [None] when no test holds, and [node_name] is not assigned. *)
Definition format_value (att_name : string) (value : json) : result (option string) :=
  ty ← getitem value "type";
  if eq_str ty "nominal_real" then
    nominal ← getitem value "nominal";
    units ← getitem value "units";
    Ok (Some (att_name ++ ", " ++ fmt nominal ++ " " ++ fmt units))
  else if eq_str ty "nominal_integer" then
    nominal ← getitem value "nominal";
    Ok (Some (att_name ++ ", " ++ fmt nominal))
  else if eq_str ty "uniform_real" then
    lower ← getitem value "lower_bound";
    upper ← getitem value "upper_bound";
    units ← getitem value "units";
    Ok (Some (att_name ++ ", " ++ fmt lower ++ "-" ++ fmt upper ++ " " ++ fmt units))
  else if eq_str ty "uniform_integer" then
    lower ← getitem value "lower_bound";
    upper ← getitem value "upper_bound";
    Ok (Some (att_name ++ ", " ++ fmt lower ++ "-" ++ fmt upper))
  else if eq_str ty "empirical_formula" then
    formula ← getitem value "formula";
    Ok (Some (att_name ++ ", " ++ fmt formula ++ ", " ++ fmt ty))
  else if eq_str ty "normal_real" then
    mean ← getitem value "mean";
    std ← getitem value "std";
    units ← getitem value "units";
    Ok (Some (att_name ++ ", mean " ++ fmt mean ++ ", std " ++ fmt std
              ++ ", " ++ fmt units ++ ", " ++ fmt ty))
  else if eq_str ty "nominal_categorical" then
    category ← getitem value "category";
    Ok (Some (att_name ++ ", " ++ fmt category))
  else if eq_str ty "nominal_composition" then
    quantities ← getitem value "quantities";
    Ok (Some (att_name ++ ", " ++ fmt quantities))
  else Ok None.

(** [value] and [att_name] of an attribute that is not a file link. *)
Definition value_and_name (att ty : json) : result (json * string) :=
  if eq_str ty "property_and_conditions" then
    property ← getitem att "property";
    value ← getitem property "value";
    name ← getitem property "name";
    att_name ← as_text name;
    Ok (value, att_name)
  else
    value ← getitem att "value";
    name ← getitem att "name";
    att_name ← as_text name;
    Ok (value, att_name).

(** The body of the loop of [handle_gemd_value].  The state is the
    graph and the local variable [node_name], which is not bound
    before its first assignment and keeps its value from one attribute
    to the next. *)
Definition handle_att (uid : string) (add_separate_node : bool)
    (st : DiGraph * option string) (att : json) : result (DiGraph * option string) :=
  match att with
  | JStr tag =>
      if contains "::" tag then
        G' ← add_to_graph st.1 uid tag "tags" false;
        Ok (G', st.2)
      else Ok st
  | _ =>
      ty ← getitem att "type";
      if truthy ty then
        if eq_str ty "file_link" then
          url ← getitem att "url";
          link ← as_text url;
          G' ← add_to_graph st.1 uid link "file_links" false;
          Ok (G', st.2)
        else
          va ← value_and_name att ty;
          formatted ← format_value va.2 va.1;
          match from_option Some st.2 formatted with
          | None => Raise UnboundLocalError
          | Some node_name =>
              G' ← add_to_graph st.1 uid node_name va.2 add_separate_node;
              Ok (G', Some node_name)
          end
      else Ok st
  end.

Definition handle_gemd_value (G : DiGraph) (uid : string) (assets : json)
    (add_separate_node : bool) : result DiGraph :=
  atts ← py_iter assets;
  st ← for_each (handle_att uid add_separate_node) atts (G, None);
  Ok st.1.

(** One of the five statements of [add_gemd_assets]. *)
Definition add_assets_of (enabled : bool) (key : string) (uid : string)
    (obj_data : list (string * json)) (add_separate_node : bool)
    (G : DiGraph) : result DiGraph :=
  if enabled && has_key key obj_data then
    assets ← dict_get obj_data key;
    handle_gemd_value G uid assets add_separate_node
  else Ok G.

(** The arguments [object_class] and [which] of the source are not
    used by its body and are left out. *)
Definition add_gemd_assets (G : DiGraph) (uid : string)
    (obj_data : list (string * json)) (assets_to_add : assets_flags)
    (add_separate_node : bool) : result DiGraph :=
  G1 ← add_assets_of (add_attributes assets_to_add) "parameters" uid obj_data add_separate_node G;
  G2 ← add_assets_of (add_attributes assets_to_add) "properties" uid obj_data add_separate_node G1;
  G3 ← add_assets_of (add_attributes assets_to_add) "conditions" uid obj_data add_separate_node G2;
  G4 ← add_assets_of (add_file_links assets_to_add) "file_links" uid obj_data add_separate_node G3;
  add_assets_of (add_tags assets_to_add) "tags" uid obj_data add_separate_node G4.

Definition color (c : string) : gmap string attr := {[ "color" := AStr c ]}.

(** [obj_data[key]["id"]] as a node *)
Definition link_id (obj_data : list (string * json)) (key : string) : result string :=
  link ← dict_get obj_data key;
  id ← getitem link "id";
  as_node id.

(** ["material" in obj_data and obj_data["material"]] *)
Definition has_link (obj_data : list (string * json)) (key : string) : bool :=
  match assoc key obj_data with
  | Some v => truthy v
  | None => false
  end.

Definition handle_gemd_obj (G : DiGraph) (uid : string)
    (obj_data : list (string * json)) (obj_type which : string)
    (assets_to_add : assets_flags) (add_separate_node : bool) : result DiGraph :=
  if startswith obj_type "process" then
    if endswith obj_type which then
      add_gemd_assets (add_node uid (color "red") G) uid obj_data
        assets_to_add add_separate_node
    else Ok G
  else if startswith obj_type "ingredient" then
    if endswith obj_type which then
      let G1 := add_node uid (color "blue") G in
      process ← link_id obj_data "process";
      let G2 := add_edge uid process G1 in
      G3 ← add_gemd_assets G2 uid obj_data assets_to_add add_separate_node;
      if has_link obj_data "material" then
        material ← link_id obj_data "material";
        Ok (add_edge material uid G3)
      else Ok G3
    else Ok G
  else if startswith obj_type "material" then
    if endswith obj_type which then
      let G1 := add_node uid (color "green") G in
      G2 ← add_gemd_assets G1 uid obj_data assets_to_add add_separate_node;
      link ← dict_get obj_data "process";
      if truthy link then
        process ← link_id obj_data "process";
        Ok (add_edge process uid G2)
      else Ok G2
    else Ok G
  else if startswith obj_type "measurement" then
    if endswith obj_type which then
      let G1 := add_node uid (color "purple") G in
      G2 ← add_gemd_assets G1 uid obj_data assets_to_add add_separate_node;
      if has_link obj_data "material" then
        material ← link_id obj_data "material";
        Ok (add_edge uid material G2)
      else Ok G2
    else Ok G
  else Ok G.

(** ** build_graph *)

(** The identifier of a record: it is sliced and used as a dict key. *)
Definition as_uid (v : json) : result string :=
  match v with
  | JStr s => Ok s
  | JObj _ => OutOfModel
  | _ => Raise TypeError
  end.

(** [obj_type.startswith(...)]: a method of [str] only. *)
Definition as_type (v : json) : result string :=
  match v with
  | JStr s => Ok s
  | _ => Raise AttributeError
  end.

(** [obj_data["uids"].keys()]: a method of [dict] only. *)
Definition as_dict (v : json) : result (list (string * json)) :=
  match v with
  | JObj kv => Ok kv
  | _ => Raise AttributeError
  end.

(** [obj_data = obj], or the content of the file when [obj] is a path. *)
Definition load (obj : json) : result json :=
  match obj with
  | JStr path =>
      match read_json path with
      | Content data => Ok data
      | Unreadable => Raise OSError
      | Malformed => Raise ValueError
      end
  | _ => Ok obj
  end.

Definition label (obj_name : json) (obj_uid : string) : string :=
  fmt obj_name ++ ",  " ++ first3 obj_uid.

(** The variables the loop of [build_graph] updates. *)
Record build_state : Type := mkState {
  graph : DiGraph;
  name_mapping : gmap string string;
  nb_disregarded : nat
}.

Definition initial_state : build_state := mkState empty_graph ∅ 0.

(** The guards at the head of the loop body of [build_graph], up to the
    reading of the identifier and of the name: the record is passed
    over by a [continue], counted as disregarded, or goes on to the
    name mapping and [handle_gemd_obj].  A value that is neither a list
    nor a dict cannot be indexed by ["type"]. *)
Inductive verdict : Type :=
| Skipped
| Disregarded
| Tracked (obj_uid : string) (obj_name : json) (obj_type : string)
          (obj_data : list (string * json)).

Definition classify (uuid_to_track : string) (obj : json) : result verdict :=
  raw ← py_in "raw_jsons" obj;
  if raw : bool then Ok Skipped else
  obj_data ← load obj;
  match obj_data with
  | JList _ => Ok Skipped
  | JObj fields =>
      ty ← dict_get fields "type";
      obj_type ← as_type ty;
      if startswith obj_type "parameter"
         || startswith obj_type "condition"
         || startswith obj_type "property"
      then Ok Disregarded
      else
        uids_v ← dict_get fields "uids";
        uids ← as_dict uids_v;
        if negb (has_key uuid_to_track uids) then Ok Skipped else
        uid_v ← dict_get uids uuid_to_track;
        obj_name ← dict_get fields "name";
        obj_uid ← as_uid uid_v;
        Ok (Tracked obj_uid obj_name obj_type fields)
  | _ => Raise TypeError
  end.

(** The body of the loop of [build_graph]. *)
Definition build_step (which uuid_to_track : string)
    (assets_to_add : assets_flags) (add_separate_node : bool)
    (st : build_state) (obj : json) : result build_state :=
  v ← classify uuid_to_track obj;
  match v with
  | Skipped => Ok st
  | Disregarded =>
      Ok (mkState (graph st) (name_mapping st) (S (nb_disregarded st)))
  | Tracked obj_uid obj_name obj_type obj_data =>
      let names := <[obj_uid := label obj_name obj_uid]> (name_mapping st) in
      G ← handle_gemd_obj (graph st) obj_uid obj_data obj_type which
             assets_to_add add_separate_node;
      Ok (mkState G names (nb_disregarded st))
  end.

(** [map_to_graphviz]: an empty mapping is false and relabels nothing. *)
Definition map_to_graphviz (G : DiGraph) (names : gmap string string) : AGraph :=
  to_agraph (if decide (names = ∅) then G else relabel_nodes G names).

(** [build_graph], from the list that [read_gemd_data] returns.  The
    result is [None] for the bare [return]. *)
Definition build_graph (gemd_objects : list json) (assets_to_add : assets_flags)
    (add_separate_node : bool) (which uuid_to_track : string)
    : result (option (DiGraph * AGraph * gmap string string)) :=
  if (length gemd_objects =? 0)%nat then Ok None else
  st ← for_each (build_step which uuid_to_track assets_to_add add_separate_node)
         gemd_objects initial_state;
  Ok (Some (graph st, map_to_graphviz (graph st) (name_mapping st), name_mapping st)).
End Builder.

(** ** slice_subgraph *)

(** A function of [funcs]: from the graph and a node to a set of nodes. *)
Definition node_function : Type := DiGraph -> string -> result (gset string).

Definition slice_subgraph (G : DiGraph) (uuid : string) (funcs : list node_function)
    (add_current : bool) : result DiGraph :=
  els ← for_each (fun els (func : node_function) => found ← func G uuid; Ok (els ∪ found))
          funcs (∅ : gset string);
  let els := if add_current then els ∪ {[ uuid ]} else els in
  Ok (subgraph G els).

(** [nx.ancestors(G, source)]: the nodes with a path to [source], without
    [source]; the node has to be in the graph. *)
Definition predecessors (G : DiGraph) (found : gset string) : gset string :=
  set_map fst (filter (fun e : string * string => e.2 ∈ found) (edges G)).

Fixpoint backwards (G : DiGraph) (rounds : nat) (found : gset string) : gset string :=
  match rounds with
  | O => found
  | S n => backwards G n (found ∪ predecessors G found)
  end.

Definition ancestors : node_function := fun G source =>
  if has_node G source then
    Ok (backwards G (size (nodes G)) {[ source ]} ∖ {[ source ]})
  else Raise NetworkXError.

(** ** The vocabulary of the statements *)

Inductive kind : Type := Process | Ingredient | Material | Measurement.

(** The branch of [handle_gemd_obj] a type string is dispatched to: the
    first prefix of the chain that holds. *)
Definition kind_of (obj_type : string) : option kind :=
  if startswith obj_type "process" then Some Process
  else if startswith obj_type "ingredient" then Some Ingredient
  else if startswith obj_type "material" then Some Material
  else if startswith obj_type "measurement" then Some Measurement
  else None.

Definition kind_color (k : kind) : string :=
  match k with
  | Process => "red"
  | Ingredient => "blue"
  | Material => "green"
  | Measurement => "purple"
  end.

(** A record that passes the guards of the loop, is of one of the four
    kinds and of the requested variant. *)
Definition eligible `{Host} (which uuid_to_track : string) (obj : json) : bool :=
  match classify uuid_to_track obj with
  | Ok (Tracked _ _ obj_type _) =>
      bool_decide (is_Some (kind_of obj_type)) && endswith obj_type which
  | _ => false
  end.

(** The same with what the loop reads from the record: its identifier,
    its kind and its fields. *)
Definition eligible_record `{Host} (which uuid_to_track : string) (obj : json)
    (uid : string) (k : kind) (obj_data : list (string * json)) : Prop :=
  ∃ obj_name obj_type,
    classify uuid_to_track obj = Ok (Tracked uid obj_name obj_type obj_data)
    ∧ kind_of obj_type = Some k
    ∧ endswith obj_type which = true.

(** The identifier a record refers to under [key], when it has one. *)
Definition referenced (obj_data : list (string * json)) (key : string) : option string :=
  match link_id obj_data key with
  | Ok n => Some n
  | _ => None
  end.

(** The edges of a record, in the words of the specification: an
    ingredient points to its process, and a material it references points
    to it; the process of a material points to the material; a
    measurement points to its material; a process has none.  There is
    no answer when a reference that an edge needs cannot be read. *)
Definition expected_edges (k : kind) (uid : string) (obj_data : list (string * json))
    : option (gset (string * string)) :=
  match k with
  | Process => Some ∅
  | Ingredient =>
      p ← referenced obj_data "process";
      if has_link obj_data "material"
      then m ← referenced obj_data "material"; Some {[ (uid, p); (m, uid) ]}
      else Some {[ (uid, p) ]}
  | Material =>
      if has_link obj_data "process"
      then p ← referenced obj_data "process"; Some {[ (p, uid) ]}
      else Some ∅
  | Measurement =>
      if has_link obj_data "material"
      then m ← referenced obj_data "material"; Some {[ (uid, m) ]}
      else Some ∅
  end.

(** A node that [add_to_graph] placed for a formatted value. *)
Definition is_separate_node (G : DiGraph) (n : string) : Prop :=
  node_attr G n "shape" = Some (AStr "rectangle").

(** No node holds a plain string under ["file_links"] or ["tags"]. *)
Definition indexed_ok (G : DiGraph) : Prop :=
  ∀ n key s, key ∈ ["file_links"; "tags"] → node_attr G n key ≠ Some (AStr s).

(** What attaching the assets of the record [uid] may do to the graph:
    nothing is removed; in inline mode no node and no edge is added; in
    separate-node mode a new node is [uid] or a separate node and a new
    edge leaves [uid]; the colour of [uid] stays, unless [uid] is itself
    the key of one of its separate nodes and gets a loop; file links and
    tags stay indexed. *)
Definition attaches (uid : string) (add_separate_node : bool) (G G' : DiGraph) : Prop :=
  dom (nodes G) ⊆ dom (nodes G')
  ∧ edges G ⊆ edges G'
  ∧ (∀ n, is_separate_node G n → is_separate_node G' n)
  ∧ (∀ n, n ∈ dom (nodes G') →
       n ∈ dom (nodes G)
       ∨ (add_separate_node = true ∧ (n = uid ∨ is_separate_node G' n)))
  ∧ (∀ e, e ∈ edges G' → e ∈ edges G ∨ (add_separate_node = true ∧ e.1 = uid))
  ∧ (∀ c, node_attr G uid "color" = Some (AStr c) →
       node_attr G' uid "color" = Some (AStr c)
       ∨ (add_separate_node = true ∧ (uid, uid) ∈ edges G'))
  ∧ (indexed_ok G → indexed_ok G').

(** The entries of a collection that [handle_gemd_value] treats as a tag
    and as a file link. *)
Definition is_tag (att : json) : bool :=
  match att with
  | JStr s => contains "::" s
  | _ => false
  end.

Definition is_file_link (att : json) : bool :=
  match att with
  | JObj kv =>
      match assoc "type" kv with
      | Some ty => eq_str ty "file_link"
      | None => false
      end
  | _ => false
  end.

(** The string [handle_gemd_value] formats for an entry that is not a
    tag and not a file link, when one of the eight rules applies. *)
Definition formatted_value `{Host} (att : json) : option string :=
  match att with
  | JStr _ => None
  | _ =>
      match getitem att "type" with
      | Ok ty =>
          if truthy ty && negb (eq_str ty "file_link") then
            match va ← value_and_name att ty; format_value va.2 va.1 with
            | Ok (Some s) => Some s
            | _ => None
            end
          else None
      | _ => None
      end
  end.

(** Nothing is ever taken out of the graph. *)
Definition graph_grows : relation DiGraph := fun G G' =>
  dom (nodes G) ⊆ dom (nodes G') ∧ edges G ⊆ edges G'
  ∧ ∀ n, is_separate_node G n → is_separate_node G' n.

Definition state_grows : relation build_state := fun st st' =>
  graph_grows (graph st) (graph st').

(** ** Example data *)

(** A host for the examples: no file, a placeholder for the printing of
    non-strings, and a relabelling that renames node by node (networkx
    does the same when no two nodes get one label). *)
Definition rename (names : gmap string string) (n : string) : string :=
  default n (names !! n).

Definition example_host : Host :=
  mkHost (fun _ => "?") (fun _ => Unreadable) DiGraph (fun G => G)
    (fun G names =>
       mkGraph (kmap (rename names) (nodes G))
               (set_map (fun e : string * string => (rename names e.1, rename names e.2)) (edges G))).

Definition no_assets : assets_flags := mkFlags false false false.
Definition all_assets : assets_flags := mkFlags true true true.

Definition link (id : string) : json :=
  JObj [("type", JStr "link_by_uid"); ("scope", JStr "auto"); ("id", JStr id)].

Definition record (type id name : string) (more : list (string * json)) : json :=
  JObj (("type", JStr type) :: ("uids", JObj [("auto", JStr id)])
        :: ("name", JStr name) :: more).

Definition m1 : json := record "material_spec" "m1" "Alloy" [("process", link "p1")].
Definition p1 : json := record "process_spec" "p1" "Melting" [].
Definition i1 : json :=
  record "ingredient_spec" "i1" "Powder" [("process", link "p1"); ("material", link "m1")].



(** The chain A -> B -> C. *)
Definition chain : DiGraph := add_edge "B" "C" (add_edge "A" "B" empty_graph).

Definition attribute (type name : string) (value : json) : json :=
  JObj [("type", JStr type); ("name", JStr name); ("value", value)].

Definition atmosphere (gas : string) : json :=
  attribute "parameter" "Atmosphere"
    (JObj [("type", JStr "nominal_categorical"); ("category", JStr gas)]).

(** A value of a type that [handle_gemd_value] has no rule for. *)
Definition phase : json :=
  attribute "parameter" "Phase"
    (JObj [("type", JStr "discrete_categorical");
           ("probabilities", JObj [("liquid", JFloat 1)])]).

Definition melting (more : list (string * json)) : json :=
  record "process_spec" "p1" "Melting" more.

Definition p_unsupported : json := melting [("parameters", JList [phase])].
Definition p_stale : json := melting [("parameters", JList [atmosphere "argon"; phase])].
Definition p_twice : json :=
  melting [("parameters", JList [atmosphere "argon"; atmosphere "air"])].
Definition p_tags : json :=
  melting [("tags", JList [JStr "alloy::steel"; JStr "batch::7"; JStr "alloy::steel"])].

Definition m1_run : json := record "material_run" "m1" "Alloy" [("process", JNull)].
Definition m_no_process : json := record "material_spec" "m1" "Alloy" [].
Definition m_null_process : json := record "material_spec" "m1" "Alloy" [("process", JNull)].

Definition fields_of (obj : json) : list (string * json) :=
  match obj with
  | JObj kv => kv
  | _ => []
  end.

(** The graphs of one record alone. *)
Definition ingredient_alone : DiGraph :=
  add_edge "m1" "i1" (add_edge "i1" "p1" (add_node "i1" (color "blue") empty_graph)).

Definition material_alone : DiGraph :=
  add_edge "p1" "m1" (add_node "m1" (color "green") empty_graph).

Definition process_alone : DiGraph := add_node "p1" (color "red") empty_graph.

(** The value types [handle_gemd_value] has a rule for. *)
Definition recognized_types : list string :=
  ["nominal_real"; "nominal_integer"; "uniform_real"; "uniform_integer";
   "empirical_formula"; "normal_real"; "nominal_categorical"; "nominal_composition"].

(** ** The other functions of the module *)

(** [nx.descendants(G, source)]: the nodes [source] has a path to,
    without [source]; the node has to be in the graph. *)
Definition successors (G : DiGraph) (found : gset string) : gset string :=
  set_map snd (filter (fun e : string * string => e.1 ∈ found) (edges G)).

Fixpoint forwards (G : DiGraph) (rounds : nat) (found : gset string) : gset string :=
  match rounds with
  | O => found
  | S n => forwards G n (found ∪ successors G found)
  end.

Definition descendants : node_function := fun G source =>
  if has_node G source then
    Ok (forwards G (size (nodes G)) {[ source ]} ∖ {[ source ]})
  else Raise NetworkXError.

(** The loop of [get_strongly_cc] and of [get_weakly_cc] over the
    components networkx yields: the first one that holds the node, and
    the empty list of the [else] when the loop ends. *)
Fixpoint component_of (components : list (gset string)) (node : string) : gset string :=
  match components with
  | [] => ∅
  | cc :: rest => if decide (node ∈ cc) then cc else component_of rest node
  end.

(** [nx.strongly_connected_components] and
    [nx.weakly_connected_components] are taken as given. *)
Definition get_strongly_cc (strongly_connected_components : DiGraph -> list (gset string))
    (G : DiGraph) (node : string) : gset string :=
  component_of (strongly_connected_components G) node.

Definition get_weakly_cc (weakly_connected_components : DiGraph -> list (gset string))
    (G : DiGraph) (node : string) : gset string :=
  component_of (weakly_connected_components G) node.

Definition return_uuid (identifier : string) : string := identifier.

(** [extract_subgraph]: [add_current] is left to its default. *)
Definition extract_subgraph (G : DiGraph) (identifier : string)
    (func : list node_function) : result DiGraph :=
  slice_subgraph G (return_uuid identifier) func true.

(** The arguments [run_from_command_line] reads. *)
Record command_line : Type := mkArgs {
  arg_which : string;
  arg_identifier : option string;
  arg_add_attributes : bool;
  arg_add_file_links : bool;
  arg_add_tags : bool;
  arg_add_separate_node : bool;
  arg_a : bool;
  arg_d : bool;
  arg_uuid_to_track : string
}.

(** [if args.identifier]: neither [None] nor the empty string. *)
Definition given (identifier : option string) : option string :=
  match identifier with
  | Some s => if String.eqb s "" then None else Some s
  | None => None
  end.

(** [run_from_command_line], from the records of the directory: the
    graphs that are saved during the run, the relabelled graph of the
    build and, with an identifier, the relabelled slice.  Unpacking the
    [None] of [build_graph] into three names is a [TypeError].  The
    writing of the files and the launch of the notebook are left out. *)
Definition run_from_command_line `{Host} (gemd_objects : list json)
    (args : command_line) : result (AGraph * option AGraph) :=
  built ← build_graph gemd_objects
             (mkFlags (arg_add_attributes args) (arg_add_file_links args)
                      (arg_add_tags args))
             (arg_add_separate_node args) (arg_which args) (arg_uuid_to_track args);
  match built with
  | None => Raise TypeError
  | Some (G, relabeled_G, names) =>
      match given (arg_identifier args) with
      | Some identifier =>
          let functions :=
            ((if arg_d args then [descendants] else [])
             ++ (if arg_a args then [ancestors] else []))%list in
          identifier_G ← extract_subgraph G identifier functions;
          Ok (relabeled_G, Some (map_to_graphviz identifier_G names))
      | None => Ok (relabeled_G, None)
      end
  end.

(** ** More vocabulary *)

(** Every edge joins two nodes. *)
Definition edges_closed (G : DiGraph) : Prop :=
  ∀ u v, (u, v) ∈ edges G → u ∈ dom (nodes G) ∧ v ∈ dom (nodes G).

(** Every index to value mapping of the graph is a list of values at
    the indices 0, 1, 2, ... *)
Definition indices_listed (G : DiGraph) : Prop :=
  ∀ n a idx, node_attr G n a = Some (AIdx idx) →
    ∃ values : list string, values ≠ [] ∧ idx = map_seq 0 values.

(** An entry the loop of [build_graph] passes over, and one it counts
    as disregarded. *)
Definition passed_over `{Host} (uuid_to_track : string) (obj : json) : bool :=
  match classify uuid_to_track obj with
  | Ok Skipped => true
  | _ => false
  end.

Definition disregarded `{Host} (uuid_to_track : string) (obj : json) : bool :=
  match classify uuid_to_track obj with
  | Ok Disregarded => true
  | _ => false
  end.

(** What handling the record [uid] does to the other nodes: a node
    keeps its attributes, or it is new and has none, or it is a separate
    node. *)
Definition frames (uid : string) (G G' : DiGraph) : Prop :=
  ∀ n, n ≠ uid →
    nodes G' !! n = nodes G !! n
    ∨ (nodes G !! n = None ∧ nodes G' !! n = Some ∅)
    ∨ is_separate_node G' n.

(** Example data for the command line. *)
Definition example_args (identifier : option string) (a d : bool) : command_line :=
  mkArgs "spec" identifier false false false false a d "auto".

(** The tags the node holds: none without the attribute. *)
Definition holds_tags (G : DiGraph) (uid : string) (have : list string) : Prop :=
  match have with
  | [] => node_attr G uid "tags" = None
  | _ => node_attr G uid "tags" = Some (AIdx (map_seq 0 have))
  end.

(** The name mappings of m1 and of p1 read alone, and the graph of
    [p_tags] read inline. *)
Definition m1_names : gmap string string := {[ "m1" := "Alloy,  m1" ]}.
Definition p1_names : gmap string string := {[ "p1" := "Melting,  p1" ]}.

Definition p_tagged : DiGraph :=
  mkGraph
    {[ "p1" := <["tags" := AIdx (map_seq 0 ["alloy::steel"; "batch::7"; "alloy::steel"])]>
                 (color "red") ]}
    ∅.

(** A record of a disregarded type, and two components of the chain. *)
Definition c1 : json := JObj [("type", JStr "condition_template")].

Definition chain_components (G : DiGraph) : list (gset string) :=
  [ {[ "A" ]}; {[ "B"; "C" ]} ].

(** ** Vocabulary of the colours and of the inline values *)


(** The value [v] is in the index to value mapping that the node [uid]
    has under [key]. *)
Definition holds_value (G : DiGraph) (uid key v : string) : Prop :=
  ∃ (idx : gmap nat string) (i : nat),
    node_attr G uid key = Some (AIdx idx) ∧ idx !! i = Some v.

(** The key and the value that [handle_gemd_value] attaches for a tag
    (a string with ["::"]) and for a file link (its url). *)
Definition inline_value (att : json) : option (string * string) :=
  match att with
  | JStr s => if contains "::" s then Some ("tags", s) else None
  | _ =>
      if is_file_link att then
        match getitem att "url" with
        | Ok (JStr url) => Some ("file_links", url)
        | _ => None
        end
      else None
  end.

(** The flag under which [add_gemd_assets] reads the collection [key]
    of a record. *)
Definition collection_read (assets_to_add : assets_flags) (key : string) : bool :=
  if bool_decide (key ∈ ["parameters"; "properties"; "conditions"])
  then add_attributes assets_to_add
  else if String.eqb key "file_links" then add_file_links assets_to_add
  else if String.eqb key "tags" then add_tags assets_to_add
  else false.

(** ** More example data *)






(** A material with its process and one property, in both modes. *)
Definition m1a : json :=
  record "material_spec" "m1" "Alloy"
    [("process", link "p1"); ("properties", JList [atmosphere "argon"])].

Definition m1a_inline : DiGraph :=
  add_edge "p1" "m1"
    (set_attr (add_node "m1" (color "green") empty_graph) "m1" "Atmosphere"
       (AStr "Atmosphere, argon")).

Definition m1a_separate : DiGraph :=
  add_edge "p1" "m1"
    (add_edge "m1" "Atmosphere, argon"
       (add_node "Atmosphere, argon" separate_style
          (add_node "m1" (color "green") empty_graph))).

(** A process whose identifier starts with a character of two bytes. *)
Definition p_accent : json := record "process_spec" "é12x" "Melting" [].

Definition accent_alone : DiGraph := add_node "é12x" (color "red") empty_graph.

Definition accent_names : gmap string string := {[ "é12x" := "Melting,  é12" ]}.

(** A process with a file link and a tag. *)
Definition file_link (url : string) : json :=
  JObj [("type", JStr "file_link"); ("filename", JStr "log.txt"); ("url", JStr url)].

Definition p_linked : json :=
  melting [("file_links", JList [file_link "https://example.org/log.txt"]);
           ("tags", JList [JStr "alloy::steel"])].

Definition p_linked_graph : DiGraph :=
  mkGraph
    {[ "p1" := <["tags" := AIdx (map_seq 0 ["alloy::steel"])]>
                 (<["file_links" := AIdx (map_seq 0 ["https://example.org/log.txt"])]>
                    (color "red")) ]}
    ∅.

(** The graph keeps its index mappings as lists, and the value [v] is in
    the one that [uid] has under [key]. *)
Definition held (uid key v : string) (G : DiGraph) : Prop :=
  indices_listed G ∧ holds_value G uid key v.

(** Two processes of one name whose identifiers share their first three
    characters. *)
Definition pa1 : json := record "process_spec" "abc1" "Melting" [].
Definition pa2 : json := record "process_spec" "abc2" "Melting" [].

Definition abc_graph : DiGraph :=
  add_node "abc2" (color "red") (add_node "abc1" (color "red") empty_graph).

Definition abc_names : gmap string string :=
  list_to_map [("abc1", "Melting,  abc"); ("abc2", "Melting,  abc")].

#[local] Arguments add_to_graph : simpl never.
#[local] Arguments add_node : simpl never.
#[local] Arguments add_edge : simpl never.
#[local] Arguments set_attr : simpl never.
#[local] Arguments format_value : simpl never.
#[local] Arguments value_and_name : simpl never.
#[local] Arguments startswith : simpl never.
#[local] Arguments endswith : simpl never.

(** * Properties *)

(** ** The graph operations *)

Section GraphFacts.
Implicit Types (G : DiGraph) (n m u v uid a k : string) (ns : gmap string (gmap string attr)).

Lemma dom_touch n ns : dom (touch n ns) = {[ n ]} ∪ dom ns.
Proof.
  unfold touch. destruct (ns !! n) eqn:E.
  - apply elem_of_dom_2 in E. set_solver.
  - by rewrite dom_insert_L.
Qed.

Lemma lookup_touch n m ns :
  touch n ns !! m = match ns !! m with
                    | Some x => Some x
                    | None => if decide (n = m) then Some ∅ else None
                    end.
Proof.
  unfold touch. destruct (ns !! n) eqn:E.
  - destruct (ns !! m) eqn:E'; [done|]. case_decide; congruence.
  - rewrite lookup_insert. case_decide; subst.
    + by rewrite E.
    + by destruct (ns !! m).
Qed.

Lemma dom_add_node n (attrs : gmap string attr) G :
  dom (nodes (add_node n attrs G)) = {[ n ]} ∪ dom (nodes G).
Proof. simpl. by rewrite dom_insert_L. Qed.

Lemma edges_add_node n (attrs : gmap string attr) G :
  edges (add_node n attrs G) = edges G.
Proof. done. Qed.

Lemma dom_add_edge u v G :
  dom (nodes (add_edge u v G)) = {[ u; v ]} ∪ dom (nodes G).
Proof. simpl. rewrite !dom_touch. set_solver. Qed.

Lemma edges_add_edge u v G : edges (add_edge u v G) = {[ (u, v) ]} ∪ edges G.
Proof. done. Qed.

Lemma dom_set_attr G uid a x : dom (nodes (set_attr G uid a x)) = dom (nodes G).
Proof. simpl. apply dom_alter_L. Qed.

Lemma node_attr_add_edge u v G m k : node_attr (add_edge u v G) m k = node_attr G m k.
Proof.
  unfold node_attr. simpl. rewrite !lookup_touch.
  destruct (nodes G !! m) eqn:E; [done|].
  repeat case_decide; done.
Qed.

Lemma node_attr_add_node_ne n (attrs : gmap string attr) G m k :
  n ≠ m → node_attr (add_node n attrs G) m k = node_attr G m k.
Proof. intros. unfold node_attr. simpl. by rewrite lookup_insert_ne. Qed.

Lemma node_attr_add_node n (attrs : gmap string attr) G k :
  node_attr (add_node n attrs G) n k =
    match attrs !! k with
    | Some x => Some x
    | None => node_attr G n k
    end.
Proof.
  unfold node_attr. simpl. rewrite lookup_insert_eq. simpl.
  rewrite lookup_union. destruct (attrs !! k) eqn:E.
  - by destruct (default ∅ (nodes G !! n) !! k).
  - rewrite (left_id_L None _). by destruct (nodes G !! n).
Qed.

Lemma node_attr_set_attr G uid a x m k :
  node_attr (set_attr G uid a x) m k =
    if decide (uid = m ∧ a = k ∧ m ∈ dom (nodes G)) then Some x else node_attr G m k.
Proof.
  unfold node_attr. simpl. rewrite lookup_alter.
  destruct (decide (uid = m)) as [->|Hne].
  - destruct (nodes G !! m) as [y|] eqn:E; simpl.
    + destruct (decide (a = k)) as [->|Hk].
      * rewrite lookup_insert_eq. rewrite decide_True; [done|].
        split_and!; try done. by apply elem_of_dom_2 in E.
      * rewrite lookup_insert_ne by done. rewrite decide_False; [done|]. naive_solver.
    + rewrite decide_False; [done|]. intros (_ & _ & Hin).
      apply not_elem_of_dom in E. done.
  - rewrite decide_False; [done|]. naive_solver.
Qed.

End GraphFacts.

(** ** The attribute attacher *)

Section Attacher.
Context `{Host}.
Implicit Types (G : DiGraph) (n m uid a k : string).

Lemma attaches_refl uid sep G : attaches uid sep G G.
Proof. unfold attaches. naive_solver. Qed.

Lemma attaches_trans uid sep G1 G2 G3 :
  attaches uid sep G1 G2 → attaches uid sep G2 G3 → attaches uid sep G1 G3.
Proof.
  intros (D1 & E1 & S1 & N1 & X1 & C1 & I1) (D2 & E2 & S2 & N2 & X2 & C2 & I2).
  split_and!; [| | | | | |by auto].
  - set_solver.
  - set_solver.
  - auto.
  - intros n Hn. destruct (N2 n Hn) as [Hn'|?]; [|by right].
    destruct (N1 n Hn') as [?|(? & [?|?])]; auto.
  - intros e He. destruct (X2 e He) as [He'|?]; [|by right]. auto.
  - intros c Hc. destruct (C1 c Hc) as [Hc'|(? & ?)]; [auto|].
    right. split; [done|]. by apply E2.
Qed.

(** In inline mode [add_to_graph] writes one attribute of [uid], which
    was not a string before. *)
Lemma add_to_graph_inline G uid nn a G' :
  add_to_graph G uid nn a false = Ok G' →
  ∃ x, G' = set_attr G uid a x ∧ uid ∈ dom (nodes G)
       ∧ (∀ s, node_attr G uid a ≠ Some (AStr s))
       ∧ (a ∈ ["file_links"; "tags"] → ∃ idx, x = AIdx idx).
Proof.
  unfold add_to_graph, node_attr.
  destruct (nodes G !! uid) as [attrs|] eqn:E; [|done]. simpl.
  apply elem_of_dom_2 in E as Hin.
  destruct (attrs !! a) as [[s|m]|] eqn:Ea; [done| |].
  - intros [= <-]. eexists. split_and!; eauto.
  - case_bool_decide; intros [= <-]; eexists; split_and!; eauto. done.
Qed.

Lemma add_to_graph_inline_keeps G uid nn a G' m k s :
  add_to_graph G uid nn a false = Ok G' →
  node_attr G m k = Some (AStr s) → node_attr G' m k = Some (AStr s).
Proof.
  intros (x & -> & Hin & Hs & _)%add_to_graph_inline Hm.
  rewrite node_attr_set_attr. case_decide as Hd; [|done].
  destruct Hd as (-> & -> & _). by destruct (Hs s).
Qed.

Lemma add_to_graph_attaches G uid nn a (f sep : bool) G' :
  add_to_graph G uid nn a f = Ok G' → (f = true → sep = true) →
  attaches uid sep G G'.
Proof.
  destruct f; intros Hadd Hf.
  - injection Hadd as <-. rewrite Hf by done. unfold attaches.
    rewrite dom_add_edge, edges_add_edge, dom_add_node, edges_add_node.
    assert (Hsep : is_separate_node (add_edge uid nn (add_node nn separate_style G)) nn).
    { unfold is_separate_node. rewrite node_attr_add_edge, node_attr_add_node. done. }
    split_and!.
    + set_solver.
    + set_solver.
    + intros n Hn. unfold is_separate_node in *. rewrite node_attr_add_edge.
      destruct (decide (nn = n)) as [->|Hne].
      * by rewrite node_attr_add_node.
      * by rewrite node_attr_add_node_ne.
    + intros n Hn.
      destruct (decide (n = uid)) as [->|]; [by auto|].
      destruct (decide (n = nn)) as [->|]; [by auto|]. left. set_solver.
    + intros e He. apply elem_of_union in He as [->%elem_of_singleton|?]; auto.
    + intros c Hc. destruct (decide (nn = uid)) as [->|Hne].
      * right. split; [done|]. set_solver.
      * left. rewrite node_attr_add_edge. by rewrite node_attr_add_node_ne.
    + intros Hi n key s Hkey. rewrite node_attr_add_edge.
      destruct (decide (nn = n)) as [->|Hne].
      * rewrite node_attr_add_node.
        assert (separate_style !! key = None) as ->; [|by apply Hi].
        unfold separate_style. set_solver.
      * rewrite node_attr_add_node_ne by done. by apply Hi.
  - pose proof Hadd as (x & -> & Hin & Hs & Hx)%add_to_graph_inline.
    unfold attaches. rewrite dom_set_attr. simpl. split_and!; try done.
    + intros n Hn. by eapply add_to_graph_inline_keeps.
    + auto.
    + auto.
    + intros c Hc. left. by eapply add_to_graph_inline_keeps.
    + intros Hi n key s Hkey. rewrite node_attr_set_attr.
      case_decide as Hd; [|by apply Hi].
      destruct Hd as (_ & -> & _). destruct (Hx Hkey) as [idx ->]. done.
Qed.

Lemma handle_att_attaches uid sep G nn att G' nn' :
  handle_att uid sep (G, nn) att = Ok (G', nn') → attaches uid sep G G'.
Proof.
  unfold handle_att. simpl. intros Hatt.
  assert (∀ (r : result DiGraph) (f : bool) (x y : option string) s a,
    r = add_to_graph G uid s a f → (f = true → sep = true) →
    (G1 ← r; Ok (G1, x)) = Ok (G', y) → attaches uid sep G G') as Hwrite.
  { intros r f x y s a -> Hf Hr.
    destruct (add_to_graph G uid s a f) as [G1| |] eqn:E; simplify_eq/=.
    by eapply add_to_graph_attaches. }
  assert (∀ v : json,
    (ty ← getitem v "type";
     if truthy ty then
       if eq_str ty "file_link" then
         url ← getitem v "url"; link ← as_text url;
         G1 ← add_to_graph G uid link "file_links" false; Ok (G1, nn)
       else
         va ← value_and_name v ty;
         formatted ← format_value va.2 va.1;
         match from_option Some nn formatted with
         | None => Raise UnboundLocalError
         | Some node_name =>
             G1 ← add_to_graph G uid node_name va.2 sep; Ok (G1, Some node_name)
         end
     else Ok (G, nn)) = Ok (G', nn') → attaches uid sep G G') as Hobj.
  { intros v Hv.
    destruct (getitem v "type") as [ty| |]; simplify_eq/=.
    destruct (truthy ty); simplify_eq/=; [|apply attaches_refl].
    destruct (eq_str ty "file_link").
    - destruct (getitem v "url") as [url| |]; simplify_eq/=.
      destruct (as_text url) as [link| |]; simplify_eq/=.
      eapply Hwrite; [done| |done]. done.
    - destruct (value_and_name v ty) as [va| |]; simplify_eq/=.
      destruct (format_value va.2 va.1) as [fo| |]; simplify_eq/=.
      destruct (from_option Some nn fo) as [node_name|]; simplify_eq/=.
      eapply Hwrite; [done| |done]. done. }
  destruct att as [| | | |tag| |]; try exact (Hobj _ Hatt).
  destruct (contains "::" tag); simplify_eq/=; [|apply attaches_refl].
  eapply Hwrite; [done| |done]. done.
Qed.

Lemma for_each_handle_att_attaches uid sep atts G nn G' nn' :
  for_each (handle_att uid sep) atts (G, nn) = Ok (G', nn') → attaches uid sep G G'.
Proof.
  revert G nn. induction atts as [|att atts IH]; intros G nn Hloop; simpl in Hloop.
  - injection Hloop as <- <-. apply attaches_refl.
  - destruct (handle_att uid sep (G, nn) att) as [[G1 nn1]| |] eqn:E; simplify_eq/=.
    eapply attaches_trans; [by eapply handle_att_attaches|by eapply IH].
Qed.

Lemma handle_gemd_value_attaches G uid assets sep G' :
  handle_gemd_value G uid assets sep = Ok G' → attaches uid sep G G'.
Proof.
  unfold handle_gemd_value. intros Hv.
  destruct (py_iter assets) as [atts| |]; simplify_eq/=.
  destruct (for_each (handle_att uid sep) atts (G, None)) as [[G1 nn1]| |] eqn:E;
    simplify_eq/=.
  by eapply for_each_handle_att_attaches.
Qed.

Lemma add_assets_of_attaches enabled key uid obj_data sep G G' :
  add_assets_of enabled key uid obj_data sep G = Ok G' → attaches uid sep G G'.
Proof.
  unfold add_assets_of. destruct (enabled && has_key key obj_data).
  - destruct (dict_get obj_data key) as [assets| |]; simpl; [|done..].
    apply handle_gemd_value_attaches.
  - intros [= <-]. apply attaches_refl.
Qed.

Lemma add_gemd_assets_attaches G uid obj_data flags sep G' :
  add_gemd_assets G uid obj_data flags sep = Ok G' → attaches uid sep G G'.
Proof.
  unfold add_gemd_assets. intros Ha.
  repeat match type of Ha with
  | (mbind _ (add_assets_of ?e ?k ?u ?o ?s ?g)) = _ =>
      let E := fresh "E" in
      destruct (add_assets_of e k u o s g) eqn:E; simpl in Ha; [|done..];
      apply add_assets_of_attaches in E
  end.
  apply add_assets_of_attaches in Ha.
  eauto using attaches_trans.
Qed.

End Attacher.

(** ** handle_gemd_obj *)

Section Records.
Context `{Host}.
Implicit Types (G : DiGraph) (n m uid a : string) (obj_data : list (string * json)).

Lemma kind_of_branch obj_type k :
  kind_of obj_type = Some k →
  match k with
  | Process => startswith obj_type "process" = true
  | Ingredient =>
      startswith obj_type "process" = false ∧ startswith obj_type "ingredient" = true
  | Material =>
      startswith obj_type "process" = false ∧ startswith obj_type "ingredient" = false
      ∧ startswith obj_type "material" = true
  | Measurement =>
      startswith obj_type "process" = false ∧ startswith obj_type "ingredient" = false
      ∧ startswith obj_type "material" = false
      ∧ startswith obj_type "measurement" = true
  end.
Proof.
  unfold kind_of.
  destruct (startswith obj_type "process"); [by intros [= <-]|].
  destruct (startswith obj_type "ingredient"); [by intros [= <-]|].
  destruct (startswith obj_type "material"); [by intros [= <-]|].
  destruct (startswith obj_type "measurement"); [by intros [= <-]|done].
Qed.

(** A record of no kind, or of another variant, leaves the graph as it is. *)
Lemma handle_gemd_obj_passes G uid obj_data obj_type which flags sep :
  kind_of obj_type = None ∨ endswith obj_type which = false →
  handle_gemd_obj G uid obj_data obj_type which flags sep = Ok G.
Proof.
  unfold handle_gemd_obj, kind_of.
  destruct (startswith obj_type "process"), (startswith obj_type "ingredient"),
    (startswith obj_type "material"), (startswith obj_type "measurement"),
    (endswith obj_type which); naive_solver.
Qed.

Lemma node_attr_color_new uid c G :
  node_attr (add_node uid (color c) G) uid "color" = Some (AStr c).
Proof. rewrite node_attr_add_node. unfold color. by rewrite lookup_singleton_eq. Qed.

Lemma separate_add_node_color uid c G n :
  is_separate_node G n → is_separate_node (add_node uid (color c) G) n.
Proof.
  unfold is_separate_node. intros Hn. destruct (decide (uid = n)) as [->|].
  - rewrite node_attr_add_node. unfold color. by rewrite lookup_singleton_ne.
  - by rewrite node_attr_add_node_ne.
Qed.

Lemma separate_add_edge u v G n :
  is_separate_node (add_edge u v G) n ↔ is_separate_node G n.
Proof. unfold is_separate_node. by rewrite node_attr_add_edge. Qed.

Lemma referenced_ok obj_data key n :
  link_id obj_data key = Ok n → referenced obj_data key = Some n.
Proof. unfold referenced. by intros ->. Qed.

Lemma has_link_truthy obj_data key v :
  dict_get obj_data key = Ok v → has_link obj_data key = truthy v.
Proof.
  unfold dict_get, has_link. destruct (assoc key obj_data); [|done]. by intros [= ->].
Qed.

(** The effect of [handle_gemd_obj] on a record of kind [k] and of the
    requested variant. *)
Lemma handle_gemd_obj_wires G uid obj_data obj_type which flags sep k G' :
  handle_gemd_obj G uid obj_data obj_type which flags sep = Ok G' →
  kind_of obj_type = Some k → endswith obj_type which = true →
  ∃ E, expected_edges k uid obj_data = Some E
  ∧ uid ∈ dom (nodes G')
  ∧ (node_attr G' uid "color" = Some (AStr (kind_color k))
     ∨ (sep = true ∧ (uid, uid) ∈ edges G'))
  ∧ edges G ∪ E ⊆ edges G'
  ∧ (∀ e, e ∈ edges G' → e ∈ edges G ∨ e ∈ E ∨ (sep = true ∧ e.1 = uid))
  ∧ dom (nodes G) ⊆ dom (nodes G')
  ∧ (∀ n, n ∈ dom (nodes G') →
       n ∈ dom (nodes G) ∨ n = uid
       ∨ referenced obj_data "process" = Some n
       ∨ referenced obj_data "material" = Some n
       ∨ (sep = true ∧ is_separate_node G' n))
  ∧ (∀ n, is_separate_node G n → is_separate_node G' n).
Proof.
  intros Hh Hk Hw. apply kind_of_branch in Hk. unfold handle_gemd_obj in Hh.
  unfold expected_edges.
  destruct k; cbv beta iota in Hk.
  - (* process *)
    rewrite Hk, Hw in Hh.
    apply add_gemd_assets_attaches in Hh as (D & E & S & N & X & C & I).
    rewrite dom_add_node in D, N. rewrite edges_add_node in E, X.
    specialize (C _ (node_attr_color_new uid "red" G)).
    eexists. split; [done|].
    split_and!; [set_solver|done|set_solver| |set_solver| |].
    + intros e He. destruct (X e He); auto.
    + intros n Hn. destruct (N n Hn) as [?|(? & [?|?])]; [set_solver|naive_solver..].
    + intros n Hn. by apply S, separate_add_node_color.
  - (* ingredient *)
    destruct Hk as (Hp & Hk). rewrite Hp, Hk, Hw in Hh.
    destruct (link_id obj_data "process") as [p| |] eqn:Ep; simplify_eq/=.
    destruct (add_gemd_assets _ uid obj_data flags sep) as [G3| |] eqn:Ea; simplify_eq/=.
    apply add_gemd_assets_attaches in Ea as (D & E & S & N & X & C & I).
    rewrite dom_add_edge, dom_add_node in D, N.
    rewrite edges_add_edge, edges_add_node in E, X.
    rewrite (referenced_ok _ _ _ Ep). simpl.
    assert (node_attr (add_edge uid p (add_node uid (color "blue") G)) uid "color"
            = Some (AStr "blue")) as Hc
      by (by rewrite node_attr_add_edge, node_attr_color_new).
    specialize (C _ Hc).
    assert (∀ n, is_separate_node G n → is_separate_node G3 n) as S'.
    { intros n Hn. by apply S, separate_add_edge, separate_add_node_color. }
    destruct (has_link obj_data "material").
    + destruct (link_id obj_data "material") as [m| |] eqn:Em; simpl in Hh; [|done..].
      injection Hh as <-. rewrite (referenced_ok _ _ _ Em).
      eexists. split; [done|].
      rewrite dom_add_edge, edges_add_edge.
      split_and!; [set_solver| |set_solver| |set_solver| |].
      * rewrite node_attr_add_edge. destruct C as [?|(? & ?)]; [auto|].
        right. split; [done|]. set_solver.
      * intros e [->%elem_of_singleton|He]%elem_of_union; [set_solver|].
        destruct (X e He) as [?|?]; [set_solver|auto].
      * intros n [Hn|Hn]%elem_of_union.
        { set_solver. }
        destruct (N n Hn) as [?|(? & [?|?])]; [set_solver|naive_solver|].
        right; right; right; right. split; [done|]. by apply separate_add_edge.
      * intros n Hn. by apply separate_add_edge, S'.
    + injection Hh as <-. eexists. split; [done|].
      split_and!; [set_solver|done|set_solver| |set_solver| |done].
      * intros e He. destruct (X e He) as [?|?]; [set_solver|auto].
      * intros n Hn. destruct (N n Hn) as [?|(? & [?|?])]; [set_solver|naive_solver..].
  - (* material *)
    destruct Hk as (Hp & Hi & Hk). rewrite Hp, Hi, Hk, Hw in Hh.
    destruct (add_gemd_assets _ uid obj_data flags sep) as [G2| |] eqn:Ea; simplify_eq/=.
    apply add_gemd_assets_attaches in Ea as (D & E & S & N & X & C & I).
    rewrite dom_add_node in D, N. rewrite edges_add_node in E, X.
    specialize (C _ (node_attr_color_new uid "green" G)).
    assert (∀ n, is_separate_node G n → is_separate_node G2 n) as S'.
    { intros n Hn. by apply S, separate_add_node_color. }
    destruct (dict_get obj_data "process") as [link| |] eqn:El; simplify_eq/=.
    rewrite (has_link_truthy _ _ _ El).
    destruct (truthy link).
    + destruct (link_id obj_data "process") as [p| |] eqn:Ep; simpl in Hh; [|done..].
      injection Hh as <-. rewrite (referenced_ok _ _ _ Ep).
      eexists. split; [done|].
      rewrite dom_add_edge, edges_add_edge.
      split_and!; [set_solver| |set_solver| |set_solver| |].
      * rewrite node_attr_add_edge. destruct C as [?|(? & ?)]; [auto|].
        right. split; [done|]. set_solver.
      * intros e [->%elem_of_singleton|He]%elem_of_union; [set_solver|].
        destruct (X e He) as [?|?]; [set_solver|auto].
      * intros n [Hn|Hn]%elem_of_union.
        { set_solver. }
        destruct (N n Hn) as [?|(? & [?|?])]; [set_solver|naive_solver|].
        right; right; right; right. split; [done|]. by apply separate_add_edge.
      * intros n Hn. by apply separate_add_edge, S'.
    + injection Hh as <-. eexists. split; [done|].
      split_and!; [set_solver|done|set_solver| |set_solver| |done].
      * intros e He. destruct (X e He) as [?|?]; [set_solver|auto].
      * intros n Hn. destruct (N n Hn) as [?|(? & [?|?])]; [set_solver|naive_solver..].
  - (* measurement *)
    destruct Hk as (Hp & Hi & Hm & Hk). rewrite Hp, Hi, Hm, Hk, Hw in Hh.
    destruct (add_gemd_assets _ uid obj_data flags sep) as [G2| |] eqn:Ea; simplify_eq/=.
    apply add_gemd_assets_attaches in Ea as (D & E & S & N & X & C & I).
    rewrite dom_add_node in D, N. rewrite edges_add_node in E, X.
    specialize (C _ (node_attr_color_new uid "purple" G)).
    assert (∀ n, is_separate_node G n → is_separate_node G2 n) as S'.
    { intros n Hn. by apply S, separate_add_node_color. }
    destruct (has_link obj_data "material").
    + destruct (link_id obj_data "material") as [m| |] eqn:Em; simpl in Hh; [|done..].
      injection Hh as <-. rewrite (referenced_ok _ _ _ Em).
      eexists. split; [done|].
      rewrite dom_add_edge, edges_add_edge.
      split_and!; [set_solver| |set_solver| |set_solver| |].
      * rewrite node_attr_add_edge. destruct C as [?|(? & ?)]; [auto|].
        right. split; [done|]. set_solver.
      * intros e [->%elem_of_singleton|He]%elem_of_union; [set_solver|].
        destruct (X e He) as [?|?]; [set_solver|auto].
      * intros n [Hn|Hn]%elem_of_union.
        { set_solver. }
        destruct (N n Hn) as [?|(? & [?|?])]; [set_solver|naive_solver|].
        right; right; right; right. split; [done|]. by apply separate_add_edge.
      * intros n Hn. by apply separate_add_edge, S'.
    + injection Hh as <-. eexists. split; [done|].
      split_and!; [set_solver|done|set_solver| |set_solver| |done].
      * intros e He. destruct (X e He) as [?|?]; [set_solver|auto].
      * intros n Hn. destruct (N n Hn) as [?|(? & [?|?])]; [set_solver|naive_solver..].
Qed.

End Records.

(** ** Loops *)

Section Loops.
Context {S A : Type} (body : S → A → result S).

Lemma for_each_app l1 l2 s :
  for_each body (l1 ++ l2) s = s1 ← for_each body l1 s; for_each body l2 s1.
Proof.
  revert s. induction l1 as [|a l1 IH]; intros s; simpl; [done|].
  destruct (body s a); simpl; auto.
Qed.

(** A property kept by every round is kept by the loop. *)
Lemma for_each_invariant (P : S → Prop) l s s' :
  (∀ a s1 s2, a ∈ l → P s1 → body s1 a = Ok s2 → P s2) →
  P s → for_each body l s = Ok s' → P s'.
Proof.
  revert s. induction l as [|a l IH]; intros s Hstep Hs Hloop; simpl in Hloop.
  - by injection Hloop as <-.
  - destruct (body s a) as [s1| |] eqn:E; simpl in Hloop; [|done..].
    eapply IH; [|eapply Hstep; [|done..]|done].
    + intros. eapply Hstep; [|done..]. set_solver.
    + set_solver.
Qed.

(** The round of an element of the list, between two stretches of the loop. *)
Lemma for_each_round (R : relation S) `{!PreOrder R} l s s' a :
  (∀ b s1 s2, body s1 b = Ok s2 → R s1 s2) →
  for_each body l s = Ok s' → a ∈ l →
  ∃ s1 s2, R s s1 ∧ body s1 a = Ok s2 ∧ R s2 s'.
Proof.
  intros Hstep. revert s. induction l as [|b l IH]; intros s Hloop Ha.
  - by apply elem_of_nil in Ha.
  - simpl in Hloop. destruct (body s b) as [s1| |] eqn:E; simpl in Hloop; [|done..].
    assert (R s1 s') as Hrest.
    { clear -Hloop Hstep PreOrder0.
      apply (for_each_invariant (R s1) l s1 s'); [|done|done].
      intros c t1 t2 _ Ht1 Hc. etrans; [done|]. by eapply Hstep. }
    apply elem_of_cons in Ha as [->|Ha].
    + exists s, s1. done.
    + destruct (IH _ Hloop Ha) as (t1 & t2 & ? & ? & ?).
      exists t1, t2. split_and!; [|done..]. etrans; [|done]. by eapply Hstep.
Qed.

End Loops.

(** ** build_graph *)

Section Build.
Context `{Host}.
Implicit Types (G : DiGraph) (n m uid : string) (st : build_state).

(** The three ways through the body of the loop. *)
Lemma build_step_cases which track flags sep st obj st' :
  build_step which track flags sep st obj = Ok st' →
  (classify track obj = Ok Skipped ∧ st' = st)
  ∨ (classify track obj = Ok Disregarded
     ∧ st' = mkState (graph st) (name_mapping st) (Datatypes.S (nb_disregarded st)))
  ∨ (∃ uid name ty fields G',
       classify track obj = Ok (Tracked uid name ty fields)
       ∧ handle_gemd_obj (graph st) uid fields ty which flags sep = Ok G'
       ∧ st' = mkState G' (<[uid := label name uid]> (name_mapping st)) (nb_disregarded st)).
Proof.
  unfold build_step. destruct (classify track obj) as [[| |uid name ty fields]| |];
    simpl; try done.
  - intros [= <-]. auto.
  - intros [= <-]. auto.
  - destruct (handle_gemd_obj _ _ _ _ _ _ _) as [G'| |] eqn:E; simpl; try done.
    intros [= <-]. right; right. by exists uid, name, ty, fields, G'.
Qed.

Lemma eligible_spec which track obj :
  eligible which track obj = true ↔
  ∃ uid k fields, eligible_record which track obj uid k fields.
Proof.
  unfold eligible, eligible_record. split.
  - destruct (classify track obj) as [[| |uid name ty fields]| |]; try done.
    intros [Hk Hw]%andb_true_iff. apply bool_decide_eq_true in Hk as [k Hk].
    by exists uid, k, fields, name, ty.
  - intros (uid & k & fields & name & ty & -> & Hk & Hw).
    rewrite Hw, andb_true_r. apply bool_decide_eq_true. by rewrite Hk.
Qed.

#[local] Instance graph_grows_preorder : PreOrder graph_grows.
Proof.
  split.
  - intros G. unfold graph_grows. naive_solver.
  - intros G1 G2 G3 (? & ? & ?) (? & ? & ?). unfold graph_grows.
    split_and!; [set_solver..|auto].
Qed.

#[local] Instance state_grows_preorder : PreOrder state_grows.
Proof.
  split.
  - intros st. unfold state_grows. reflexivity.
  - intros s1 s2 s3 ? ?. unfold state_grows in *. by etrans.
Qed.

Lemma handle_gemd_obj_grows G uid fields ty which flags sep G' :
  handle_gemd_obj G uid fields ty which flags sep = Ok G' → graph_grows G G'.
Proof.
  intros Hh. destruct (kind_of ty) as [k|] eqn:Hk; [destruct (endswith ty which) eqn:Hw|].
  - destruct (handle_gemd_obj_wires _ _ _ _ _ _ _ _ _ Hh Hk Hw)
      as (E & _ & _ & _ & He & _ & Hd & _ & Hs).
    split_and!; [done|set_solver|done].
  - rewrite handle_gemd_obj_passes in Hh by auto. injection Hh as <-. reflexivity.
  - rewrite handle_gemd_obj_passes in Hh by auto. injection Hh as <-. reflexivity.
Qed.

Lemma build_step_grows which track flags sep st obj st' :
  build_step which track flags sep st obj = Ok st' → state_grows st st'.
Proof.
  intros [(_ & ->)|[(_ & ->)|(uid & name & ty & fields & G' & _ & Hh & ->)]]%build_step_cases;
    unfold state_grows; simpl; [reflexivity..|].
  by eapply handle_gemd_obj_grows.
Qed.

(** A record that is not eligible leaves the graph as it is. *)
Lemma build_step_not_eligible which track flags sep st obj st' :
  eligible which track obj = false →
  build_step which track flags sep st obj = Ok st' → graph st' = graph st.
Proof.
  intros He [(_ & ->)|[(_ & ->)|(uid & name & ty & fields & G' & Hc & Hh & ->)]]%build_step_cases;
    [done..|]. simpl.
  unfold eligible in He. rewrite Hc in He.
  rewrite handle_gemd_obj_passes in Hh; [by injection Hh as <-|].
  apply andb_false_iff in He as [Hk|Hw]; [left|by right].
  apply bool_decide_eq_false in Hk. destruct (kind_of ty); [|done].
  destruct Hk. eauto.
Qed.

(** The result of [build_graph] in terms of its loop. *)
Lemma build_graph_loop objs flags sep which track G R nm :
  build_graph objs flags sep which track = Ok (Some (G, R, nm)) →
  ∃ st, for_each (build_step which track flags sep) objs initial_state = Ok st
        ∧ G = graph st ∧ nm = name_mapping st ∧ R = map_to_graphviz G nm.
Proof.
  unfold build_graph. destruct (length objs =? 0)%nat; [done|].
  destruct (for_each _ objs initial_state) as [st| |]; simpl; [|done..].
  intros [= <- <- <-]. eauto.
Qed.

(** An eligible record has its node and its edges in the graph that is
    returned. *)
Lemma build_graph_keeps objs flags sep which track G R nm obj uid k fields :
  build_graph objs flags sep which track = Ok (Some (G, R, nm)) →
  obj ∈ objs → eligible_record which track obj uid k fields →
  ∃ E, expected_edges k uid fields = Some E ∧ uid ∈ dom (nodes G) ∧ E ⊆ edges G.
Proof.
  intros (st & Hloop & -> & _ & _)%build_graph_loop Hin (name & ty & Hc & Hk & Hw).
  destruct (for_each_round _ state_grows _ _ _ _
              (λ b s1 s2, build_step_grows which track flags sep s1 b s2) Hloop Hin)
    as (s1 & s2 & _ & Hstep & (Hd & He & _)).
  apply build_step_cases in Hstep
    as [(Hc' & _)|[(Hc' & _)|(uid' & name' & ty' & fields' & G' & Hc' & Hh & ->)]];
    rewrite Hc in Hc'; try done.
  injection Hc' as <- <- <- <-. simpl in *.
  destruct (handle_gemd_obj_wires _ _ _ _ _ _ _ _ _ Hh Hk Hw)
    as (E & HE & Hu & _ & Hx & _).
  exists E. split_and!; [done|set_solver..].
Qed.

(** Where the nodes of the returned graph come from. *)
Lemma build_graph_origin objs flags sep which track G R nm n :
  build_graph objs flags sep which track = Ok (Some (G, R, nm)) →
  n ∈ dom (nodes G) →
  (∃ obj uid k fields,
      obj ∈ objs ∧ eligible_record which track obj uid k fields
      ∧ (n = uid ∨ referenced fields "process" = Some n
         ∨ referenced fields "material" = Some n))
  ∨ (sep = true ∧ is_separate_node G n).
Proof.
  intros (st & Hloop & -> & _ & _)%build_graph_loop. revert n.
  set (P := λ st : build_state, ∀ n, n ∈ dom (nodes (graph st)) →
    (∃ obj uid k fields,
        obj ∈ objs ∧ eligible_record which track obj uid k fields
        ∧ (n = uid ∨ referenced fields "process" = Some n
           ∨ referenced fields "material" = Some n))
    ∨ (sep = true ∧ is_separate_node (graph st) n)).
  change (P st).
  apply (for_each_invariant (build_step which track flags sep) P objs initial_state st);
    [|by intros n; simpl; rewrite dom_empty_L; intros ?%not_elem_of_empty|done]; unfold P.
  intros obj s1 s2 Hin IH Hstep n Hn.
  apply build_step_cases in Hstep
    as [(_ & ->)|[(_ & ->)|(uid & name & ty & fields & G' & Hc & Hh & ->)]]; [by auto..|].
  simpl in *.
  destruct (kind_of ty) as [k|] eqn:Hk; [destruct (endswith ty which) eqn:Hw|].
  - destruct (handle_gemd_obj_wires _ _ _ _ _ _ _ _ _ Hh Hk Hw)
      as (E & _ & _ & _ & _ & _ & _ & Hn' & Hs).
    destruct (Hn' n Hn) as [Hold|Hnew].
    + destruct (IH n Hold) as [?|(? & ?)]; auto.
    + destruct Hnew as [?|[?|[?|?]]]; [| | |by auto];
        left; exists obj, uid, k, fields; (split_and!; [done| |by auto]);
        by exists name, ty.
  - rewrite handle_gemd_obj_passes in Hh by auto. injection Hh as <-. auto.
  - rewrite handle_gemd_obj_passes in Hh by auto. injection Hh as <-. auto.
Qed.

(** The name mapping holds the label of the last record read with the
    identifier. *)
Lemma build_graph_names pre obj post flags sep which track G R nm uid name ty fields :
  build_graph (pre ++ obj :: post) flags sep which track = Ok (Some (G, R, nm)) →
  classify track obj = Ok (Tracked uid name ty fields) →
  (∀ o name' ty' fields', o ∈ post →
     classify track o ≠ Ok (Tracked uid name' ty' fields')) →
  nm !! uid = Some (label name uid).
Proof.
  intros (st & Hloop & _ & -> & _)%build_graph_loop Hc Hpost.
  rewrite for_each_app in Hloop.
  destruct (for_each _ pre initial_state) as [s1| |]; simpl in Hloop; [|done..].
  destruct (build_step which track flags sep s1 obj) as [s2| |] eqn:Hstep;
    simpl in Hloop; [|done..].
  apply (for_each_invariant (build_step which track flags sep)
           (λ st, name_mapping st !! uid = Some (label name uid)) post s2 st); [| |done].
  - intros o t1 t2 Ho Ht1 Ht.
    apply build_step_cases in Ht
      as [(_ & ->)|[(_ & ->)|(uid' & name' & ty' & fields' & G' & Hc' & _ & ->)]];
      [done..|]. simpl.
    rewrite lookup_insert_ne; [done|]. intros ->. by eapply Hpost.
  - apply build_step_cases in Hstep
      as [(Hc' & _)|[(Hc' & _)|(uid' & name' & ty' & fields' & G' & Hc' & _ & ->)]];
      rewrite Hc in Hc'; try done.
    injection Hc' as <- <- <- <-. simpl. by rewrite lookup_insert_eq.
Qed.

End Build.

(** ** File links and tags stay indexed *)

Section Indexed.
Context `{Host}.
Implicit Types (G : DiGraph) (n m uid : string).

Lemma indexed_ok_empty : indexed_ok empty_graph.
Proof. intros n key s _. unfold node_attr. simpl. by rewrite lookup_empty. Qed.

Lemma indexed_ok_add_edge u v G : indexed_ok G → indexed_ok (add_edge u v G).
Proof. intros Hi n key s Hkey. rewrite node_attr_add_edge. by apply Hi. Qed.

Lemma indexed_ok_add_node_color uid c G :
  indexed_ok G → indexed_ok (add_node uid (color c) G).
Proof.
  intros Hi n key s Hkey. destruct (decide (uid = n)) as [->|].
  - rewrite node_attr_add_node.
    assert (color c !! key = None) as ->; [|by apply Hi].
    unfold color. apply lookup_singleton_ne. set_solver.
  - rewrite node_attr_add_node_ne by done. by apply Hi.
Qed.

Lemma handle_gemd_obj_indexed G uid fields ty which flags sep G' :
  handle_gemd_obj G uid fields ty which flags sep = Ok G' →
  indexed_ok G → indexed_ok G'.
Proof.
  intros Hh Hi. unfold handle_gemd_obj in Hh.
  repeat match type of Hh with
  | (if ?b then _ else _) = _ => destruct b
  | mbind _ (add_gemd_assets ?g ?u ?o ?f ?s) = _ =>
      let E := fresh "E" in
      destruct (add_gemd_assets g u o f s) eqn:E; simpl in Hh; [|done..];
      apply add_gemd_assets_attaches in E as (_ & _ & _ & _ & _ & _ & E)
  | mbind _ ?r = _ => destruct r; simpl in Hh; [|done..]
  | add_gemd_assets _ _ _ _ _ = _ =>
      apply add_gemd_assets_attaches in Hh as (_ & _ & _ & _ & _ & _ & Hh)
  end;
  try (injection Hh as <-);
  auto using indexed_ok_add_edge, indexed_ok_add_node_color.
Qed.

(** In the graph [build_graph] returns, the file links and the tags of a
    node are an index to value mapping. *)
Lemma build_graph_indexed objs flags sep which track G R nm :
  build_graph objs flags sep which track = Ok (Some (G, R, nm)) → indexed_ok G.
Proof.
  intros (st & Hloop & -> & _ & _)%build_graph_loop.
  apply (for_each_invariant (build_step which track flags sep)
           (λ st, indexed_ok (graph st)) objs initial_state st);
    [|apply indexed_ok_empty|done].
  intros obj s1 s2 _ Hs1
    [(_ & ->)|[(_ & ->)|(uid & name & ty & fields & G' & _ & Hh & ->)]]%build_step_cases;
    [done..|]. simpl. by eapply handle_gemd_obj_indexed.
Qed.

(** ** Tags and file links *)

Lemma handle_att_tag uid sep G nn tag :
  contains "::" tag = true →
  handle_att uid sep (G, nn) (JStr tag)
  = (G' ← add_to_graph G uid tag "tags" false; Ok (G', nn)).
Proof. unfold handle_att. by intros ->. Qed.

Lemma is_file_link_type att :
  is_file_link att = true →
  ∃ ty, getitem att "type" = Ok ty ∧ truthy ty = true ∧ eq_str ty "file_link" = true.
Proof.
  destruct att as [| | | | | |kv]; try done. unfold is_file_link, getitem, dict_get.
  destruct (assoc "type" kv) as [ty|]; [|done]. intros Hty. exists ty.
  split_and!; [done| |done].
  destruct ty as [| | | |s| |]; try done. simpl in *.
  apply String.eqb_eq in Hty as ->. done.
Qed.

Lemma handle_att_file_link uid sep G nn att :
  is_file_link att = true →
  handle_att uid sep (G, nn) att
  = (url ← getitem att "url"; link ← as_text url;
     G' ← add_to_graph G uid link "file_links" false; Ok (G', nn)).
Proof.
  intros Hl. destruct (is_file_link_type _ Hl) as (ty & Hty & Ht & He).
  unfold handle_att. destruct att; try done. simpl fst; simpl snd.
  rewrite Hty. simpl. by rewrite Ht, He.
Qed.

(** What an inline [add_to_graph] does under ["file_links"] and ["tags"]:
    the value goes at the next index of the mapping, which is created when
    there is none. *)
Lemma add_to_graph_indexed G uid v key :
  key ∈ ["file_links"; "tags"] → uid ∈ dom (nodes G) →
  (∀ s, node_attr G uid key ≠ Some (AStr s)) →
  ∃ idx,
    (node_attr G uid key = Some (AIdx idx) ∨ (node_attr G uid key = None ∧ idx = ∅))
    ∧ add_to_graph G uid v key false
      = Ok (set_attr G uid key (AIdx (<[size idx := v]> idx))).
Proof.
  intros Hkey [attrs Hu]%elem_of_dom Hs. unfold add_to_graph, node_attr in *.
  rewrite Hu in *. simpl in *.
  destruct (attrs !! key) as [[s|idx]|] eqn:E.
  - by destruct (Hs s).
  - exists idx. auto.
  - exists ∅. rewrite bool_decide_eq_true_2 by done.
    rewrite map_size_empty, insert_empty. auto.
Qed.

(** ** Separate nodes *)

(** An entry with a formatted value is neither a tag nor a file link. *)
Lemma formatted_value_kind att s :
  formatted_value att = Some s → is_tag att = false ∧ is_file_link att = false.
Proof.
  unfold formatted_value, is_tag, is_file_link.
  destruct att as [| | | | | |kv]; try done. unfold getitem, dict_get.
  destruct (assoc "type" kv) as [ty|]; [|done].
  destruct (eq_str ty "file_link"); [|done]. by rewrite andb_false_r.
Qed.

(** One round of [handle_gemd_value] in separate-node mode: the string
    kept in [node_name] and the nodes that are new are formatted values of
    the entries read so far. *)
Lemma handle_att_new_nodes uid (all : list json) G nn att G' nn' :
  handle_att uid true (G, nn) att = Ok (G', nn') →
  att ∈ all →
  (∀ s, nn = Some s → ∃ a, a ∈ all ∧ formatted_value a = Some s) →
  (∀ s, nn' = Some s → ∃ a, a ∈ all ∧ formatted_value a = Some s)
  ∧ (∀ n, n ∈ dom (nodes G') →
       n ∈ dom (nodes G) ∨ n = uid ∨ ∃ a, a ∈ all ∧ formatted_value a = Some n).
Proof.
  intros Hatt Hin Hnn.
  assert (∀ (x : option string) s a,
    (G1 ← add_to_graph G uid s a false; Ok (G1, x)) = Ok (G', nn') →
    x = nn' ∧ dom (nodes G') = dom (nodes G)) as Hinline.
  { intros x s a Hr.
    destruct (add_to_graph G uid s a false) as [G1| |] eqn:E; simplify_eq/=.
    apply add_to_graph_inline in E as (y & -> & _). by rewrite dom_set_attr. }
  assert (∀ v : json,
    (∀ t, v ≠ JStr t) → v = att →
    (ty ← getitem v "type";
     if truthy ty then
       if eq_str ty "file_link" then
         url ← getitem v "url"; link ← as_text url;
         G1 ← add_to_graph G uid link "file_links" false; Ok (G1, nn)
       else
         va ← value_and_name v ty;
         formatted ← format_value va.2 va.1;
         match from_option Some nn formatted with
         | None => Raise UnboundLocalError
         | Some node_name =>
             G1 ← add_to_graph G uid node_name va.2 true; Ok (G1, Some node_name)
         end
     else Ok (G, nn)) = Ok (G', nn') →
    (∀ s, nn' = Some s → ∃ a, a ∈ all ∧ formatted_value a = Some s)
    ∧ (∀ n, n ∈ dom (nodes G') →
         n ∈ dom (nodes G) ∨ n = uid ∨ ∃ a, a ∈ all ∧ formatted_value a = Some n))
    as Hobj.
  { intros v Hv -> Hr.
    destruct (getitem att "type") as [ty| |] eqn:Ety; simplify_eq/=.
    destruct (truthy ty) eqn:Et; simplify_eq/=; [|by auto].
    destruct (eq_str ty "file_link") eqn:Ef.
    - destruct (getitem att "url") as [url| |]; simplify_eq/=.
      destruct (as_text url) as [link| |]; simplify_eq/=.
      apply Hinline in Hr as [<- ->]. auto.
    - destruct (value_and_name att ty) as [va| |] eqn:Eva; simplify_eq/=.
      destruct (format_value va.2 va.1) as [fo| |] eqn:Efo; simplify_eq/=.
      assert (∀ s, from_option Some nn fo = Some s →
                ∃ a, a ∈ all ∧ formatted_value a = Some s) as Hname.
      { intros s Hs. destruct fo as [s'|]; simpl in Hs; [|by auto].
        injection Hs as ->. exists att. split; [done|]. unfold formatted_value.
        destruct att; try done; try (by destruct (Hv s0));
          rewrite Ety; simpl; rewrite Et, Ef; simpl; rewrite Eva; simpl;
          by rewrite Efo. }
      destruct (from_option Some nn fo) as [node_name|]; simplify_eq/=.
      split; [done|].
      intros n. rewrite !dom_touch, dom_insert_L.
      intros [->%elem_of_singleton|[->%elem_of_singleton
             |[->%elem_of_singleton|?]%elem_of_union]%elem_of_union]%elem_of_union;
        auto. }
  unfold handle_att in Hatt. cbn [fst snd] in Hatt.
  destruct att as [| | | |tag| |];
    try (by eapply Hobj; [|reflexivity|exact Hatt]).
  destruct (contains "::" tag); [|by injection Hatt as <- <-; auto].
  apply Hinline in Hatt as [<- ->]. auto.
Qed.

Lemma for_each_handle_att_new_nodes uid (all atts : list json) G nn G' nn' n :
  for_each (handle_att uid true) atts (G, nn) = Ok (G', nn') →
  (∀ a, a ∈ atts → a ∈ all) →
  (∀ s, nn = Some s → ∃ a, a ∈ all ∧ formatted_value a = Some s) →
  n ∈ dom (nodes G') →
  n ∈ dom (nodes G) ∨ n = uid ∨ ∃ a, a ∈ all ∧ formatted_value a = Some n.
Proof.
  revert G nn. induction atts as [|att atts IH]; intros G nn Hloop Hsub Hnn Hn;
    simpl in Hloop.
  - injection Hloop as <- <-. auto.
  - destruct (handle_att uid true (G, nn) att) as [[G1 nn1]| |] eqn:E; simplify_eq/=.
    destruct (handle_att_new_nodes uid all _ _ _ _ _ E) as [Hnn1 Hn1];
      [set_solver|done|].
    destruct (IH _ _ Hloop) as [?|?]; [set_solver|done|done|auto|auto].
Qed.

(** A node that [handle_gemd_value] adds for the record [uid] in
    separate-node mode is the formatted value of one of the entries. *)
Lemma handle_gemd_value_new_nodes G uid assets G' n :
  handle_gemd_value G uid assets true = Ok G' →
  uid ∈ dom (nodes G) → n ∈ dom (nodes G') → n ∉ dom (nodes G) →
  ∃ atts att, py_iter assets = Ok atts ∧ att ∈ atts ∧ formatted_value att = Some n
              ∧ is_tag att = false ∧ is_file_link att = false.
Proof.
  unfold handle_gemd_value. intros Hv Hu Hn Hnew.
  destruct (py_iter assets) as [atts| |]; simplify_eq/=.
  destruct (for_each (handle_att uid true) atts (G, None)) as [[G1 nn1]| |] eqn:E;
    simplify_eq/=.
  destruct (for_each_handle_att_new_nodes uid atts atts _ _ _ _ n E)
    as [?|[->|(att & Hin & Hf)]]; [done|done|done|done|done|].
  exists atts, att. split_and!; try done; by eapply formatted_value_kind.
Qed.

End Indexed.

(** ** slice_subgraph *)

Section Slicing.
Implicit Types (G : DiGraph) (n uuid : string) (els : gset string).

Lemma dom_subgraph G els n :
  n ∈ dom (nodes (subgraph G els)) ↔ n ∈ dom (nodes G) ∧ n ∈ els.
Proof.
  simpl. rewrite !elem_of_dom. unfold is_Some.
  setoid_rewrite map_lookup_filter_Some. naive_solver.
Qed.

Lemma nodes_subgraph G els n :
  n ∈ els → nodes (subgraph G els) !! n = nodes G !! n.
Proof.
  intros Hn. simpl. apply option_eq. intros x.
  rewrite map_lookup_filter_Some. naive_solver.
Qed.

Lemma edges_subgraph G els e :
  e ∈ edges (subgraph G els) ↔ e ∈ edges G ∧ e.1 ∈ els ∧ e.2 ∈ els.
Proof. simpl. rewrite elem_of_filter. naive_solver. Qed.

Lemma slice_union G uuid (funcs : list node_function) (sets : list (gset string)) acc :
  Forall2 (λ (func : node_function) found, func G uuid = Ok found) funcs sets →
  for_each (λ els (func : node_function), found ← func G uuid; Ok (els ∪ found))
    funcs acc = Ok (acc ∪ ⋃ sets).
Proof.
  intros Hall. revert acc. induction Hall as [|func found funcs sets Hf _ IH];
    intros acc; simpl.
  - by rewrite (right_id_L ∅ (∪)).
  - rewrite Hf. simpl. rewrite IH. by rewrite (assoc_L (∪)).
Qed.

Lemma slice_subgraph_union G uuid funcs sets add_current :
  Forall2 (λ (func : node_function) found, func G uuid = Ok found) funcs sets →
  slice_subgraph G uuid funcs add_current
  = Ok (subgraph G (⋃ sets ∪ (if add_current then {[ uuid ]} else ∅))).
Proof.
  intros Hall. unfold slice_subgraph. rewrite (slice_union _ _ _ sets) by done.
  simpl. rewrite (left_id_L ∅ (∪)). destruct add_current; [done|].
  by rewrite (right_id_L ∅ (∪)).
Qed.

(** ** Edges are held once *)

Lemma touch_touch n ns : touch n (touch n ns) = touch n ns.
Proof.
  apply map_eq. intros m. rewrite !lookup_touch.
  destruct (ns !! m); [done|]. by case_decide.
Qed.

Lemma touch_comm n m ns : touch n (touch m ns) = touch m (touch n ns).
Proof.
  apply map_eq. intros k. rewrite !lookup_touch.
  destruct (ns !! k); [done|]. repeat case_decide; done.
Qed.

Lemma add_edge_twice u v G : add_edge u v (add_edge u v G) = add_edge u v G.
Proof.
  unfold add_edge. simpl. f_equal.
  - apply map_eq. intros k. rewrite !lookup_touch.
    destruct (nodes G !! k); [done|]. repeat case_decide; done.
  - set_solver.
Qed.

End Slicing.

(** * The builder against its specification *)

Section Claims.
Context `{Host}.

(** C2, as amended.  In the graph [build_graph] returns, every record of
    a matching kind that exposes the tracked identifier has a node keyed by
    it; every node is the identifier of such a record, or the process or
    material identifier that such a record refers to, or, in separate-node
    mode, a separate attribute node; and a record that fails either
    condition leaves the graph as it is. *)
Theorem build_graph_nodes objs flags sep which track G R nm :
  build_graph objs flags sep which track = Ok (Some (G, R, nm)) →
  (∀ obj uid k fields,
     obj ∈ objs → eligible_record which track obj uid k fields →
     uid ∈ dom (nodes G))
  ∧ (∀ n, n ∈ dom (nodes G) →
       (∃ obj uid k fields,
           obj ∈ objs ∧ eligible_record which track obj uid k fields
           ∧ (n = uid ∨ referenced fields "process" = Some n
              ∨ referenced fields "material" = Some n))
       ∨ (sep = true ∧ is_separate_node G n))
  ∧ (∀ st obj st',
       eligible which track obj = false →
       build_step which track flags sep st obj = Ok st' → graph st' = graph st).
Proof.
  intros Hb. split_and!.
  - intros obj uid k fields Hin He.
    by destruct (build_graph_keeps _ _ _ _ _ _ _ _ _ _ _ _ Hb Hin He) as (E & _ & ? & _).
  - intros n Hn. by eapply build_graph_origin.
  - intros st obj st'. apply build_step_not_eligible.
Qed.

(** C6, as amended.  [build_graph] returns [None] on the empty list of
    records and on no other input; when the list is not empty and none of
    its records is eligible, what it returns holds the empty graph. *)
Theorem build_graph_empty_input :
  (∀ flags sep which track, build_graph [] flags sep which track = Ok None)
  ∧ (∀ objs flags sep which track,
       objs ≠ [] → build_graph objs flags sep which track ≠ Ok None)
  ∧ (∀ objs flags sep which track G R nm,
       build_graph objs flags sep which track = Ok (Some (G, R, nm)) →
       (∀ obj, obj ∈ objs → eligible which track obj = false) →
       G = empty_graph).
Proof.
  split_and!.
  - done.
  - intros objs flags sep which track Hne.
    destruct objs as [|obj objs]; [done|]. unfold build_graph.
    replace (length (obj :: objs) =? 0)%nat with false by done.
    by destruct (for_each (build_step which track flags sep) (obj :: objs) initial_state).
  - intros objs flags sep which track G R nm
      (st & Hloop & -> & _ & _)%build_graph_loop Hnone.
    apply (for_each_invariant (build_step which track flags sep)
             (λ st, graph st = empty_graph) objs initial_state st); [|done|done].
    intros obj s1 s2 Hin Hs1 Hstep. rewrite <- Hs1.
    eapply build_step_not_eligible; [|done]. by apply Hnone.
Qed.

(** C9, as amended.  The name mapping maps the identifier of a record to
    its name, a comma, two spaces and the first three characters of the
    identifier; when several records carry the identifier the label is
    that of the last one read.  The mapping is the one the relabelled
    graph is made with. *)
Theorem name_mapping_label pre obj post flags sep which track G R nm
    uid name ty fields :
  build_graph (pre ++ obj :: post) flags sep which track = Ok (Some (G, R, nm)) →
  classify track obj = Ok (Tracked uid name ty fields) →
  (∀ o name' ty' fields', o ∈ post →
     classify track o ≠ Ok (Tracked uid name' ty' fields')) →
  nm !! uid = Some (fmt name ++ ",  " ++ first3 uid)
  ∧ R = map_to_graphviz G nm.
Proof.
  intros Hb Hc Hpost. split.
  - by eapply build_graph_names.
  - by apply build_graph_loop in Hb as (st & _ & _ & _ & ->).
Qed.

(** C3: the code does not drop a value of an unrecognised type.  With
    nothing formatted before it in the collection, [node_name] is not
    bound and the build ends in [UnboundLocalError], in both modes; after
    a formatted value, the inline mode writes that earlier string under the
    name of the unrecognised attribute. *)
Theorem unrecognized_value_type_not_dropped :
  build_graph [p_unsupported] all_assets false "spec" "auto" = Raise UnboundLocalError
  ∧ build_graph [p_unsupported] all_assets true "spec" "auto" = Raise UnboundLocalError
  ∧ ∃ G R nm,
      build_graph [p_stale] all_assets false "spec" "auto" = Ok (Some (G, R, nm))
      ∧ node_attr G "p1" "Phase" = Some (AStr "Atmosphere, argon").
Proof.
  split_and!; [by vm_compute..|].
  eexists _, _, _. split; [vm_compute; reflexivity|]. by vm_compute.
Qed.

(** C4: in inline mode the second value under an attribute name other
    than ["file_links"] and ["tags"] is not appended: the first one is a
    string, which has no item assignment, and the build ends in
    [TypeError]. *)
Theorem second_occurrence_raises :
  build_graph [p_twice] all_assets false "spec" "auto" = Raise TypeError.
Proof. by vm_compute. Qed.

(** C7: a material record without a ["process"] key ends the build in
    [KeyError], after its node is made; with the key present and empty the
    node is made and no edge is added. *)
Theorem material_without_process_key :
  (∀ flags sep,
     build_graph [m_no_process] flags sep "spec" "auto" = Raise KeyError)
  ∧ (∀ flags sep,
       ∃ G R nm,
         build_graph [m_null_process] flags sep "spec" "auto" = Ok (Some (G, R, nm))
         ∧ dom (nodes G) = {[ "m1" ]} ∧ edges G = ∅).
Proof.
  split.
  - intros [a b c] sep; destruct a, b, c, sep; vm_compute; reflexivity.
  - intros [a b c] sep; destruct a, b, c, sep; eexists _, _, _;
      (split; [vm_compute; reflexivity|]); vm_compute; done.
Qed.

End Claims.

(** C5.  [slice_subgraph] returns the subgraph of [G] induced by the
    union of the sets its functions give at the anchor, to which the anchor
    is added when [add_current] holds and only then: the nodes of [G] in
    that set with their attributes, and the edges of [G] between two of
    them.  On the chain A -> B -> C with the ancestors of C, the nodes are
    A, B, C with the anchor and A, B without. *)
Theorem slice_subgraph_induced :
  (∀ G uuid (funcs : list node_function) (sets : list (gset string))
     (add_current : bool),
     Forall2 (λ (func : node_function) found, func G uuid = Ok found) funcs sets →
     let els : gset string := ⋃ sets ∪ (if add_current then {[ uuid ]} else ∅) in
     ∃ G',
       slice_subgraph G uuid funcs add_current = Ok G'
       ∧ (∀ n, n ∈ dom (nodes G') ↔ n ∈ dom (nodes G) ∧ n ∈ els)
       ∧ (∀ n, n ∈ els → nodes G' !! n = nodes G !! n)
       ∧ (∀ e, e ∈ edges G' ↔ e ∈ edges G ∧ e.1 ∈ els ∧ e.2 ∈ els))
  ∧ (∃ G', slice_subgraph chain "C" [ancestors] true = Ok G'
           ∧ dom (nodes G') = {[ "A"; "B"; "C" ]})
  ∧ (∃ G', slice_subgraph chain "C" [ancestors] false = Ok G'
           ∧ dom (nodes G') = {[ "A"; "B" ]}).
Proof.
  split_and!.
  - intros G uuid funcs sets add_current Hall els.
    exists (subgraph G els). split_and!.
    + by apply slice_subgraph_union.
    + apply dom_subgraph.
    + intros n. apply nodes_subgraph.
    + apply edges_subgraph.
  - eexists. split; [vm_compute; reflexivity|]. by vm_compute.
  - eexists. split; [vm_compute; reflexivity|]. by vm_compute.
Qed.

(** C8, as amended.  The graph holds an edge once: adding an edge that
    is there changes nothing, and there is one edge from [u] to [v] after
    it was added twice. *)
Theorem edges_held_once G u v :
  add_edge u v (add_edge u v G) = add_edge u v G
  ∧ number_of_edges_between (add_edge u v (add_edge u v G)) u v = 1
  ∧ number_of_edges (add_edge u v (add_edge u v G)) = number_of_edges (add_edge u v G).
Proof.
  rewrite add_edge_twice. split_and!; [done| |done].
  unfold number_of_edges_between. rewrite decide_True; [done|].
  rewrite edges_add_edge. set_solver.
Qed.

#[local] Arguments handle_att : simpl never.

(** ** What the defects look like in general *)

Section Defects.
Context `{Host}.

(** The first value under a name is stored as a string. *)
Lemma add_to_graph_first G uid attrs v a :
  nodes G !! uid = Some attrs → attrs !! a = None →
  a ∉ ["file_links"; "tags"] →
  add_to_graph G uid v a false = Ok (set_attr G uid a (AStr v)).
Proof.
  intros Hu Ha Hn. unfold add_to_graph. rewrite Hu, Ha.
  by rewrite bool_decide_eq_false_2.
Qed.

(** A string under the name cannot be extended. *)
Lemma add_to_graph_second G uid attrs v a s :
  nodes G !! uid = Some attrs → attrs !! a = Some (AStr s) →
  add_to_graph G uid v a false = Raise TypeError.
Proof. intros Hu Ha. unfold add_to_graph. by rewrite Hu, Ha. Qed.

(** Three tags in a row are kept in order, equal or not. *)
Lemma tags_in_sequence G uid attrs v1 v2 v3 sep :
  nodes G !! uid = Some attrs → attrs !! "tags" = None →
  contains "::" v1 = true → contains "::" v2 = true → contains "::" v3 = true →
  ∃ G', handle_gemd_value G uid (JList [JStr v1; JStr v2; JStr v3]) sep = Ok G'
        ∧ node_attr G' uid "tags"
          = Some (AIdx (<[2%nat := v3]> (<[1%nat := v2]> {[ 0%nat := v1 ]}))).
Proof.
  intros Hu Ht H1 H2 H3.
  assert (∀ G0 idx v,
    node_attr G0 uid "tags" = Some (AIdx idx) →
    add_to_graph G0 uid v "tags" false
    = Ok (set_attr G0 uid "tags" (AIdx (<[size idx := v]> idx)))) as Hnext.
  { intros G0 idx v Hidx. unfold add_to_graph, node_attr in *.
    destruct (nodes G0 !! uid) as [a0|]; [|done]. simpl in Hidx. by rewrite Hidx. }
  assert (∀ G0 x, uid ∈ dom (nodes G0) →
    node_attr (set_attr G0 uid "tags" x) uid "tags" = Some x) as Hread.
  { intros G0 x Hin. rewrite node_attr_set_attr. by rewrite decide_True. }
  assert (uid ∈ dom (nodes G)) as Hin by (by apply elem_of_dom_2 in Hu).
  unfold handle_gemd_value. simpl.
  rewrite handle_att_tag by done. unfold add_to_graph at 1. rewrite Hu, Ht. simpl.
  rewrite handle_att_tag by done.
  rewrite (Hnext _ {[ 0%nat := v1 ]}) by (by apply Hread). simpl.
  rewrite handle_att_tag by done. rewrite map_size_singleton.
  rewrite (Hnext _ (<[1%nat := v2]> {[ 0%nat := v1 ]}))
    by (apply Hread; by rewrite dom_set_attr). simpl.
  eexists. split; [done|].
  rewrite Hread by (by rewrite !dom_set_attr).
  rewrite map_size_insert_None by done. by rewrite map_size_singleton.
Qed.

(** A value whose type is none of the eight leaves [node_name] as it was. *)
Lemma format_value_unrecognized att_name value ty :
  getitem value "type" = Ok ty →
  (∀ t, t ∈ recognized_types → eq_str ty t = false) →
  format_value att_name value = Ok None.
Proof.
  intros Hty Hnone. unfold format_value. rewrite Hty. simpl.
  rewrite !Hnone; [done|unfold recognized_types; set_solver..].
Qed.

(** The first entry of a collection, when its value is of none of the
    eight types, ends the call. *)
Lemma handle_att_unbound uid sep G att ty va :
  (∀ t, att ≠ JStr t) → getitem att "type" = Ok ty →
  truthy ty = true → eq_str ty "file_link" = false →
  value_and_name att ty = Ok va → format_value va.2 va.1 = Ok None →
  handle_att uid sep (G, None) att = Raise UnboundLocalError.
Proof.
  intros Hs Hty Ht Hf Hva Hfo. unfold handle_att.
  destruct att; try (by destruct (Hs s));
    rewrite Hty; simpl; rewrite Ht, Hf, Hva; simpl; by rewrite Hfo.
Qed.

(** A material without the key ["process"] ends the call once its
    assets are attached. *)
Lemma material_missing_process G uid obj_data obj_type which flags sep G2 :
  kind_of obj_type = Some Material → endswith obj_type which = true →
  assoc "process" obj_data = None →
  add_gemd_assets (add_node uid (color "green") G) uid obj_data flags sep = Ok G2 →
  handle_gemd_obj G uid obj_data obj_type which flags sep = Raise KeyError.
Proof.
  intros (Hp & Hi & Hm)%kind_of_branch Hw Hnone Ha. unfold handle_gemd_obj.
  rewrite Hp, Hi, Hm, Hw, Ha. simpl. unfold dict_get. by rewrite Hnone.
Qed.

(** A material whose ["process"] is there and empty gets its node and
    its assets, and no edge. *)
Lemma material_empty_process G uid obj_data obj_type which flags sep link :
  kind_of obj_type = Some Material → endswith obj_type which = true →
  assoc "process" obj_data = Some link → truthy link = false →
  handle_gemd_obj G uid obj_data obj_type which flags sep
  = add_gemd_assets (add_node uid (color "green") G) uid obj_data flags sep.
Proof.
  intros (Hp & Hi & Hm)%kind_of_branch Hw Hl Ht. unfold handle_gemd_obj.
  rewrite Hp, Hi, Hm, Hw. unfold dict_get. rewrite Hl.
  destruct (add_gemd_assets _ uid obj_data flags sep); simpl; [|done..].
  by rewrite Ht.
Qed.

End Defects.

(** ** The statements at concrete inputs *)

(** C2 fails on the material m1 read alone: the process p1 it refers to
    becomes a node, and no record of the input has that identifier. *)
Lemma node_without_record_counterexample :
  build_graph (H := example_host) [m1] no_assets false "spec" "auto"
  = Ok (Some (material_alone,
              map_to_graphviz (H := example_host) material_alone {[ "m1" := "Alloy,  m1" ]},
              {[ "m1" := "Alloy,  m1" ]}))
  ∧ "p1" ∈ dom (nodes material_alone)
  ∧ ¬ ∃ obj uid k fields,
        obj ∈ [m1]
        ∧ eligible_record (H := example_host) "spec" "auto" obj uid k fields
        ∧ uid = "p1".
Proof.
  split_and!.
  - vm_compute. reflexivity.
  - apply (bool_decide_unpack _). vm_compute. exact I.
  - intros (obj & uid & k & fields & ->%list_elem_of_singleton
            & (name & ty & Hc & _) & ->).
    vm_compute in Hc. discriminate Hc.
Qed.

(** C2, as amended, at the material m1 read alone. *)
Lemma build_graph_nodes_witness :
  build_graph (H := example_host) [m1] no_assets false "spec" "auto"
  = Ok (Some (material_alone,
              map_to_graphviz (H := example_host) material_alone {[ "m1" := "Alloy,  m1" ]},
              {[ "m1" := "Alloy,  m1" ]}))
  ∧ ∀ n, n ∈ dom (nodes material_alone) →
      (∃ obj uid k fields,
          obj ∈ [m1]
          ∧ eligible_record (H := example_host) "spec" "auto" obj uid k fields
          ∧ (n = uid ∨ referenced fields "process" = Some n
             ∨ referenced fields "material" = Some n))
      ∨ (false = true ∧ is_separate_node material_alone n).
Proof.
  assert (build_graph (H := example_host) [m1] no_assets false "spec" "auto"
          = Ok (Some (material_alone,
                      map_to_graphviz (H := example_host) material_alone
                        {[ "m1" := "Alloy,  m1" ]},
                      {[ "m1" := "Alloy,  m1" ]}))) as Hb
    by (vm_compute; reflexivity).
  split; [exact Hb|].
  exact (proj1 (proj2 (build_graph_nodes _ _ _ _ _ _ _ _ Hb))).
Defined.

(** C5 at the chain, with the ancestors of C and the anchor. *)
Lemma slice_subgraph_induced_witness :
  Forall2 (λ (func : node_function) found, func chain "C" = Ok found)
    [ancestors] [{[ "A"; "B" ]}]
  ∧ ∃ G',
      slice_subgraph chain "C" [ancestors] true = Ok G'
      ∧ (∀ n, n ∈ dom (nodes G') ↔
              n ∈ dom (nodes chain) ∧ n ∈ ⋃ [{[ "A"; "B" ]}] ∪ ({[ "C" ]} : gset string))
      ∧ (∀ n, n ∈ ⋃ [{[ "A"; "B" ]}] ∪ ({[ "C" ]} : gset string) →
              nodes G' !! n = nodes chain !! n)
      ∧ (∀ e, e ∈ edges G' ↔
              e ∈ edges chain
              ∧ e.1 ∈ ⋃ [{[ "A"; "B" ]}] ∪ ({[ "C" ]} : gset string)
              ∧ e.2 ∈ ⋃ [{[ "A"; "B" ]}] ∪ ({[ "C" ]} : gset string)).
Proof.
  assert (Forall2 (λ (func : node_function) found, func chain "C" = Ok found)
            [ancestors] [{[ "A"; "B" ]}]) as Hall.
  { constructor; [vm_compute; reflexivity|constructor]. }
  split; [exact Hall|].
  exact (proj1 slice_subgraph_induced chain "C" [ancestors] [{[ "A"; "B" ]}] true Hall).
Defined.

(** C6 fails on one material run when specs are asked for: no record is
    eligible, and the result is the triple with the empty graph. *)
Lemma ineligible_records_counterexample :
  eligible (H := example_host) "spec" "auto" m1_run = false
  ∧ build_graph (H := example_host) [m1_run] no_assets false "spec" "auto"
    = Ok (Some (empty_graph,
                map_to_graphviz (H := example_host) empty_graph {[ "m1" := "Alloy,  m1" ]},
                {[ "m1" := "Alloy,  m1" ]}))
  ∧ build_graph (H := example_host) [m1_run] no_assets false "spec" "auto" ≠ Ok None.
Proof.
  split_and!.
  - vm_compute. reflexivity.
  - vm_compute. reflexivity.
  - vm_compute. discriminate.
Qed.

(** C6, as amended, at that input. *)
Lemma build_graph_empty_input_witness :
  [m1_run] ≠ []
  ∧ build_graph (H := example_host) [m1_run] no_assets false "spec" "auto" ≠ Ok None.
Proof.
  assert ([m1_run] ≠ []) as Hne by discriminate.
  split; [exact Hne|].
  exact (proj1 (proj2 (build_graph_empty_input (H := example_host)))
           [m1_run] no_assets false "spec" "auto" Hne).
Defined.

(** C8 fails on the ingredient i1 read twice: the edge from i1 to p1 is
    there once, and the graph has the two edges of one reading. *)
Lemma parallel_edges_counterexample :
  build_graph (H := example_host) [i1; i1] no_assets false "spec" "auto"
  = Ok (Some (ingredient_alone,
              map_to_graphviz (H := example_host) ingredient_alone {[ "i1" := "Powder,  i1" ]},
              {[ "i1" := "Powder,  i1" ]}))
  ∧ number_of_edges_between ingredient_alone "i1" "p1" = 1
  ∧ ¬ (2 ≤ number_of_edges_between ingredient_alone "i1" "p1")%nat
  ∧ number_of_edges ingredient_alone = 2.
Proof.
  split_and!.
  - vm_compute. reflexivity.
  - vm_compute. reflexivity.
  - vm_compute. lia.
  - vm_compute. reflexivity.
Qed.

(** C9 fails on the process p1: its label has two spaces after the
    comma. *)
Lemma label_counterexample :
  build_graph (H := example_host) [p1] no_assets false "spec" "auto"
  = Ok (Some (process_alone,
              map_to_graphviz (H := example_host) process_alone {[ "p1" := "Melting,  p1" ]},
              {[ "p1" := "Melting,  p1" ]}))
  ∧ ({[ "p1" := "Melting,  p1" ]} : gmap string string) !! "p1"
    ≠ Some ("Melting" ++ ", " ++ first3 "p1").
Proof.
  split.
  - vm_compute. reflexivity.
  - vm_compute. discriminate.
Qed.

(** * Further properties of the module *)

(** ** A property of the graph that every step keeps *)

Section AttachInvariant.
Context `{Host} (P : DiGraph → Prop) (uid : string).
Hypothesis P_attach :
  ∀ G v a f G', P G → add_to_graph G uid v a f = Ok G' → P G'.

Lemma handle_att_keeps sep G nn att G' nn' :
  P G → handle_att uid sep (G, nn) att = Ok (G', nn') → P G'.
Proof.
  intros HG Hatt. unfold handle_att in Hatt. cbn [fst snd] in Hatt.
  assert (∀ (f : bool) (x y : option string) s a,
    (G1 ← add_to_graph G uid s a f; Ok (G1, x)) = Ok (G', y) → P G') as Hwrite.
  { intros f x y s a Hr.
    destruct (add_to_graph G uid s a f) as [G1| |] eqn:E; simplify_eq/=.
    by eapply P_attach. }
  assert (∀ v : json,
    (ty ← getitem v "type";
     if truthy ty then
       if eq_str ty "file_link" then
         url ← getitem v "url"; link ← as_text url;
         G1 ← add_to_graph G uid link "file_links" false; Ok (G1, nn)
       else
         va ← value_and_name v ty;
         formatted ← format_value va.2 va.1;
         match from_option Some nn formatted with
         | None => Raise UnboundLocalError
         | Some node_name =>
             G1 ← add_to_graph G uid node_name va.2 sep; Ok (G1, Some node_name)
         end
     else Ok (G, nn)) = Ok (G', nn') → P G') as Hobj.
  { intros v Hv.
    destruct (getitem v "type") as [ty| |]; simplify_eq/=.
    destruct (truthy ty); [|by injection Hv as <- <-].
    destruct (eq_str ty "file_link").
    - destruct (getitem v "url") as [url| |]; simplify_eq/=.
      destruct (as_text url) as [link| |]; simplify_eq/=.
      by eapply Hwrite.
    - destruct (value_and_name v ty) as [va| |]; simplify_eq/=.
      destruct (format_value va.2 va.1) as [fo| |]; simplify_eq/=.
      destruct (from_option Some nn fo) as [node_name|]; [|done].
      by eapply Hwrite. }
  destruct att as [| | | |tag| |]; try exact (Hobj _ Hatt).
  destruct (contains "::" tag); [|by injection Hatt as <- <-].
  by eapply Hwrite.
Qed.

Lemma handle_gemd_value_keeps G assets sep G' :
  P G → handle_gemd_value G uid assets sep = Ok G' → P G'.
Proof.
  unfold handle_gemd_value. intros HG Hv.
  destruct (py_iter assets) as [atts| |]; simplify_eq/=.
  destruct (for_each (handle_att uid sep) atts (G, None)) as [[G1 nn1]| |] eqn:E;
    simplify_eq/=.
  apply (for_each_invariant (handle_att uid sep) (λ st, P st.1) atts (G, None) (G', nn1));
    [|done|done].
  intros att [Ga na] [Gb nb] _ Ha Hstep. by eapply handle_att_keeps.
Qed.

Lemma add_gemd_assets_keeps G obj_data flags sep G' :
  P G → add_gemd_assets G uid obj_data flags sep = Ok G' → P G'.
Proof.
  assert (∀ enabled key G0 G1,
    P G0 → add_assets_of enabled key uid obj_data sep G0 = Ok G1 → P G1) as Hone.
  { intros enabled key G0 G1 H0. unfold add_assets_of.
    destruct (enabled && has_key key obj_data); [|by intros [= <-]].
    destruct (dict_get obj_data key) as [assets| |]; simpl; [|done..].
    by apply handle_gemd_value_keeps. }
  unfold add_gemd_assets. intros HG Ha.
  repeat match type of Ha with
  | (mbind _ (add_assets_of ?e ?k ?u ?o ?s ?g)) = _ =>
      let E := fresh "E" in
      destruct (add_assets_of e k u o s g) eqn:E; simpl in Ha; [|done..];
      apply Hone in E; [|done]
  end.
  by eapply Hone.
Qed.

End AttachInvariant.

Section Invariants.
Context `{Host} (P : DiGraph → Prop).
Hypothesis P_node : ∀ uid c G, P G → P (add_node uid (color c) G).
Hypothesis P_edge : ∀ u v G, P G → P (add_edge u v G).
Hypothesis P_attach :
  ∀ G uid v a f G', P G → add_to_graph G uid v a f = Ok G' → P G'.

Lemma handle_gemd_obj_keeps G uid fields ty which flags sep G' :
  P G → handle_gemd_obj G uid fields ty which flags sep = Ok G' → P G'.
Proof.
  intros HG Hh. unfold handle_gemd_obj in Hh.
  repeat match type of Hh with
  | (if ?b then _ else _) = _ => destruct b
  | mbind _ (add_gemd_assets ?g ?u ?o ?f ?s) = _ =>
      let E := fresh "E" in
      destruct (add_gemd_assets g u o f s) eqn:E; simpl in Hh; [|done..];
      apply (add_gemd_assets_keeps P u (λ G0 v a f G1, P_attach G0 u v a f G1)) in E;
        [|by auto]
  | mbind _ ?r = _ => destruct r; simpl in Hh; [|done..]
  | add_gemd_assets _ _ _ _ _ = _ =>
      apply (add_gemd_assets_keeps P uid (λ G0 v a f G1, P_attach G0 uid v a f G1)) in Hh;
        [exact Hh|by auto]
  end;
  injection Hh as <-; auto.
Qed.

Lemma build_loop_keeps objs flags sep which track st st' :
  P (graph st) →
  for_each (build_step which track flags sep) objs st = Ok st' → P (graph st').
Proof.
  intros Hst Hloop.
  apply (for_each_invariant (build_step which track flags sep)
           (λ st, P (graph st)) objs st st'); [|done|done].
  intros obj s1 s2 _ Hs1
    [(_ & ->)|[(_ & ->)|(uid & name & ty & fields & G' & _ & Hh & ->)]]%build_step_cases;
    [done..|]. simpl. by eapply handle_gemd_obj_keeps.
Qed.

Lemma build_graph_keeps_invariant objs flags sep which track G R nm :
  P empty_graph →
  build_graph objs flags sep which track = Ok (Some (G, R, nm)) → P G.
Proof.
  intros H0 (st & Hloop & -> & _ & _)%build_graph_loop.
  eapply build_loop_keeps; [|exact Hloop]. exact H0.
Qed.

End Invariants.

(** ** Edges join nodes, and index mappings are lists *)

Section Shape.
Context `{Host}.
Implicit Types (G : DiGraph) (n uid : string).

Lemma edges_closed_add_node n (attrs : gmap string attr) G :
  edges_closed G → edges_closed (add_node n attrs G).
Proof.
  intros Hc u v. rewrite edges_add_node, dom_add_node. intros He.
  destruct (Hc u v He). set_solver.
Qed.

Lemma edges_closed_add_edge u v G : edges_closed G → edges_closed (add_edge u v G).
Proof.
  intros Hc u' v'. rewrite edges_add_edge, dom_add_edge.
  intros [[= -> ->]%elem_of_singleton|He]%elem_of_union; [set_solver|].
  destruct (Hc u' v' He). set_solver.
Qed.

Lemma edges_closed_add_to_graph G uid v a f G' :
  edges_closed G → add_to_graph G uid v a f = Ok G' → edges_closed G'.
Proof.
  intros Hc Hadd. destruct f.
  - injection Hadd as <-. by apply edges_closed_add_edge, edges_closed_add_node.
  - apply add_to_graph_inline in Hadd as (x & -> & _).
    intros u' v'. rewrite dom_set_attr. apply Hc.
Qed.

Lemma size_map_seq (start : nat) (values : list string) :
  size (map_seq start values : gmap nat string) = length values.
Proof.
  revert start. induction values as [|x values IH]; intros start; simpl.
  - apply map_size_empty.
  - rewrite map_size_insert_None by apply map_seq_cons_disjoint. by rewrite IH.
Qed.

(** The write of [add_to_graph] at the index [len(...)] of a list of
    values puts the new value after the last one. *)
Lemma insert_at_size (values : list string) (v : string) :
  <[size (map_seq 0 values : gmap nat string) := v]> (map_seq 0 values)
  = (map_seq 0 (values ++ [v])%list : gmap nat string).
Proof. by rewrite size_map_seq, map_seq_snoc. Qed.

Lemma indices_listed_add_node_strings n (attrs : gmap string attr) G :
  (∀ a idx, attrs !! a ≠ Some (AIdx idx)) →
  indices_listed G → indices_listed (add_node n attrs G).
Proof.
  intros Hs Hl m a idx. destruct (decide (n = m)) as [->|].
  - rewrite node_attr_add_node. destruct (attrs !! a) as [x|] eqn:E.
    + intros [= ->]. by destruct (Hs a idx).
    + apply Hl.
  - rewrite node_attr_add_node_ne by done. apply Hl.
Qed.

Lemma indices_listed_add_to_graph G uid v a f G' :
  indices_listed G → add_to_graph G uid v a f = Ok G' → indices_listed G'.
Proof.
  intros Hl Hadd. destruct f.
  - injection Hadd as <-. intros m b idx. rewrite node_attr_add_edge.
    revert m b idx. apply indices_listed_add_node_strings; [|done].
    intros b idx. unfold separate_style.
    destruct (decide (b = "shape")) as [->|]; [by rewrite lookup_insert_eq|].
    rewrite lookup_insert_ne by done.
    destruct (decide (b = "color")) as [->|]; [by rewrite lookup_insert_eq|].
    by rewrite lookup_insert_ne.
  - unfold add_to_graph in Hadd.
    destruct (nodes G !! uid) as [attrs|] eqn:Hu; [|done].
    assert (node_attr G uid a = attrs !! a) as Hna
      by (unfold node_attr; by rewrite Hu).
    assert (∀ x, (∀ idx, x = AIdx idx → ∃ values, values ≠ [] ∧ idx = map_seq 0 values) →
              indices_listed (set_attr G uid a x)) as Hset.
    { intros x Hx m b idx. rewrite node_attr_set_attr.
      destruct (decide (uid = m ∧ a = b ∧ m ∈ dom (nodes G))); [|exact (Hl m b idx)].
      intros [= ->]. by apply Hx. }
    destruct (attrs !! a) as [[s|old]|] eqn:Ea; [done| |].
    + injection Hadd as <-. apply Hset. intros idx [= <-].
      destruct (Hl uid a old) as (values & Hne & ->); [by rewrite Hna|].
      exists (values ++ [v])%list. split; [by destruct values|]. apply insert_at_size.
    + case_bool_decide; injection Hadd as <-; apply Hset; [|done].
      intros idx [= <-]. exists [v]. split; [done|].
      by rewrite map_seq_singleton.
Qed.

(** X1.  In the graph [build_graph] returns, both ends of every edge
    are nodes of the graph. *)
Theorem build_graph_edges_closed objs flags sep which track G R nm :
  build_graph objs flags sep which track = Ok (Some (G, R, nm)) → edges_closed G.
Proof.
  apply (build_graph_keeps_invariant edges_closed).
  - intros. by apply edges_closed_add_node.
  - intros. by apply edges_closed_add_edge.
  - intros. by eapply edges_closed_add_to_graph.
  - intros u v He. by apply not_elem_of_empty in He.
Qed.

(** The inline [add_to_graph] on a list of values puts the new value
    after the last one. *)
Lemma add_to_graph_appends G uid a (values : list string) v :
  node_attr G uid a = Some (AIdx (map_seq 0 values)) →
  ∃ G', add_to_graph G uid v a false = Ok G'
        ∧ node_attr G' uid a = Some (AIdx (map_seq 0 (values ++ [v])%list)).
Proof.
  intros Hidx. unfold add_to_graph.
  unfold node_attr in Hidx.
  destruct (nodes G !! uid) as [attrs|] eqn:Hu; [|done]. simpl in Hidx.
  rewrite Hidx. eexists. split; [done|].
  rewrite node_attr_set_attr, decide_True; [by rewrite insert_at_size|].
  split_and!; [done..|]. by apply elem_of_dom_2 in Hu.
Qed.

(** X2.  In the graph [build_graph] returns, every index to value
    mapping of a node is a non-empty list of values at the indices 0, 1,
    2, ... with no gap; and the inline [add_to_graph] on such a list puts
    the new value after the last one and keeps the others. *)
Theorem index_mappings_are_lists :
  (∀ objs flags sep which track G R nm,
     build_graph objs flags sep which track = Ok (Some (G, R, nm)) →
     indices_listed G)
  ∧ (∀ G uid a values v,
       node_attr G uid a = Some (AIdx (map_seq 0 values)) →
       ∃ G', add_to_graph G uid v a false = Ok G'
             ∧ node_attr G' uid a = Some (AIdx (map_seq 0 (values ++ [v])%list))).
Proof.
  split.
  - intros objs flags sep which track G R nm.
    apply (build_graph_keeps_invariant indices_listed).
    + intros uid c G0. apply indices_listed_add_node_strings.
      intros a idx. unfold color.
      destruct (decide (a = "color")) as [->|]; [by rewrite lookup_singleton_eq|].
      by rewrite lookup_singleton_ne.
    + intros u v G0 Hl m a idx. rewrite node_attr_add_edge. apply Hl.
    + intros. by eapply indices_listed_add_to_graph.
    + intros n a idx. unfold node_attr. simpl. by rewrite lookup_empty.
  - intros G uid a values v. apply add_to_graph_appends.
Qed.

End Shape.

(** ** Tags in the order of the collection *)

Section Tags.
Context `{Host}.
Implicit Types (G : DiGraph) (uid : string).

Lemma add_tag G uid have tag :
  uid ∈ dom (nodes G) → holds_tags G uid have →
  ∃ G', add_to_graph G uid tag "tags" false = Ok G'
        ∧ dom (nodes G') = dom (nodes G) ∧ edges G' = edges G
        ∧ holds_tags G' uid (have ++ [tag])%list.
Proof.
  intros Hu Hhave.
  assert (∀ x, node_attr (set_attr G uid "tags" x) uid "tags" = Some x) as Hread.
  { intros x. rewrite node_attr_set_attr. by rewrite decide_True. }
  assert (∀ l, holds_tags G uid (l ++ [tag])%list
               = (node_attr G uid "tags" = Some (AIdx (map_seq 0 (l ++ [tag])%list)))) as Hsnoc.
  { intros l. unfold holds_tags. by destruct l. }
  destruct have as [|t have]; simpl in Hhave.
  - apply elem_of_dom in Hu as [attrs Hu].
    unfold node_attr in Hhave. rewrite Hu in Hhave. simpl in Hhave.
    unfold add_to_graph. rewrite Hu, Hhave. simpl.
    eexists. split; [done|]. rewrite dom_set_attr. split_and!; [done..|].
    simpl. rewrite Hread. apply elem_of_dom_2 in Hu.
    by rewrite insert_empty.
  - destruct (add_to_graph_appends G uid "tags" (t :: have) tag Hhave)
      as (G' & Hadd & Hnew).
    exists G'. split; [done|].
    pose proof Hadd as (x & -> & _)%add_to_graph_inline.
    rewrite dom_set_attr. split_and!; [done..|]. exact Hnew.
Qed.

Lemma tags_loop G uid sep nn (strs have : list string) :
  uid ∈ dom (nodes G) → holds_tags G uid have →
  ∃ G', for_each (handle_att uid sep) (JStr <$> strs) (G, nn) = Ok (G', nn)
        ∧ dom (nodes G') = dom (nodes G) ∧ edges G' = edges G
        ∧ holds_tags G' uid (have ++ List.filter (contains "::") strs)%list.
Proof.
  revert G have. induction strs as [|s strs IH]; intros G have Hu Hhave; simpl.
  - exists G. by rewrite app_nil_r.
  - destruct (contains "::" s) eqn:Hs.
    + rewrite handle_att_tag by done.
      destruct (add_tag G uid have s Hu Hhave) as (G1 & -> & Hd & He & Hh1). simpl.
      destruct (IH G1 (have ++ [s])%list) as (G' & Hloop & Hd' & He' & Hh');
        [by rewrite Hd|done|].
      exists G'. rewrite <- (assoc_L app) in Hh'. split_and!; [done|congruence..|done].
    + assert (handle_att uid sep (G, nn) (JStr s) = Ok (G, nn)) as ->
        by (unfold handle_att; by rewrite Hs).
      simpl. by apply IH.
Qed.

(** X3.  The strings of a collection that contain ["::"] are stored
    under ["tags"] at the indices 0, 1, 2, ... in the order of the
    collection, equal ones included; the other strings are passed over;
    no node and no edge is added, whatever [add_separate_node]. *)
Theorem tags_kept_in_order G uid (strs : list string) sep :
  uid ∈ dom (nodes G) → node_attr G uid "tags" = None →
  ∃ G', handle_gemd_value G uid (JList (JStr <$> strs)) sep = Ok G'
        ∧ dom (nodes G') = dom (nodes G) ∧ edges G' = edges G
        ∧ node_attr G' uid "tags"
          = match List.filter (contains "::") strs with
            | [] => None
            | kept => Some (AIdx (map_seq 0 kept))
            end.
Proof.
  intros Hu Hnone.
  destruct (tags_loop G uid sep None strs [] Hu Hnone) as (G' & Hloop & Hd & He & Hh).
  exists G'. unfold handle_gemd_value. simpl. rewrite Hloop. simpl.
  split_and!; [done..|]. simpl in Hh. unfold holds_tags in Hh.
  by destruct (List.filter (contains "::") strs).
Qed.

End Tags.

(** ** The loop of build_graph *)

Section BuildLoop.
Context `{Host}.
Implicit Types (G : DiGraph) (st : build_state) (uid : string).

(** X4.  Every entry of the name mapping is the label of a record of
    the input with that identifier, and every record that passes the
    guards of the loop has an entry, of the requested variant or not. *)
Theorem name_mapping_entries objs flags sep which track G R nm uid :
  build_graph objs flags sep which track = Ok (Some (G, R, nm)) →
  (∀ lbl, nm !! uid = Some lbl →
     ∃ obj name ty fields,
       obj ∈ objs ∧ classify track obj = Ok (Tracked uid name ty fields)
       ∧ lbl = label name uid)
  ∧ (∀ obj name ty fields,
       obj ∈ objs → classify track obj = Ok (Tracked uid name ty fields) →
       is_Some (nm !! uid)).
Proof.
  intros (st & Hloop & _ & -> & _)%build_graph_loop. split.
  - revert Hloop.
    set (P := λ st : build_state, ∀ lbl, name_mapping st !! uid = Some lbl →
      ∃ obj name ty fields,
        obj ∈ objs ∧ classify track obj = Ok (Tracked uid name ty fields)
        ∧ lbl = label name uid).
    intros Hloop. change (P st).
    apply (for_each_invariant (build_step which track flags sep) P objs initial_state st);
      [|by intros lbl; simpl; rewrite lookup_empty|done]; unfold P.
    intros obj s1 s2 Hin IH
      [(_ & ->)|[(_ & ->)|(uid' & name & ty & fields & G' & Hc & _ & ->)]]%build_step_cases;
      [done..|]. simpl. intros lbl.
    destruct (decide (uid' = uid)) as [->|Hne].
    + rewrite lookup_insert_eq. intros [= <-]. by exists obj, name, ty, fields.
    + rewrite lookup_insert_ne by done. apply IH.
  - intros obj name ty fields Hin Hc.
    apply list_elem_of_split in Hin as (pre & post & ->).
    rewrite for_each_app in Hloop.
    destruct (for_each _ pre initial_state) as [s1| |]; simpl in Hloop; [|done..].
    destruct (build_step which track flags sep s1 obj) as [s2| |] eqn:Hstep;
      simpl in Hloop; [|done..].
    apply (for_each_invariant (build_step which track flags sep)
             (λ st, is_Some (name_mapping st !! uid)) post s2 st); [| |done].
    + intros o t1 t2 _ Ht1
        [(_ & ->)|[(_ & ->)|(uid' & name' & ty' & fields' & G' & _ & _ & ->)]]%build_step_cases;
        [done..|]. simpl. rewrite lookup_insert_is_Some. destruct (decide (uid' = uid)); auto.
    + apply build_step_cases in Hstep
        as [(Hc' & _)|[(Hc' & _)|(uid' & name' & ty' & fields' & G' & Hc' & _ & ->)]];
        rewrite Hc in Hc'; try done.
      injection Hc' as <- <- <- <-. simpl. by rewrite lookup_insert_eq.
Qed.

(** X5.  The build ends with the first exception: when the records
    before one are handled and that one raises, [build_graph] raises the
    same, whatever comes after, and returns no graph. *)
Theorem build_graph_stops_at_first_error pre obj post flags sep which track st e :
  for_each (build_step which track flags sep) pre initial_state = Ok st →
  build_step which track flags sep st obj = Raise e →
  build_graph (pre ++ obj :: post) flags sep which track = Raise e.
Proof.
  intros Hpre Hstep. unfold build_graph.
  replace (length (pre ++ obj :: post) =? 0)%nat with false
    by (by rewrite length_app, Nat.add_comm).
  rewrite for_each_app, Hpre. simpl. by rewrite Hstep.
Qed.

(** X6.  A dict record raises [KeyError] when it has no ["type"]; when
    its type is not a disregarded one and it has no ["uids"]; and when it
    exposes the tracked identifier and has no ["name"]. *)
Theorem missing_key_raises which track flags sep st fields :
  has_key "raw_jsons" fields = false →
  (assoc "type" fields = None →
   build_step which track flags sep st (JObj fields) = Raise KeyError)
  ∧ (∀ ty,
       assoc "type" fields = Some (JStr ty) →
       startswith ty "parameter" || startswith ty "condition"
         || startswith ty "property" = false →
       assoc "uids" fields = None →
       build_step which track flags sep st (JObj fields) = Raise KeyError)
  ∧ (∀ ty uids,
       assoc "type" fields = Some (JStr ty) →
       startswith ty "parameter" || startswith ty "condition"
         || startswith ty "property" = false →
       assoc "uids" fields = Some (JObj uids) → has_key track uids = true →
       assoc "name" fields = None →
       build_step which track flags sep st (JObj fields) = Raise KeyError).
Proof.
  intros Hraw. unfold build_step, classify. simpl. rewrite Hraw. unfold dict_get.
  split_and!.
  - by intros ->.
  - intros ty -> Hd ->. simpl. by rewrite Hd.
  - intros ty uids -> Hd -> Ht Hn. simpl. rewrite Hd. simpl. rewrite Ht. simpl.
    unfold has_key in Ht. destruct (assoc track uids); [|done]. simpl.
    by rewrite Hn.
Qed.

(** X7.  An ingredient record of the requested variant needs its
    process: without the key ["process"] the call raises [KeyError], and
    with a null process [TypeError]. *)
Theorem ingredient_needs_process G uid obj_data obj_type which flags sep :
  kind_of obj_type = Some Ingredient → endswith obj_type which = true →
  (assoc "process" obj_data = None →
   handle_gemd_obj G uid obj_data obj_type which flags sep = Raise KeyError)
  ∧ (assoc "process" obj_data = Some JNull →
     handle_gemd_obj G uid obj_data obj_type which flags sep = Raise TypeError).
Proof.
  intros (Hp & Hi)%kind_of_branch Hw. unfold handle_gemd_obj.
  rewrite Hp, Hi, Hw. unfold link_id, dict_get. split; by intros ->.
Qed.

(** X8.  The entries the loop passes over can be taken out of the list:
    the loop ends in the same state or in the same exception.  Passed
    over are a list, a dict with the key ["raw_jsons"], a path that
    contains ["raw_jsons"] (the file is not read), and a dict whose
    ["uids"] lacks the tracked namespace, with or without a name. *)
Theorem passed_over_entries_do_nothing :
  (∀ which track flags sep objs st,
     for_each (build_step which track flags sep) objs st
     = for_each (build_step which track flags sep)
         (List.filter (λ obj, negb (passed_over track obj)) objs) st)
  ∧ (∀ track l, passed_over track (JList l) = true)
  ∧ (∀ track fields,
       has_key "raw_jsons" fields = true → passed_over track (JObj fields) = true)
  ∧ (∀ track path,
       contains "raw_jsons" path = true → passed_over track (JStr path) = true)
  ∧ (∀ track fields ty uids,
       has_key "raw_jsons" fields = false →
       assoc "type" fields = Some (JStr ty) →
       startswith ty "parameter" || startswith ty "condition"
         || startswith ty "property" = false →
       assoc "uids" fields = Some (JObj uids) → has_key track uids = false →
       passed_over track (JObj fields) = true).
Proof.
  split_and!.
  - intros which track flags sep objs. induction objs as [|obj objs IH]; intros st;
      [done|]. cbn [for_each List.filter].
    destruct (passed_over track obj) eqn:Hp; cbn [negb].
    + assert (build_step which track flags sep st obj = Ok st) as ->.
      { unfold passed_over in Hp. unfold build_step.
        by destruct (classify track obj) as [[| |]| |]. }
      simpl. apply IH.
    + cbn [for_each].
      destruct (build_step which track flags sep st obj); simpl; [apply IH|done..].
  - intros track l. unfold passed_over, classify. simpl.
    by destruct (existsb _ l).
  - intros track fields Hraw. unfold passed_over, classify. simpl. by rewrite Hraw.
  - intros track path Hraw. unfold passed_over, classify. simpl. by rewrite Hraw.
  - intros track fields ty uids Hraw Hty Hd Hu Ht.
    unfold passed_over, classify. simpl. rewrite Hraw. unfold dict_get.
    rewrite Hty. simpl. rewrite Hd, Hu. simpl. by rewrite Ht.
Qed.

(** X9.  The counter of disregarded records grows by the number of
    records whose type starts with ["parameter"], ["condition"] or
    ["property"]; this is decided before the identifiers are looked at, and
    such a record changes neither the graph nor the name mapping. *)
Theorem disregarded_records_counted :
  (∀ which track flags sep objs st st',
     for_each (build_step which track flags sep) objs st = Ok st' →
     nb_disregarded st'
     = nb_disregarded st + length (List.filter (disregarded track) objs))
  ∧ (∀ track fields ty,
       has_key "raw_jsons" fields = false →
       assoc "type" fields = Some (JStr ty) →
       startswith ty "parameter" || startswith ty "condition"
         || startswith ty "property" = true →
       disregarded track (JObj fields) = true)
  ∧ (∀ which track flags sep st obj,
       disregarded track obj = true →
       ∃ st', build_step which track flags sep st obj = Ok st'
              ∧ graph st' = graph st ∧ name_mapping st' = name_mapping st).
Proof.
  split_and!.
  - intros which track flags sep objs. induction objs as [|obj objs IH];
      intros st st' Hloop; simpl in *.
    + injection Hloop as <-. lia.
    + destruct (build_step which track flags sep st obj) as [s1| |] eqn:Hstep;
        simpl in Hloop; [|done..].
      rewrite (IH _ _ Hloop). unfold disregarded at 2.
      apply build_step_cases in Hstep
        as [(-> & ->)|[(-> & ->)|(uid & name & ty & fields & G' & -> & _ & ->)]];
        simpl; lia.
  - intros track fields ty Hraw Hty Hd. unfold disregarded, classify. simpl.
    rewrite Hraw. unfold dict_get. rewrite Hty. simpl. by rewrite Hd.
  - intros which track flags sep st obj Hd. unfold disregarded in Hd.
    unfold build_step.
    destruct (classify track obj) as [[| |]| |]; try done. simpl. eauto.
Qed.

End BuildLoop.

(** ** Where the edges come from *)

Section Edges.
Context `{Host}.
Implicit Types (G : DiGraph) (st : build_state) (uid : string).

Lemma build_graph_edges_origin objs flags sep which track G R nm e :
  build_graph objs flags sep which track = Ok (Some (G, R, nm)) →
  e ∈ edges G →
  ∃ obj uid k fields E,
    obj ∈ objs ∧ eligible_record which track obj uid k fields
    ∧ expected_edges k uid fields = Some E
    ∧ (e ∈ E ∨ (sep = true ∧ e.1 = uid)).
Proof.
  intros (st & Hloop & -> & _ & _)%build_graph_loop.
  set (P := λ st : build_state, e ∈ edges (graph st) →
    ∃ obj uid k fields E,
      obj ∈ objs ∧ eligible_record which track obj uid k fields
      ∧ expected_edges k uid fields = Some E
      ∧ (e ∈ E ∨ (sep = true ∧ e.1 = uid))).
  change (P st).
  apply (for_each_invariant (build_step which track flags sep) P objs initial_state st);
    [|by intros ?%not_elem_of_empty|done]; unfold P.
  intros obj s1 s2 Hin IH
    [(_ & ->)|[(_ & ->)|(uid & name & ty & fields & G' & Hc & Hh & ->)]]%build_step_cases;
    [done..|]. simpl.
  destruct (kind_of ty) as [k|] eqn:Hk; [destruct (endswith ty which) eqn:Hw|].
  - destruct (handle_gemd_obj_wires _ _ _ _ _ _ _ _ _ Hh Hk Hw)
      as (E & HE & _ & _ & _ & Hnew & _).
    intros He. destruct (Hnew e He) as [Hold|Hhere]; [by apply IH|].
    exists obj, uid, k, fields, E. split_and!; [done| |done|tauto].
    by exists name, ty.
  - rewrite handle_gemd_obj_passes in Hh by auto. by injection Hh as <-.
  - rewrite handle_gemd_obj_passes in Hh by auto. by injection Hh as <-.
Qed.

(** X10.  Every edge of the graph [build_graph] returns is an edge
    of the kind of an eligible record of the input or, in separate-node
    mode, leaves the node of such a record; in inline mode the edges are
    exactly the edges of the kinds of the eligible records. *)
Theorem build_graph_edges objs flags sep which track G R nm e :
  build_graph objs flags sep which track = Ok (Some (G, R, nm)) →
  (e ∈ edges G →
     ∃ obj uid k fields E,
       obj ∈ objs ∧ eligible_record which track obj uid k fields
       ∧ expected_edges k uid fields = Some E
       ∧ (e ∈ E ∨ (sep = true ∧ e.1 = uid)))
  ∧ (sep = false →
       (e ∈ edges G ↔
        ∃ obj uid k fields E,
          obj ∈ objs ∧ eligible_record which track obj uid k fields
          ∧ expected_edges k uid fields = Some E ∧ e ∈ E)).
Proof.
  intros Hb. split; [by eapply build_graph_edges_origin|].
  intros ->. split.
  - intros He.
    destruct (build_graph_edges_origin _ _ _ _ _ _ _ _ _ Hb He)
      as (obj & uid & k & fields & E & ? & ? & ? & [?|[? _]]); [|done].
    by exists obj, uid, k, fields, E.
  - intros (obj & uid & k & fields & E & Hin & Hel & HE & He).
    destruct (build_graph_keeps _ _ _ _ _ _ _ _ _ _ _ _ Hb Hin Hel)
      as (E' & HE' & _ & Hsub).
    rewrite HE in HE'. injection HE' as <-. by apply Hsub.
Qed.

(** X11.  When the same records are built in both modes, every edge of
    the inline graph is an edge of the separate-node graph. *)
Theorem inline_edges_in_separate objs flags which track G1 R1 nm1 G2 R2 nm2 :
  build_graph objs flags false which track = Ok (Some (G1, R1, nm1)) →
  build_graph objs flags true which track = Ok (Some (G2, R2, nm2)) →
  edges G1 ⊆ edges G2.
Proof.
  intros H1 H2 e He.
  destruct (build_graph_edges_origin _ _ _ _ _ _ _ _ _ H1 He)
    as (obj & uid & k & fields & E & Hin & Hel & HE & [HeE|[? _]]); [|done].
  destruct (build_graph_keeps _ _ _ _ _ _ _ _ _ _ _ _ H2 Hin Hel)
    as (E' & HE' & _ & Hsub).
  rewrite HE in HE'. injection HE' as <-. by apply Hsub.
Qed.

End Edges.

(** ** Reading a record again *)

Section Again.
Context `{Host}.
Implicit Types (G : DiGraph) (uid : string).

Lemma add_gemd_assets_none G uid obj_data sep :
  add_gemd_assets G uid obj_data no_assets sep = Ok G.
Proof. done. Qed.

Lemma add_node_absorb n (attrs a : gmap string attr) G :
  nodes G !! n = Some a → attrs ∪ a = a → add_node n attrs G = G.
Proof.
  intros Hn Ha. unfold add_node. destruct G as [ns es]. simpl in *. f_equal.
  rewrite Hn. simpl. rewrite Ha. by apply insert_id.
Qed.

Lemma add_edge_absorb u v G :
  (u, v) ∈ edges G → u ∈ dom (nodes G) → v ∈ dom (nodes G) → add_edge u v G = G.
Proof.
  intros He [au Hu]%elem_of_dom [av Hv]%elem_of_dom.
  unfold add_edge. destruct G as [ns es]. simpl in *. f_equal.
  - unfold touch. rewrite Hu. by rewrite Hv.
  - set_solver.
Qed.

Lemma nodes_add_edge_keeps u v G n a :
  nodes G !! n = Some a → nodes (add_edge u v G) !! n = Some a.
Proof. intros Hn. unfold add_edge. simpl. rewrite !lookup_touch. by rewrite Hn. Qed.

Lemma nodes_add_node_color uid c G :
  ∃ a, nodes (add_node uid (color c) G) !! uid = Some a ∧ color c ∪ a = a.
Proof.
  eexists. split; [apply lookup_insert_eq|].
  by rewrite (assoc_L (∪)), (idemp_L (∪)).
Qed.

(** X12.  With no asset asked for, handling a record a second time
    leaves the graph as the first time left it. *)
Theorem reading_twice_without_assets G uid obj_data obj_type which sep G1 :
  handle_gemd_obj G uid obj_data obj_type which no_assets sep = Ok G1 →
  handle_gemd_obj G1 uid obj_data obj_type which no_assets sep = Ok G1.
Proof.
  unfold handle_gemd_obj. rewrite !add_gemd_assets_none.
  intros Hh.
  assert (∀ c G0, (∃ a, nodes G0 !! uid = Some a ∧ color c ∪ a = a) →
            add_node uid (color c) G0 = G0) as Hnode.
  { intros c G0 (a & Ha & Hc). by eapply add_node_absorb. }
  assert (∀ c u v G0, (∃ a, nodes G0 !! uid = Some a ∧ color c ∪ a = a) →
            ∃ a, nodes (add_edge u v G0) !! uid = Some a ∧ color c ∪ a = a) as Hkeep.
  { intros c u v G0 (a & Ha & Hc). exists a. split; [|done].
    by apply nodes_add_edge_keeps. }
  assert (∀ u v G0, add_edge u v (add_edge u v G0) = add_edge u v G0) as Htwice
    by (intros; apply add_edge_twice).
  assert (∀ u v u' v' G0,
            add_edge u v (add_edge u' v' (add_edge u v G0))
            = add_edge u' v' (add_edge u v G0)) as Hinner.
  { intros u v u' v' G0. apply add_edge_absorb.
    - rewrite !edges_add_edge. set_solver.
    - rewrite !dom_add_edge. set_solver.
    - rewrite !dom_add_edge. set_solver. }
  destruct (startswith obj_type "process").
  { destruct (endswith obj_type which); [|done]. injection Hh as <-.
    rewrite Hnode; [done|]. apply nodes_add_node_color. }
  destruct (startswith obj_type "ingredient").
  { destruct (endswith obj_type which); [|done].
    destruct (link_id obj_data "process") as [p| |]; simpl in *; [|done..].
    destruct (has_link obj_data "material").
    - destruct (link_id obj_data "material") as [m| |]; simpl in *; [|done..].
      injection Hh as <-.
      rewrite Hnode by (do 2 apply Hkeep; apply nodes_add_node_color).
      by rewrite !Hinner.
    - injection Hh as <-.
      rewrite Hnode by (apply Hkeep; apply nodes_add_node_color).
      by rewrite Htwice. }
  destruct (startswith obj_type "material").
  { destruct (endswith obj_type which); [|done].
    destruct (dict_get obj_data "process") as [l| |]; simpl in *; [|done..].
    destruct (truthy l).
    - destruct (link_id obj_data "process") as [p| |]; simpl in *; [|done..].
      injection Hh as <-.
      rewrite Hnode by (apply Hkeep; apply nodes_add_node_color).
      by rewrite Htwice.
    - injection Hh as <-. rewrite Hnode; [done|]. apply nodes_add_node_color. }
  destruct (startswith obj_type "measurement"); [|done].
  destruct (endswith obj_type which); [|done].
  destruct (has_link obj_data "material").
  - destruct (link_id obj_data "material") as [m| |]; simpl in *; [|done..].
    injection Hh as <-.
    rewrite Hnode by (apply Hkeep; apply nodes_add_node_color).
    by rewrite Htwice.
  - injection Hh as <-. rewrite Hnode; [done|]. apply nodes_add_node_color.
Qed.

End Again.

(** ** Formatted values *)

(** X13.  Each of the eight formatting rules starts the string with
    the name of the attribute, a comma and a space. *)
Theorem formatted_value_starts_with_name `{Host} att_name value s :
  format_value att_name value = Ok (Some s) →
  ∃ rest, s = att_name ++ ", " ++ rest.
Proof.
  unfold format_value. intros Hf.
  destruct (getitem value "type") as [ty| |]; simpl in Hf; [|done..].
  repeat match type of Hf with
  | (if ?b then _ else _) = _ => destruct b
  | mbind _ ?r = _ => destruct r; simpl in Hf; [|done..]
  end; try done; injection Hf as <-; eexists; reflexivity.
Qed.

(** ** The components of a node *)

(** X14.  [get_weakly_cc] and [get_strongly_cc] return the first
    component that holds the node; the node is in what they return
    exactly when some component holds it, and otherwise they return the
    empty collection. *)
Theorem component_of_node (components : DiGraph → list (gset string)) G node :
  (node ∈ get_weakly_cc components G node ↔ ∃ cc, cc ∈ components G ∧ node ∈ cc)
  ∧ (node ∈ get_strongly_cc components G node ↔ ∃ cc, cc ∈ components G ∧ node ∈ cc)
  ∧ ((∀ cc, cc ∈ components G → node ∉ cc) → get_weakly_cc components G node = ∅)
  ∧ (∀ before cc after,
       components G = (before ++ cc :: after)%list →
       (∀ c, c ∈ before → node ∉ c) → node ∈ cc →
       get_weakly_cc components G node = cc
       ∧ get_strongly_cc components G node = cc).
Proof.
  unfold get_weakly_cc, get_strongly_cc.
  assert (∀ ccs, node ∈ component_of ccs node ↔ ∃ cc, cc ∈ ccs ∧ node ∈ cc) as Hin.
  { induction ccs as [|c ccs IH]; simpl.
    - split; [by intros ?%not_elem_of_empty|]. by intros (cc & ?%elem_of_nil & _).
    - destruct (decide (node ∈ c)) as [Hc|Hc].
      + split; [|done]. intros _. exists c. split; [left|done].
      + rewrite IH. split.
        * intros (cc & ? & ?). exists cc. split; [by right|done].
        * intros (cc & [->|?]%elem_of_cons & ?); [done|]. by exists cc. }
  assert (∀ before cc after,
    (∀ c, c ∈ before → node ∉ c) → node ∈ cc →
    component_of (before ++ cc :: after)%list node = cc) as Hfirst.
  { induction before as [|b before IH]; intros cc after Hb Hcc; simpl.
    - by rewrite decide_True.
    - rewrite decide_False by (apply Hb; left). apply IH; [|done].
      intros c Hc. apply Hb. by right. }
  split_and!; [apply Hin..| |].
  - intros Hnone. induction (components G) as [|c ccs IH]; simpl; [done|].
    rewrite decide_False by (apply Hnone; left). apply IH.
    intros cc Hcc. apply Hnone. by right.
  - intros before cc after -> Hb Hcc. by rewrite Hfirst.
Qed.

(** ** The command line *)

Section CommandLine.
Context `{Host}.

Lemma slice_subgraph_raises G uuid (before : list node_function) sets
    (func : node_function) after add_current e :
  Forall2 (λ (f : node_function) found, f G uuid = Ok found) before sets →
  func G uuid = Raise e →
  slice_subgraph G uuid (before ++ func :: after)%list add_current = Raise e.
Proof.
  intros Hall Hf. unfold slice_subgraph. rewrite for_each_app.
  rewrite (slice_union _ _ _ sets) by done. simpl. by rewrite Hf.
Qed.

(** X15.  [run_from_command_line] raises [TypeError] on a directory
    with no record: the [None] of [build_graph] cannot be unpacked. *)
Theorem run_on_no_record args : run_from_command_line [] args = Raise TypeError.
Proof. done. Qed.

(** X16.  With an identifier and neither direction asked for, the
    slice that is saved is the anchor alone, a node of the graph or not;
    with a direction asked for and an identifier that is no node of the
    graph, the run ends in [NetworkXError] after the full graph is
    built; without an identifier only the full graph is saved. *)
Theorem run_with_identifier objs args G R nm :
  build_graph objs
    (mkFlags (arg_add_attributes args) (arg_add_file_links args) (arg_add_tags args))
    (arg_add_separate_node args) (arg_which args) (arg_uuid_to_track args)
  = Ok (Some (G, R, nm)) →
  (given (arg_identifier args) = None →
   run_from_command_line objs args = Ok (R, None))
  ∧ (∀ id, given (arg_identifier args) = Some id →
       arg_a args = false → arg_d args = false →
       run_from_command_line objs args
       = Ok (R, Some (map_to_graphviz (subgraph G {[ id ]}) nm)))
  ∧ (∀ id, given (arg_identifier args) = Some id →
       id ∉ dom (nodes G) → arg_a args = true ∨ arg_d args = true →
       run_from_command_line objs args = Raise NetworkXError).
Proof.
  intros Hb. unfold run_from_command_line. rewrite Hb. simpl. split_and!.
  - by intros ->.
  - intros id -> -> ->. simpl. unfold extract_subgraph, return_uuid, slice_subgraph.
    simpl. by rewrite (left_id_L ∅ (∪)).
  - intros id -> Hid Hdir. unfold extract_subgraph, return_uuid.
    assert (has_node G id = false) as Hno by (by apply bool_decide_eq_false).
    assert (ancestors G id = Raise NetworkXError) as Ha
      by (unfold ancestors; by rewrite Hno).
    assert (descendants G id = Raise NetworkXError) as Hd
      by (unfold descendants; by rewrite Hno).
    assert (∀ (func : node_function) after,
      func G id = Raise NetworkXError →
      slice_subgraph G id (func :: after) true = Raise NetworkXError) as Hfirst.
    { intros func after Hf.
      apply (slice_subgraph_raises G id [] [] func after true NetworkXError);
        [constructor|done]. }
    destruct (arg_d args); cbn [app].
    + by rewrite (Hfirst descendants).
    + destruct Hdir as [->|?]; [|done]. by rewrite (Hfirst ancestors).
Qed.

End CommandLine.

(** ** Nodes that are only referred to *)

Section Frames.
Context `{Host}.
Implicit Types (G : DiGraph) (st : build_state) (uid n : string).

Lemma frames_refl uid G : frames uid G G.
Proof. intros n _. by left. Qed.

Lemma frames_trans uid G1 G2 G3 :
  frames uid G1 G2 → frames uid G2 G3 → frames uid G1 G3.
Proof.
  intros H12 H23 n Hn.
  destruct (H23 n Hn) as [Hsame|[[Hnone Hnew]|Hsep]]; [| |by auto].
  - destruct (H12 n Hn) as [Hsame'|[[Hnone' Hnew']|Hsep']].
    + left. congruence.
    + right; left. split; congruence.
    + right; right. unfold is_separate_node, node_attr in *. by rewrite Hsame.
  - destruct (H12 n Hn) as [Hsame'|[[Hnone' Hnew']|Hsep']].
    + right; left. split; congruence.
    + congruence.
    + unfold is_separate_node, node_attr in Hsep'. by rewrite Hnone in Hsep'.
Qed.

Lemma frames_add_node uid attrs G : frames uid G (add_node uid attrs G).
Proof. intros n Hn. left. unfold add_node. simpl. by rewrite lookup_insert_ne. Qed.

Lemma frames_add_edge uid u v G : frames uid G (add_edge u v G).
Proof.
  intros n Hn. unfold add_edge. simpl. rewrite !lookup_touch.
  destruct (nodes G !! n); [by left|].
  repeat case_decide; auto.
Qed.

Lemma frames_add_to_graph uid G v a f G' :
  add_to_graph G uid v a f = Ok G' → frames uid G G'.
Proof.
  destruct f; intros Hadd.
  - injection Hadd as <-. intros n Hn.
    destruct (decide (n = v)) as [->|Hv].
    + right; right. unfold is_separate_node.
      by rewrite node_attr_add_edge, node_attr_add_node.
    + unfold add_edge, add_node. simpl. rewrite !lookup_touch.
      rewrite lookup_insert_ne by done.
      destruct (nodes G !! n); [by left|].
      rewrite decide_False by done. rewrite decide_False by done. by left.
  - apply add_to_graph_inline in Hadd as (x & -> & _).
    intros n Hn. left. unfold set_attr. simpl. by rewrite lookup_alter_ne.
Qed.

Lemma add_gemd_assets_frames G uid obj_data flags sep G' :
  add_gemd_assets G uid obj_data flags sep = Ok G' → frames uid G G'.
Proof.
  apply (add_gemd_assets_keeps (frames uid G) uid); [|apply frames_refl].
  intros G0 v a f G1 H0 Hadd. eapply frames_trans; [exact H0|].
  by eapply frames_add_to_graph.
Qed.

Lemma frames_node_assets G uid c obj_data flags sep G' :
  add_gemd_assets (add_node uid (color c) G) uid obj_data flags sep = Ok G' →
  frames uid G G'.
Proof.
  intros Hh%add_gemd_assets_frames.
  eapply frames_trans; [apply frames_add_node|exact Hh].
Qed.

Lemma frames_then_edge uid G G' u v : frames uid G G' → frames uid G (add_edge u v G').
Proof. intros. eapply frames_trans; [done|apply frames_add_edge]. Qed.

Lemma handle_gemd_obj_frames G uid fields ty which flags sep G' :
  handle_gemd_obj G uid fields ty which flags sep = Ok G' → frames uid G G'.
Proof.
  intros Hh. unfold handle_gemd_obj in Hh.
  destruct (startswith ty "process").
  { destruct (endswith ty which); [|injection Hh as <-; apply frames_refl].
    by eapply frames_node_assets. }
  destruct (startswith ty "ingredient").
  { destruct (endswith ty which); [|injection Hh as <-; apply frames_refl].
    destruct (link_id fields "process") as [p| |]; [|done..].
    cbv beta iota delta [mbind result_bind] in Hh.
    destruct (add_gemd_assets _ _ _ _ _) as [G3| |] eqn:E; [|done..].
    apply add_gemd_assets_frames in E.
    assert (frames uid G G3) as H3.
    { eapply frames_trans; [|exact E].
      eapply frames_trans; [apply frames_add_node|apply frames_add_edge]. }
    destruct (has_link fields "material"); [|by injection Hh as <-].
    destruct (link_id fields "material"); [|done..]. injection Hh as <-.
    by apply frames_then_edge. }
  destruct (startswith ty "material").
  { destruct (endswith ty which); [|injection Hh as <-; apply frames_refl].
    destruct (add_gemd_assets _ _ _ _ _) as [G2| |] eqn:E; [|done..].
    apply frames_node_assets in E.
    cbv beta iota delta [mbind result_bind] in Hh.
    destruct (dict_get fields "process") as [l| |]; [|done..].
    destruct (truthy l); [|by injection Hh as <-].
    destruct (link_id fields "process"); [|done..]. injection Hh as <-.
    by apply frames_then_edge. }
  destruct (startswith ty "measurement"); [|injection Hh as <-; apply frames_refl].
  destruct (endswith ty which); [|injection Hh as <-; apply frames_refl].
  destruct (add_gemd_assets _ _ _ _ _) as [G2| |] eqn:E; [|done..].
  apply frames_node_assets in E.
  cbv beta iota delta [mbind result_bind] in Hh.
  destruct (has_link fields "material"); [|by injection Hh as <-].
  destruct (link_id fields "material"); [|done..]. injection Hh as <-.
  by apply frames_then_edge.
Qed.

(** X17.  In the graph [build_graph] returns, a node that carries an
    attribute is the identifier of an eligible record of the input or a
    separate node: a node that the records only refer to has no colour
    and no other attribute. *)
Theorem referred_nodes_are_bare objs flags sep which track G R nm n attrs :
  build_graph objs flags sep which track = Ok (Some (G, R, nm)) →
  nodes G !! n = Some attrs →
  attrs = ∅
  ∨ (∃ obj k fields, obj ∈ objs ∧ eligible_record which track obj n k fields)
  ∨ is_separate_node G n.
Proof.
  intros (st & Hloop & -> & _ & _)%build_graph_loop. revert attrs.
  set (P := λ st : build_state, ∀ attrs, nodes (graph st) !! n = Some attrs →
    attrs = ∅
    ∨ (∃ obj k fields, obj ∈ objs ∧ eligible_record which track obj n k fields)
    ∨ is_separate_node (graph st) n).
  change (P st).
  apply (for_each_invariant (build_step which track flags sep) P objs initial_state st);
    [|by intros attrs; simpl; rewrite lookup_empty|done]; unfold P.
  intros obj s1 s2 Hin IH
    [(_ & ->)|[(_ & ->)|(uid & name & ty & fields & G' & Hc & Hh & ->)]]%build_step_cases;
    [done..|]. simpl. intros attrs Hn.
  destruct (kind_of ty) as [k|] eqn:Hk; [destruct (endswith ty which) eqn:Hw|];
    [|rewrite handle_gemd_obj_passes in Hh by auto; injection Hh as <-; by apply IH..].
  destruct (decide (n = uid)) as [->|Hne].
  { right; left. exists obj, k, fields. split; [done|]. by exists name, ty. }
  destruct (handle_gemd_obj_grows _ _ _ _ _ _ _ _ Hh) as (_ & _ & Hs).
  destruct (handle_gemd_obj_frames _ _ _ _ _ _ _ _ Hh n Hne)
    as [Hsame|[[_ Hnew]|Hsep]]; [| |by auto].
  - rewrite Hsame in Hn. destruct (IH attrs Hn) as [?|[?|?]]; auto.
  - left. congruence.
Qed.

End Frames.

(** ** Kinds and collections *)

Section Details.
Context `{Host}.

Lemma prefix_clash (p q s : string) :
  String.prefix p s = true → String.prefix q s = true →
  String.prefix p q = true ∨ String.prefix q p = true.
Proof.
  revert p q. induction s as [|c s IH]; intros [|a p] [|b q]; simpl; auto; try done.
  destruct (Ascii.ascii_dec a c) as [->|]; [|done].
  destruct (Ascii.ascii_dec b c) as [->|]; [|done].
  destruct (Ascii.ascii_dec c c); [|done]. apply IH.
Qed.

(** A type is of a kind exactly when it starts with the prefix of the kind. *)
Lemma kind_of_prefix obj_type k :
  kind_of obj_type = Some k ↔
  startswith obj_type
    match k with
    | Process => "process"
    | Ingredient => "ingredient"
    | Material => "material"
    | Measurement => "measurement"
    end = true.
Proof.
  unfold kind_of, startswith. split.
  - destruct (String.prefix "process" obj_type) eqn:Hp; [by intros [= <-]|].
    destruct (String.prefix "ingredient" obj_type) eqn:Hi; [by intros [= <-]|].
    destruct (String.prefix "material" obj_type) eqn:Hm; [by intros [= <-]|].
    destruct (String.prefix "measurement" obj_type) eqn:He; [by intros [= <-]|done].
  - intros Hk.
    assert (∀ q, String.prefix q obj_type = true →
      String.prefix
        match k with
        | Process => "process"
        | Ingredient => "ingredient"
        | Material => "material"
        | Measurement => "measurement"
        end q = true
      ∨ String.prefix q
        match k with
        | Process => "process"
        | Ingredient => "ingredient"
        | Material => "material"
        | Measurement => "measurement"
        end = true) as Hclash
      by (intros q Hq; by apply (prefix_clash _ _ obj_type)).
    destruct k;
      repeat match goal with
      | |- context [String.prefix ?q obj_type] =>
          lazymatch goal with
          | Hq : String.prefix q obj_type = _ |- _ => rewrite Hq
          | _ => let E := fresh "E" in
                 destruct (String.prefix q obj_type) eqn:E;
                 [try (by destruct (Hclash _ E))|]
          end
      end; try done; congruence.
Qed.

(** X19.  The prefixes of the four kinds and of the three disregarded
    types exclude each other: a type is handled as a kind exactly when it
    starts with the prefix of that kind, whatever the order of the tests
    in the chain, and a record of one of the four kinds is never counted
    as disregarded. *)
Theorem kinds_exclude_each_other obj_type k :
  (kind_of obj_type = Some k ↔
   startswith obj_type
     match k with
     | Process => "process"
     | Ingredient => "ingredient"
     | Material => "material"
     | Measurement => "measurement"
     end = true)
  ∧ (kind_of obj_type = Some k →
     startswith obj_type "parameter" || startswith obj_type "condition"
       || startswith obj_type "property" = false).
Proof.
  split; [apply kind_of_prefix|].
  intros Hk%kind_of_prefix. unfold startswith in *.
  destruct (String.prefix "parameter" obj_type) eqn:E1;
    [by destruct k; destruct (prefix_clash _ _ _ Hk E1)|].
  destruct (String.prefix "condition" obj_type) eqn:E2;
    [by destruct k; destruct (prefix_clash _ _ _ Hk E2)|].
  destruct (String.prefix "property" obj_type) eqn:E3;
    [by destruct k; destruct (prefix_clash _ _ _ Hk E3)|].
  done.
Qed.

Lemma chars_no_tag s : Forall (λ att, ∃ t, att = JStr t ∧ contains "::" t = false) (chars s).
Proof.
  induction s as [|c s IH]; simpl; constructor; [|done].
  exists (String c ""). split; [done|].
  by destruct c as [[] [] [] [] [] [] [] []].
Qed.

(** X20.  A collection is read only when its flag is on and its key
    is there.  Read, a null, a number or a boolean in place of the
    collection raises [TypeError]; a plain string is gone through
    character by character and attaches nothing; the empty list attaches
    nothing. *)
Theorem collections_at_the_edges G uid sep :
  (∀ key obj_data, add_assets_of false key uid obj_data sep G = Ok G)
  ∧ (∀ key obj_data,
       has_key key obj_data = false → add_assets_of true key uid obj_data sep G = Ok G)
  ∧ (∀ assets,
       match assets with
       | JNull | JBool _ | JInt _ | JFloat _ => True
       | _ => False
       end →
       handle_gemd_value G uid assets sep = Raise TypeError)
  ∧ (∀ s, handle_gemd_value G uid (JStr s) sep = Ok G)
  ∧ handle_gemd_value G uid (JList []) sep = Ok G.
Proof.
  split_and!.
  - done.
  - intros key obj_data Hk. unfold add_assets_of. by rewrite Hk.
  - by intros [| | | | | |].
  - intros s. unfold handle_gemd_value. simpl.
    assert (∀ nn, for_each (handle_att uid sep) (chars s) (G, nn) = Ok (G, nn)) as ->;
      [|done].
    intros nn. induction (chars_no_tag s) as [|att atts (t & -> & Ht) _ IH]; [done|].
    assert (handle_att uid sep (G, nn) (JStr t) = Ok (G, nn)) as Hatt
      by (unfold handle_att; by rewrite Ht).
    cbn [for_each]. rewrite Hatt. apply IH.
  - done.
Qed.

End Details.

(** ** The further statements at concrete inputs *)

(** X1 at the material m1 read alone. *)
Lemma build_graph_edges_closed_witness :
  build_graph (H := example_host) [m1] no_assets false "spec" "auto"
  = Ok (Some (material_alone,
              map_to_graphviz (H := example_host) material_alone m1_names, m1_names))
  ∧ edges_closed material_alone.
Proof.
  assert (build_graph (H := example_host) [m1] no_assets false "spec" "auto"
          = Ok (Some (material_alone,
                      map_to_graphviz (H := example_host) material_alone m1_names,
                      m1_names))) as Hb
    by (vm_compute; reflexivity).
  split; [exact Hb|].
  exact (build_graph_edges_closed (H := example_host) _ _ _ _ _ _ _ _ Hb).
Defined.

(** X2 at the process p1 with its three tags, and at a fourth tag. *)
Lemma index_mappings_are_lists_witness :
  build_graph (H := example_host) [p_tags] all_assets false "spec" "auto"
  = Ok (Some (p_tagged,
              map_to_graphviz (H := example_host) p_tagged p1_names, p1_names))
  ∧ indices_listed p_tagged
  ∧ node_attr p_tagged "p1" "tags"
    = Some (AIdx (map_seq 0 ["alloy::steel"; "batch::7"; "alloy::steel"]))
  ∧ ∃ G', add_to_graph p_tagged "p1" "heat::2" "tags" false = Ok G'
          ∧ node_attr G' "p1" "tags"
            = Some (AIdx (map_seq 0
                (["alloy::steel"; "batch::7"; "alloy::steel"] ++ ["heat::2"])%list)).
Proof.
  assert (build_graph (H := example_host) [p_tags] all_assets false "spec" "auto"
          = Ok (Some (p_tagged,
                      map_to_graphviz (H := example_host) p_tagged p1_names,
                      p1_names))) as Hb
    by (vm_compute; reflexivity).
  assert (node_attr p_tagged "p1" "tags"
          = Some (AIdx (map_seq 0 ["alloy::steel"; "batch::7"; "alloy::steel"]))) as Hidx
    by (vm_compute; reflexivity).
  split_and!; [exact Hb| |exact Hidx|].
  - exact (proj1 (index_mappings_are_lists (H := example_host)) _ _ _ _ _ _ _ _ Hb).
  - exact (proj2 (index_mappings_are_lists (H := example_host)) _ _ _ _ "heat::2" Hidx).
Defined.

(** X3 at three strings attached to the process p1, one of them no tag. *)
Lemma tags_kept_in_order_witness :
  "p1" ∈ dom (nodes process_alone)
  ∧ node_attr process_alone "p1" "tags" = None
  ∧ ∃ G', handle_gemd_value (H := example_host) process_alone "p1"
            (JList (JStr <$> ["alloy::steel"; "plain"; "alloy::steel"])) true = Ok G'
          ∧ dom (nodes G') = dom (nodes process_alone)
          ∧ edges G' = edges process_alone
          ∧ node_attr G' "p1" "tags"
            = match List.filter (contains "::") ["alloy::steel"; "plain"; "alloy::steel"] with
              | [] => None
              | kept => Some (AIdx (map_seq 0 kept))
              end.
Proof.
  assert ("p1" ∈ dom (nodes process_alone)) as Hu by (vm_compute; reflexivity).
  assert (node_attr process_alone "p1" "tags" = None) as Hnone by (vm_compute; reflexivity).
  split_and!; [exact Hu|exact Hnone|].
  exact (tags_kept_in_order (H := example_host) process_alone "p1"
           ["alloy::steel"; "plain"; "alloy::steel"] true Hu Hnone).
Defined.

(** X4 at the material m1 read alone. *)
Lemma name_mapping_entries_witness :
  build_graph (H := example_host) [m1] no_assets false "spec" "auto"
  = Ok (Some (material_alone,
              map_to_graphviz (H := example_host) material_alone m1_names, m1_names))
  ∧ (∀ lbl, m1_names !! "m1" = Some lbl →
       ∃ obj name ty fields,
         obj ∈ [m1]
         ∧ classify (H := example_host) "auto" obj = Ok (Tracked "m1" name ty fields)
         ∧ lbl = label (H := example_host) name "m1")
  ∧ (∀ obj name ty fields,
       obj ∈ [m1] →
       classify (H := example_host) "auto" obj = Ok (Tracked "m1" name ty fields) →
       is_Some (m1_names !! "m1")).
Proof.
  assert (build_graph (H := example_host) [m1] no_assets false "spec" "auto"
          = Ok (Some (material_alone,
                      map_to_graphviz (H := example_host) material_alone m1_names,
                      m1_names))) as Hb
    by (vm_compute; reflexivity).
  split; [exact Hb|].
  exact (name_mapping_entries (H := example_host) _ _ _ _ _ _ _ _ "m1" Hb).
Defined.

(** X5 at the process p1, a material without its process and the
    ingredient i1. *)
Lemma build_graph_stops_at_first_error_witness :
  for_each (build_step (H := example_host) "spec" "auto" no_assets false) [p1] initial_state
  = Ok (mkState process_alone p1_names 0)
  ∧ build_step (H := example_host) "spec" "auto" no_assets false
      (mkState process_alone p1_names 0) m_no_process = Raise KeyError
  ∧ build_graph (H := example_host) ([p1] ++ m_no_process :: [i1]) no_assets false
      "spec" "auto" = Raise KeyError.
Proof.
  assert (for_each (build_step (H := example_host) "spec" "auto" no_assets false) [p1]
            initial_state = Ok (mkState process_alone p1_names 0)) as Hpre
    by (vm_compute; reflexivity).
  assert (build_step (H := example_host) "spec" "auto" no_assets false
            (mkState process_alone p1_names 0) m_no_process = Raise KeyError) as Hstep
    by (vm_compute; reflexivity).
  split_and!; [exact Hpre|exact Hstep|].
  exact (build_graph_stops_at_first_error (H := example_host) [p1] m_no_process [i1]
           no_assets false "spec" "auto" _ _ Hpre Hstep).
Defined.

(** X6 at a record with a type and no identifiers, and at one with no
    type. *)
Lemma missing_key_raises_witness :
  has_key "raw_jsons" [("type", JStr "process_spec")] = false
  ∧ assoc "type" [("type", JStr "process_spec")] = Some (JStr "process_spec")
  ∧ startswith "process_spec" "parameter" || startswith "process_spec" "condition"
      || startswith "process_spec" "property" = false
  ∧ assoc "uids" [("type", JStr "process_spec")] = None
  ∧ build_step (H := example_host) "spec" "auto" no_assets false initial_state
      (JObj [("type", JStr "process_spec")]) = Raise KeyError.
Proof.
  assert (has_key "raw_jsons" [("type", JStr "process_spec")] = false) as Hraw
    by reflexivity.
  assert (assoc "type" [("type", JStr "process_spec")] = Some (JStr "process_spec")) as Hty
    by reflexivity.
  assert (startswith "process_spec" "parameter" || startswith "process_spec" "condition"
            || startswith "process_spec" "property" = false) as Hd
    by reflexivity.
  assert (assoc "uids" [("type", JStr "process_spec")] = None) as Hu by reflexivity.
  split_and!; [exact Hraw|exact Hty|exact Hd|exact Hu|].
  exact (proj1 (proj2 (missing_key_raises (H := example_host) "spec" "auto" no_assets
                          false initial_state _ Hraw)) _ Hty Hd Hu).
Defined.

(** X7 at an ingredient with no process and at one with a null
    process. *)
Lemma ingredient_needs_process_witness :
  kind_of "ingredient_spec" = Some Ingredient
  ∧ endswith "ingredient_spec" "spec" = true
  ∧ assoc "process" [("process", JNull)] = Some JNull
  ∧ handle_gemd_obj (H := example_host) empty_graph "i1" [("process", JNull)]
      "ingredient_spec" "spec" no_assets false = Raise TypeError.
Proof.
  assert (kind_of "ingredient_spec" = Some Ingredient) as Hk by reflexivity.
  assert (endswith "ingredient_spec" "spec" = true) as Hw by reflexivity.
  assert (assoc "process" [("process", JNull)] = Some JNull) as Hp by reflexivity.
  split_and!; [exact Hk|exact Hw|exact Hp|].
  exact (proj2 (ingredient_needs_process (H := example_host) empty_graph "i1" _ _ _
                  no_assets false Hk Hw) Hp).
Defined.

(** X8 at a dict with the key "raw_jsons". *)
Lemma passed_over_entries_do_nothing_witness :
  has_key "raw_jsons" [("raw_jsons", JList [])] = true
  ∧ passed_over (H := example_host) "auto" (JObj [("raw_jsons", JList [])]) = true.
Proof.
  assert (has_key "raw_jsons" [("raw_jsons", JList [])] = true) as Hraw by reflexivity.
  split; [exact Hraw|].
  exact (proj1 (proj2 (proj2 (passed_over_entries_do_nothing (H := example_host))))
           "auto" _ Hraw).
Defined.

(** X9 at a condition template followed by the process p1. *)
Lemma disregarded_records_counted_witness :
  for_each (build_step (H := example_host) "spec" "auto" no_assets false) [c1; p1]
    initial_state = Ok (mkState process_alone p1_names 1)
  ∧ nb_disregarded (mkState process_alone p1_names 1)
    = nb_disregarded initial_state
      + length (List.filter (disregarded (H := example_host) "auto") [c1; p1]).
Proof.
  assert (for_each (build_step (H := example_host) "spec" "auto" no_assets false) [c1; p1]
            initial_state = Ok (mkState process_alone p1_names 1)) as Hloop
    by (vm_compute; reflexivity).
  split; [exact Hloop|].
  exact (proj1 (disregarded_records_counted (H := example_host))
           "spec" "auto" no_assets false _ _ _ Hloop).
Defined.

(** X10 at the material m1 read alone and the edge from its process. *)
Lemma build_graph_edges_witness :
  build_graph (H := example_host) [m1] no_assets false "spec" "auto"
  = Ok (Some (material_alone,
              map_to_graphviz (H := example_host) material_alone m1_names, m1_names))
  ∧ (("p1", "m1") ∈ edges material_alone →
       ∃ obj uid k fields E,
         obj ∈ [m1] ∧ eligible_record (H := example_host) "spec" "auto" obj uid k fields
         ∧ expected_edges k uid fields = Some E
         ∧ (("p1", "m1") ∈ E ∨ (false = true ∧ ("p1", "m1").1 = uid)))
  ∧ (false = false →
       (("p1", "m1") ∈ edges material_alone ↔
        ∃ obj uid k fields E,
          obj ∈ [m1] ∧ eligible_record (H := example_host) "spec" "auto" obj uid k fields
          ∧ expected_edges k uid fields = Some E ∧ ("p1", "m1") ∈ E)).
Proof.
  assert (build_graph (H := example_host) [m1] no_assets false "spec" "auto"
          = Ok (Some (material_alone,
                      map_to_graphviz (H := example_host) material_alone m1_names,
                      m1_names))) as Hb
    by (vm_compute; reflexivity).
  split; [exact Hb|].
  exact (build_graph_edges (H := example_host) _ _ _ _ _ _ _ _ ("p1", "m1") Hb).
Defined.

(** X12 at the material m1 handled on the empty graph. *)
Lemma reading_twice_without_assets_witness :
  handle_gemd_obj (H := example_host) empty_graph "m1" (fields_of m1)
    "material_spec" "spec" no_assets false = Ok material_alone
  ∧ handle_gemd_obj (H := example_host) material_alone "m1" (fields_of m1)
      "material_spec" "spec" no_assets false = Ok material_alone.
Proof.
  assert (handle_gemd_obj (H := example_host) empty_graph "m1" (fields_of m1)
            "material_spec" "spec" no_assets false = Ok material_alone) as Hh
    by (vm_compute; reflexivity).
  split; [exact Hh|].
  exact (reading_twice_without_assets (H := example_host) _ _ _ _ _ _ _ Hh).
Defined.

(** X13 at the atmosphere of a process. *)
Lemma formatted_value_starts_with_name_witness :
  format_value (H := example_host) "Atmosphere"
    (JObj [("type", JStr "nominal_categorical"); ("category", JStr "argon")])
  = Ok (Some "Atmosphere, argon")
  ∧ ∃ rest, "Atmosphere, argon" = "Atmosphere" ++ ", " ++ rest.
Proof.
  assert (format_value (H := example_host) "Atmosphere"
            (JObj [("type", JStr "nominal_categorical"); ("category", JStr "argon")])
          = Ok (Some "Atmosphere, argon")) as Hf
    by (vm_compute; reflexivity).
  split; [exact Hf|].
  exact (formatted_value_starts_with_name (H := example_host) _ _ _ Hf).
Defined.

(** X14 at the node B of the chain, in the second of two components. *)
Lemma component_of_node_witness :
  chain_components chain = ([ {[ "A" ]} ] ++ {[ "B"; "C" ]} :: [])%list
  ∧ (∀ c : gset string, c ∈ [ ({[ "A" ]} : gset string) ] → "B" ∉ c)
  ∧ "B" ∈ ({[ "B"; "C" ]} : gset string)
  ∧ get_weakly_cc chain_components chain "B" = {[ "B"; "C" ]}
  ∧ get_strongly_cc chain_components chain "B" = {[ "B"; "C" ]}.
Proof.
  assert (chain_components chain = ([ {[ "A" ]} ] ++ {[ "B"; "C" ]} :: [])%list) as Hc
    by reflexivity.
  assert (∀ c : gset string, c ∈ [ ({[ "A" ]} : gset string) ] → "B" ∉ c) as Hb.
  { intros c Hin. apply list_elem_of_singleton in Hin. rewrite Hin.
    vm_compute. discriminate. }
  assert ("B" ∈ ({[ "B"; "C" ]} : gset string)) as Hcc by (vm_compute; reflexivity).
  split_and!; [exact Hc|exact Hb|exact Hcc|..];
    apply (proj2 (proj2 (proj2 (component_of_node chain_components chain "B")))
             _ _ _ Hc Hb Hcc).
Defined.

(** X16 at the material m1 read alone and an identifier that is no
    node, with the ancestors asked for. *)
Lemma run_with_identifier_witness :
  build_graph (H := example_host) [m1]
    (mkFlags (arg_add_attributes (example_args (Some "zz") true false))
             (arg_add_file_links (example_args (Some "zz") true false))
             (arg_add_tags (example_args (Some "zz") true false)))
    (arg_add_separate_node (example_args (Some "zz") true false))
    (arg_which (example_args (Some "zz") true false))
    (arg_uuid_to_track (example_args (Some "zz") true false))
  = Ok (Some (material_alone,
              map_to_graphviz (H := example_host) material_alone m1_names, m1_names))
  ∧ given (arg_identifier (example_args (Some "zz") true false)) = Some "zz"
  ∧ ("zz" ∉ dom (nodes material_alone))
  ∧ (arg_a (example_args (Some "zz") true false) = true
     ∨ arg_d (example_args (Some "zz") true false) = true)
  ∧ run_from_command_line (H := example_host) [m1] (example_args (Some "zz") true false)
    = Raise NetworkXError.
Proof.
  assert (build_graph (H := example_host) [m1]
            (mkFlags (arg_add_attributes (example_args (Some "zz") true false))
                     (arg_add_file_links (example_args (Some "zz") true false))
                     (arg_add_tags (example_args (Some "zz") true false)))
            (arg_add_separate_node (example_args (Some "zz") true false))
            (arg_which (example_args (Some "zz") true false))
            (arg_uuid_to_track (example_args (Some "zz") true false))
          = Ok (Some (material_alone,
                      map_to_graphviz (H := example_host) material_alone m1_names,
                      m1_names))) as Hb
    by (vm_compute; reflexivity).
  assert (given (arg_identifier (example_args (Some "zz") true false)) = Some "zz") as Hid
    by reflexivity.
  assert ("zz" ∉ dom (nodes material_alone)) as Hno by (vm_compute; discriminate).
  assert (arg_a (example_args (Some "zz") true false) = true
          ∨ arg_d (example_args (Some "zz") true false) = true) as Hdir
    by (left; reflexivity).
  split_and!; [exact Hb|exact Hid|exact Hno|exact Hdir|].
  exact (proj2 (proj2 (run_with_identifier (H := example_host) _ _ _ _ _ Hb))
           "zz" Hid Hno Hdir).
Defined.

(** X17 at the material m1 read alone and the process p1 it refers
    to. *)
Lemma referred_nodes_are_bare_witness :
  build_graph (H := example_host) [m1] no_assets false "spec" "auto"
  = Ok (Some (material_alone,
              map_to_graphviz (H := example_host) material_alone m1_names, m1_names))
  ∧ nodes material_alone !! "p1" = Some ∅
  ∧ ((∅ : gmap string attr) = ∅
     ∨ (∃ obj k fields,
          obj ∈ [m1] ∧ eligible_record (H := example_host) "spec" "auto" obj "p1" k fields)
     ∨ is_separate_node material_alone "p1").
Proof.
  assert (build_graph (H := example_host) [m1] no_assets false "spec" "auto"
          = Ok (Some (material_alone,
                      map_to_graphviz (H := example_host) material_alone m1_names,
                      m1_names))) as Hb
    by (vm_compute; reflexivity).
  assert (nodes material_alone !! "p1" = Some ∅) as Hn by (vm_compute; reflexivity).
  split_and!; [exact Hb|exact Hn|].
  exact (referred_nodes_are_bare (H := example_host) _ _ _ _ _ _ _ _ "p1" ∅ Hb Hn).
Defined.

(** X19 at the type of a material spec. *)
Lemma kinds_exclude_each_other_witness :
  kind_of "material_spec" = Some Material
  ∧ startswith "material_spec" "parameter" || startswith "material_spec" "condition"
      || startswith "material_spec" "property" = false.
Proof.
  assert (kind_of "material_spec" = Some Material) as Hk by reflexivity.
  split; [exact Hk|].
  exact (proj2 (kinds_exclude_each_other "material_spec" Material) Hk).
Defined.

(** X20 at a null collection and at a record without tags. *)
Lemma collections_at_the_edges_witness :
  has_key "tags" (fields_of m1) = false
  ∧ add_assets_of (H := example_host) true "tags" "m1" (fields_of m1) false material_alone
    = Ok material_alone
  ∧ handle_gemd_value (H := example_host) material_alone "m1" JNull false
    = Raise TypeError.
Proof.
  assert (has_key "tags" (fields_of m1) = false) as Hk by reflexivity.
  split_and!; [exact Hk| |].
  - exact (proj1 (proj2 (collections_at_the_edges (H := example_host)
                           material_alone "m1" false)) "tags" (fields_of m1) Hk).
  - exact (proj1 (proj2 (proj2 (collections_at_the_edges (H := example_host)
                                  material_alone "m1" false))) JNull I).
Defined.

(** * The claims on colours and on inline values *)

(** ** The steps of handle_gemd_obj *)

Section Steps.
Context `{Host}.
Implicit Types (G : DiGraph) (uid : string).

(** A record of a kind and of the requested variant is handled in three
    steps: its node is added in the colour of the kind, for an
    ingredient with the edge to its process; its assets are attached;
    and at most one edge is added after that. *)
Lemma handle_gemd_obj_steps G uid fields ty which flags sep k G' :
  handle_gemd_obj G uid fields ty which flags sep = Ok G' →
  kind_of ty = Some k → endswith ty which = true →
  ∃ G1 G2,
    (G1 = add_node uid (color (kind_color k)) G
     ∨ ∃ p, G1 = add_edge uid p (add_node uid (color (kind_color k)) G))
    ∧ add_gemd_assets G1 uid fields flags sep = Ok G2
    ∧ (G' = G2 ∨ ∃ u v, G' = add_edge u v G2).
Proof.
  intros Hh Hk Hw. apply kind_of_branch in Hk. unfold handle_gemd_obj in Hh.
  rewrite Hw in Hh. destruct k; simpl in Hk.
  - rewrite Hk in Hh. eexists _, _. split_and!; [by left|exact Hh|by left].
  - destruct Hk as (Hp & Hi). rewrite Hp, Hi in Hh.
    destruct (link_id fields "process") as [p| |]; [|done..].
    cbv beta iota delta [mbind result_bind] in Hh.
    destruct (add_gemd_assets _ _ _ _ _) as [G3| |] eqn:E; [|done..].
    exists (add_edge uid p (add_node uid (color "blue") G)), G3.
    split_and!; [right; by exists p|exact E|].
    destruct (has_link fields "material"); [|injection Hh as <-; by left].
    destruct (link_id fields "material") as [m| |]; [|done..].
    injection Hh as <-. right. by exists m, uid.
  - destruct Hk as (Hp & Hi & Hm). rewrite Hp, Hi, Hm in Hh.
    destruct (add_gemd_assets _ _ _ _ _) as [G2| |] eqn:E; [|done..].
    cbv beta iota delta [mbind result_bind] in Hh.
    exists (add_node uid (color "green") G), G2.
    split_and!; [by left|exact E|].
    destruct (dict_get fields "process") as [l| |]; [|done..].
    destruct (truthy l); [|injection Hh as <-; by left].
    destruct (link_id fields "process") as [p| |]; [|done..].
    injection Hh as <-. right. by exists p, uid.
  - destruct Hk as (Hp & Hi & Hm & He). rewrite Hp, Hi, Hm, He in Hh.
    destruct (add_gemd_assets _ _ _ _ _) as [G2| |] eqn:E; [|done..].
    cbv beta iota delta [mbind result_bind] in Hh.
    exists (add_node uid (color "purple") G), G2.
    split_and!; [by left|exact E|].
    destruct (has_link fields "material"); [|injection Hh as <-; by left].
    destruct (link_id fields "material") as [m| |]; [|done..].
    injection Hh as <-. right. by exists uid, m.
Qed.

End Steps.

(** ** A property that the attacher keeps in one mode *)

Section AttachInMode.
Context `{Host} (P : DiGraph → Prop) (uid : string) (sep : bool).
Hypothesis P_attach :
  ∀ G v a f G', f = false ∨ f = sep → P G → add_to_graph G uid v a f = Ok G' → P G'.




End AttachInMode.

(** ** The colour of a node *)

Section Colours.
Context `{Host}.
Implicit Types (G : DiGraph) (st : build_state) (uid n : string).









End Colours.

(** ** Tags and file links are handed over *)

Section Inline.
Context `{Host} (uid key v : string).
Hypothesis Hkey : key ∈ ["file_links"; "tags"].
Implicit Types (G : DiGraph) (st : build_state).

Lemma key_not_styled (c : string) :
  color c !! key = None ∧ separate_style !! key = None.
Proof.
  unfold color, separate_style.
  assert (key ≠ "color" ∧ key ≠ "shape") as [? ?] by (split; intros ->; set_solver).
  split; [by rewrite lookup_singleton_ne|].
  rewrite lookup_insert_ne by done. rewrite lookup_insert_ne by done. done.
Qed.

Lemma indices_listed_add_node_color u c G :
  indices_listed G → indices_listed (add_node u (color c) G).
Proof.
  apply indices_listed_add_node_strings. intros a idx. unfold color.
  destruct (decide (a = "color")) as [->|]; [by rewrite lookup_singleton_eq|].
  by rewrite lookup_singleton_ne.
Qed.

Lemma indices_listed_add_edge u w G :
  indices_listed G → indices_listed (add_edge u w G).
Proof. intros Hl m a idx. rewrite node_attr_add_edge. apply Hl. Qed.

Lemma held_add_node u c G : held uid key v G → held uid key v (add_node u (color c) G).
Proof.
  intros [Hl (idx & i & Hidx & Hi)]. split; [by apply indices_listed_add_node_color|].
  exists idx, i. split; [|done].
  destruct (decide (u = uid)) as [->|Hne].
  - rewrite node_attr_add_node. by rewrite (proj1 (key_not_styled c)).
  - by rewrite node_attr_add_node_ne.
Qed.

Lemma held_add_edge u w G : held uid key v G → held uid key v (add_edge u w G).
Proof.
  intros [Hl (idx & i & Hidx & Hi)]. split; [by apply indices_listed_add_edge|].
  exists idx, i. by rewrite node_attr_add_edge.
Qed.

(** A value that is held stays held when another is attached: the
    write at the index [len(...)] of a list is after its last value. *)
Lemma held_add_to_graph G uid' w a f G' :
  held uid key v G → add_to_graph G uid' w a f = Ok G' → held uid key v G'.
Proof.
  intros [Hl (idx & i & Hidx & Hi)] Hadd.
  split; [by eapply indices_listed_add_to_graph|].
  destruct f.
  - injection Hadd as <-. exists idx, i. split; [|done].
    rewrite node_attr_add_edge. destruct (decide (w = uid)) as [->|Hne].
    + rewrite node_attr_add_node. by rewrite (proj2 (key_not_styled "")).
    + by rewrite node_attr_add_node_ne.
  - unfold add_to_graph in Hadd.
    destruct (nodes G !! uid') as [attrs|] eqn:Hu; [|done].
    assert (uid' ∈ dom (nodes G)) as Hdom by (by apply elem_of_dom_2 in Hu).
    assert (node_attr G uid' a = attrs !! a) as Hold
      by (unfold node_attr; by rewrite Hu).
    destruct (attrs !! a) as [[s|m]|] eqn:Ha; [done| |].
    + injection Hadd as <-.
      destruct (decide (uid' = uid ∧ a = key)) as [[-> ->]|Hne].
      * rewrite Hold in Hidx. injection Hidx as <-.
        destruct (Hl _ _ _ Hold) as (values & _ & ->).
        exists (map_seq 0 (values ++ [w])%list), i.
        rewrite node_attr_set_attr, decide_True by done.
        rewrite insert_at_size. split; [done|].
        rewrite lookup_map_seq_0 in Hi. rewrite lookup_map_seq_0.
        by apply lookup_app_l_Some.
      * exists idx, i. split; [|done].
        rewrite node_attr_set_attr, decide_False; [done|]. naive_solver.
    + assert (¬ (uid' = uid ∧ a = key)) as Hne.
      { intros [-> ->]. by rewrite Hold in Hidx. }
      exists idx, i. split; [|done].
      destruct (bool_decide (a ∈ ["file_links"; "tags"])); injection Hadd as <-;
        (rewrite node_attr_set_attr, decide_False; [done|naive_solver]).
Qed.

(** The inline attacher under ["file_links"] or ["tags"] holds the value
    it was given. *)
Lemma add_to_graph_holds G w G' :
  indices_listed G → add_to_graph G uid w key false = Ok G' →
  held uid key w G'.
Proof.
  intros Hl Hadd. split; [by eapply indices_listed_add_to_graph|].
  unfold add_to_graph in Hadd.
  destruct (nodes G !! uid) as [attrs|] eqn:Hu; [|done].
  assert (uid ∈ dom (nodes G)) as Hdom by (by apply elem_of_dom_2 in Hu).
  assert (node_attr G uid key = attrs !! key) as Hold
    by (unfold node_attr; by rewrite Hu).
  destruct (attrs !! key) as [[s|m]|] eqn:Ha; [done| |].
  - injection Hadd as <-.
    destruct (Hl _ _ _ Hold) as (values & _ & ->).
    exists (map_seq 0 (values ++ [w])%list), (length values).
    rewrite node_attr_set_attr, decide_True by done.
    rewrite insert_at_size. split; [done|].
    rewrite lookup_map_seq_0. by rewrite list_lookup_middle.
  - rewrite bool_decide_eq_true_2 in Hadd by done. injection Hadd as <-.
    exists {[ 0 := w ]}, 0. rewrite node_attr_set_attr, decide_True by done.
    split; [done|]. by rewrite lookup_singleton_eq.
Qed.

End Inline.

Section Handed.
Context `{Host}.
Implicit Types (G : DiGraph) (st : build_state) (uid key v : string).

Lemma inline_value_key att key v :
  inline_value att = Some (key, v) → key ∈ ["file_links"; "tags"].
Proof.
  unfold inline_value. intros Hv.
  repeat case_match; simplify_eq; set_solver.
Qed.

(** One round of the loop of [handle_gemd_value] on a tag or on a
    file link holds its value. *)
Lemma handle_att_holds uid sep G nn att G' nn' key v :
  inline_value att = Some (key, v) → indices_listed G →
  handle_att uid sep (G, nn) att = Ok (G', nn') → held uid key v G'.
Proof.
  intros Hv Hl Hatt. pose proof (inline_value_key _ _ _ Hv) as Hkey.
  assert (∀ w, (G1 ← add_to_graph G uid w key false; Ok (G1, nn)) = Ok (G', nn') →
               held uid key w G') as Hwrite.
  { intros w Hr.
    destruct (add_to_graph G uid w key false) as [G1| |] eqn:E; simplify_eq/=.
    by eapply add_to_graph_holds. }
  unfold inline_value in Hv. destruct att as [| | | |tag| |kv]; try done.
  - destruct (contains "::" tag) eqn:Ht; [|done]. injection Hv as <- <-.
    rewrite handle_att_tag in Hatt by done. by apply Hwrite.
  - destruct (is_file_link (JObj kv)) eqn:Hf; [|done].
    rewrite handle_att_file_link in Hatt by done.
    destruct (getitem (JObj kv) "url") as [[| | | |url| |]| |]; try done.
    injection Hv as <- <-. by apply Hwrite.
Qed.

(** [handle_gemd_value] hands every tag and every file link of the
    collection to the inline attacher. *)
Lemma handle_gemd_value_holds G uid assets sep G' atts att key v :
  handle_gemd_value G uid assets sep = Ok G' → indices_listed G →
  py_iter assets = Ok atts → att ∈ atts → inline_value att = Some (key, v) →
  held uid key v G'.
Proof.
  intros Hh Hl Hit Hin Hv. pose proof (inline_value_key _ _ _ Hv) as Hkey.
  unfold handle_gemd_value in Hh. rewrite Hit in Hh. simpl in Hh.
  destruct (for_each (handle_att uid sep) atts (G, None)) as [[G2 nn2]| |] eqn:Hloop;
    simplify_eq/=.
  apply list_elem_of_split in Hin as (pre & post & ->).
  rewrite for_each_app in Hloop.
  destruct (for_each (handle_att uid sep) pre (G, None)) as [[Ga na]| |] eqn:Hpre;
    simpl in Hloop; [|done..].
  destruct (handle_att uid sep (Ga, na) att) as [[Gb nb]| |] eqn:Hatt;
    simpl in Hloop; [|done..].
  assert (indices_listed Ga) as Hla.
  { apply (for_each_invariant (handle_att uid sep) (λ s, indices_listed s.1)
             pre (G, None) (Ga, na)); [|done|done].
    intros a [G0 n0] [G1 n1] _ H0 Hstep.
    eapply (handle_att_keeps indices_listed uid); [|exact H0|exact Hstep].
    intros. by eapply indices_listed_add_to_graph. }
  apply (for_each_invariant (handle_att uid sep) (λ s, held uid key v s.1)
           post (Gb, nb) (G', nn2)); [| |done].
  - intros a [G0 n0] [G1 n1] _ H0 Hstep.
    eapply (handle_att_keeps (held uid key v) uid); [|exact H0|exact Hstep].
    intros. by eapply held_add_to_graph.
  - by eapply handle_att_holds.
Qed.

Lemma add_assets_of_keeps (P : DiGraph → Prop) uid enabled ckey fields sep G G' :
  (∀ G0 w a f G1, P G0 → add_to_graph G0 uid w a f = Ok G1 → P G1) →
  P G → add_assets_of enabled ckey uid fields sep G = Ok G' → P G'.
Proof.
  intros Hattach HG. unfold add_assets_of.
  destruct (enabled && has_key ckey fields); [|by intros [= <-]].
  destruct (dict_get fields ckey) as [assets| |]; simpl; [|done..].
  by apply handle_gemd_value_keeps.
Qed.

Lemma add_assets_of_holds uid ckey fields sep G G' assets atts att key v :
  add_assets_of true ckey uid fields sep G = Ok G' → indices_listed G →
  assoc ckey fields = Some assets →
  py_iter assets = Ok atts → att ∈ atts → inline_value att = Some (key, v) →
  held uid key v G'.
Proof.
  unfold add_assets_of, has_key, dict_get. intros Ha Hl Hc. rewrite Hc in Ha.
  simpl in Ha. intros. by eapply handle_gemd_value_holds.
Qed.

(** [add_gemd_assets] hands over the tags and the file links of every
    collection it reads. *)
Lemma add_gemd_assets_holds G uid fields flags sep G' ckey assets atts att key v :
  add_gemd_assets G uid fields flags sep = Ok G' → indices_listed G →
  collection_read flags ckey = true → assoc ckey fields = Some assets →
  py_iter assets = Ok atts → att ∈ atts → inline_value att = Some (key, v) →
  held uid key v G'.
Proof.
  intros Ha Hl Hread Hc Hit Hin Hv. pose proof (inline_value_key _ _ _ Hv) as Hkey.
  assert (∀ enabled k G0 G1,
    add_assets_of enabled k uid fields sep G0 = Ok G1 →
    (indices_listed G0 → indices_listed G1)
    ∧ (held uid key v G0 → held uid key v G1)
    ∧ (enabled = true → k = ckey → indices_listed G0 → held uid key v G1)) as Hone.
  { intros enabled k G0 G1 Hstep. split_and!.
    - intros H0. eapply (add_assets_of_keeps indices_listed); [|exact H0|exact Hstep].
      intros. by eapply indices_listed_add_to_graph.
    - intros H0. eapply (add_assets_of_keeps (held uid key v)); [|exact H0|exact Hstep].
      intros. by eapply held_add_to_graph.
    - intros -> -> H0. by eapply add_assets_of_holds. }
  unfold add_gemd_assets in Ha.
  destruct (add_assets_of _ "parameters" _ _ _ _) as [G1| |] eqn:E1; simpl in Ha; [|done..].
  destruct (add_assets_of _ "properties" _ _ _ _) as [G2| |] eqn:E2; simpl in Ha; [|done..].
  destruct (add_assets_of _ "conditions" _ _ _ _) as [G3| |] eqn:E3; simpl in Ha; [|done..].
  destruct (add_assets_of _ "file_links" _ _ _ _) as [G4| |] eqn:E4; simpl in Ha; [|done..].
  destruct (Hone _ _ _ _ E1) as (L1 & K1 & N1).
  destruct (Hone _ _ _ _ E2) as (L2 & K2 & N2).
  destruct (Hone _ _ _ _ E3) as (L3 & K3 & N3).
  destruct (Hone _ _ _ _ E4) as (L4 & K4 & N4).
  destruct (Hone _ _ _ _ Ha) as (L5 & K5 & N5).
  unfold collection_read in Hread.
  destruct (bool_decide (ckey ∈ ["parameters"; "properties"; "conditions"])) eqn:Hattr.
  - apply bool_decide_eq_true in Hattr.
    apply elem_of_cons in Hattr as [->|Hattr]; [by auto 10|].
    apply elem_of_cons in Hattr as [->|Hattr]; [by auto 10|].
    apply list_elem_of_singleton in Hattr as ->. by auto 10.
  - destruct (String.eqb ckey "file_links") eqn:Hfl.
    { apply String.eqb_eq in Hfl as ->. by auto 10. }
    destruct (String.eqb ckey "tags") eqn:Htg; [|done].
    apply String.eqb_eq in Htg as ->. by auto 10.
Qed.

(** The tags and the file links of an eligible record are held by its
    node in the graph [build_graph] returns. *)
Lemma build_graph_holds objs flags sep which track G R nm obj uid k fields
    ckey assets atts att key v :
  build_graph objs flags sep which track = Ok (Some (G, R, nm)) →
  obj ∈ objs → eligible_record which track obj uid k fields →
  collection_read flags ckey = true → assoc ckey fields = Some assets →
  py_iter assets = Ok atts → att ∈ atts → inline_value att = Some (key, v) →
  held uid key v G.
Proof.
  intros (st & Hloop & -> & _ & _)%build_graph_loop Hobj (name & ty & Hc & Hk & Hw)
    Hread Hassoc Hit Hin Hv.
  pose proof (inline_value_key _ _ _ Hv) as Hkey.
  apply list_elem_of_split in Hobj as (pre & post & ->).
  rewrite for_each_app in Hloop.
  destruct (for_each _ pre initial_state) as [s1| |] eqn:Hpre; simpl in Hloop; [|done..].
  destruct (build_step which track flags sep s1 obj) as [s2| |] eqn:Hstep;
    simpl in Hloop; [|done..].
  assert (indices_listed (graph s1)) as Hl1.
  { eapply (build_loop_keeps indices_listed); [..|exact Hpre].
    - intros. by apply indices_listed_add_node_color.
    - intros. by apply indices_listed_add_edge.
    - intros. by eapply indices_listed_add_to_graph.
    - intros n a idx. unfold node_attr. simpl. by rewrite lookup_empty. }
  eapply (build_loop_keeps (held uid key v)); [..|exact Hloop].
  - intros. by apply held_add_node.
  - intros. by apply held_add_edge.
  - intros. by eapply held_add_to_graph.
  - apply build_step_cases in Hstep
      as [(Hc' & _)|[(Hc' & _)|(uid' & name' & ty' & fields' & G' & Hc' & Hh & ->)]];
      rewrite Hc in Hc'; try done.
    injection Hc' as <- <- <- <-. simpl.
    destruct (handle_gemd_obj_steps _ _ _ _ _ _ _ _ _ Hh Hk Hw)
      as (G1 & G2 & H1 & Ha & H2).
    assert (indices_listed G1) as HlG1.
    { destruct H1 as [->|(p & ->)].
      - by apply indices_listed_add_node_color.
      - by apply indices_listed_add_edge, indices_listed_add_node_color. }
    assert (held uid key v G2) as H2' by (by eapply add_gemd_assets_holds).
    destruct H2 as [->|(u & w & ->)]; [done|]. by apply held_add_edge.
Qed.

(** C10.  An entry that is a tag or a file link is handled the same
    way whatever [add_separate_node]: no node and no edge is added and the
    value goes into the index to value mapping of the owner, under
    ["tags"] or ["file_links"], at the next index; the call succeeds on
    an owner whose file links and tags are indexed, which holds in every
    graph [build_graph] makes.  The entries are handed over: when
    [handle_gemd_value] returns, every tag and every url of a file link
    of the collection is in the mapping of the owner; so it is after
    [add_gemd_assets] for every collection read under its flag, and in
    the graph [build_graph] returns for every eligible record, in both
    modes.  In separate-node mode a node that [handle_gemd_value] adds is
    the formatted value of an entry that is neither a tag nor a file
    link, and in inline mode it adds no node and no edge. *)
Theorem tags_and_file_links_inline :
  (∀ uid sep G nn att,
     is_tag att = true ∨ is_file_link att = true →
     handle_att uid sep (G, nn) att = handle_att uid false (G, nn) att
     ∧ ∀ G' nn',
         handle_att uid sep (G, nn) att = Ok (G', nn') →
         dom (nodes G') = dom (nodes G) ∧ edges G' = edges G
         ∧ ∃ idx, node_attr G' uid (if is_tag att then "tags" else "file_links")
                  = Some (AIdx idx))
  ∧ (∀ uid sep G nn tag,
       contains "::" tag = true → uid ∈ dom (nodes G) → indexed_ok G →
       ∃ idx,
         (node_attr G uid "tags" = Some (AIdx idx)
          ∨ (node_attr G uid "tags" = None ∧ idx = ∅))
         ∧ handle_att uid sep (G, nn) (JStr tag)
           = Ok (set_attr G uid "tags" (AIdx (<[size idx := tag]> idx)), nn))
  ∧ (∀ uid sep G nn att url,
       is_file_link att = true → getitem att "url" = Ok (JStr url) →
       uid ∈ dom (nodes G) → indexed_ok G →
       ∃ idx,
         (node_attr G uid "file_links" = Some (AIdx idx)
          ∨ (node_attr G uid "file_links" = None ∧ idx = ∅))
         ∧ handle_att uid sep (G, nn) att
           = Ok (set_attr G uid "file_links" (AIdx (<[size idx := url]> idx)), nn))
  ∧ (∀ objs flags sep which track G R nm,
       build_graph objs flags sep which track = Ok (Some (G, R, nm)) →
       indexed_ok G)
  ∧ (∀ G uid assets sep G' atts att key v,
       handle_gemd_value G uid assets sep = Ok G' → indices_listed G →
       py_iter assets = Ok atts → att ∈ atts → inline_value att = Some (key, v) →
       holds_value G' uid key v)
  ∧ (∀ G uid fields flags sep G' ckey assets atts att key v,
       add_gemd_assets G uid fields flags sep = Ok G' → indices_listed G →
       collection_read flags ckey = true → assoc ckey fields = Some assets →
       py_iter assets = Ok atts → att ∈ atts → inline_value att = Some (key, v) →
       holds_value G' uid key v)
  ∧ (∀ objs flags sep which track G R nm obj uid k fields ckey assets atts att key v,
       build_graph objs flags sep which track = Ok (Some (G, R, nm)) →
       obj ∈ objs → eligible_record which track obj uid k fields →
       collection_read flags ckey = true → assoc ckey fields = Some assets →
       py_iter assets = Ok atts → att ∈ atts → inline_value att = Some (key, v) →
       holds_value G uid key v)
  ∧ (∀ G uid assets G' n,
       handle_gemd_value G uid assets true = Ok G' →
       uid ∈ dom (nodes G) → n ∈ dom (nodes G') → n ∉ dom (nodes G) →
       ∃ atts att,
         py_iter assets = Ok atts ∧ att ∈ atts ∧ formatted_value att = Some n
         ∧ is_tag att = false ∧ is_file_link att = false)
  ∧ (∀ G uid assets G',
       handle_gemd_value G uid assets false = Ok G' →
       dom (nodes G') = dom (nodes G) ∧ edges G' = edges G).
Proof.
  split_and!.
  - intros uid sep G nn att Hatt.
    assert (∀ key v G' (nn' : option string),
      key ∈ ["file_links"; "tags"] →
      (G1 ← add_to_graph G uid v key false; Ok (G1, nn)) = Ok (G', nn') →
      dom (nodes G') = dom (nodes G) ∧ edges G' = edges G
      ∧ ∃ idx, node_attr G' uid key = Some (AIdx idx)) as Hwrite.
    { intros key v G' nn' Hkey Hr.
      destruct (add_to_graph G uid v key false) as [G1| |] eqn:E; simplify_eq/=.
      apply add_to_graph_inline in E as (x & -> & Hu & _ & Hx).
      rewrite dom_set_attr. split_and!; [done..|].
      destruct (Hx Hkey) as [idx ->]. exists idx.
      rewrite node_attr_set_attr. by rewrite decide_True. }
    destruct Hatt as [Ht|Hl].
    + destruct att as [| | | |tag| |]; try done.
      unfold is_tag in *. rewrite Ht, !handle_att_tag by done.
      split; [done|]. intros G' nn'. apply Hwrite. set_solver.
    + rewrite !handle_att_file_link by done. split; [done|].
      destruct att as [| | | | | |kv]; try done. unfold is_tag.
      intros G' nn' Hr.
      destruct (getitem (JObj kv) "url") as [url| |]; simplify_eq/=.
      destruct (as_text url) as [link| |]; simplify_eq/=.
      eapply Hwrite; [|done]. set_solver.
  - intros uid sep G nn tag Htag Hu Hi. rewrite handle_att_tag by done.
    destruct (add_to_graph_indexed G uid tag "tags") as (idx & Hold & ->);
      [set_solver|done|by intros s; apply Hi; set_solver|].
    by exists idx.
  - intros uid sep G nn att url Hl Hurl Hu Hi. rewrite handle_att_file_link by done.
    rewrite Hurl. simpl.
    destruct (add_to_graph_indexed G uid url "file_links") as (idx & Hold & ->);
      [set_solver|done|by intros s; apply Hi; set_solver|].
    by exists idx.
  - intros. by eapply build_graph_indexed.
  - intros G uid assets sep G' atts att key v Hh Hl Hit Hin Hv.
    exact (proj2 (handle_gemd_value_holds _ _ _ _ _ _ _ _ _ Hh Hl Hit Hin Hv)).
  - intros G uid fields flags sep G' ckey assets atts att key v Ha Hl Hr Hc Hit Hin Hv.
    exact (proj2 (add_gemd_assets_holds _ _ _ _ _ _ _ _ _ _ _ _ Ha Hl Hr Hc Hit Hin Hv)).
  - intros objs flags sep which track G R nm obj uid k fields ckey assets atts att key v
      Hb Hobj He Hr Hc Hit Hin Hv.
    exact (proj2 (build_graph_holds _ _ _ _ _ _ _ _ _ _ _ _ _ _ _ _ _ _
                    Hb Hobj He Hr Hc Hit Hin Hv)).
  - intros. by eapply handle_gemd_value_new_nodes.
  - intros G uid assets G' (D & E & _ & N & X & _)%handle_gemd_value_attaches.
    split; apply set_eq; intros x; split; [|by apply D| |by apply E].
    + intros Hx. by destruct (N x Hx) as [?|[? _]].
    + intros Hx. by destruct (X x Hx) as [?|[? _]].
Qed.

End Handed.

(** ** The characters of a label *)

Section Labels.
Context `{Host}.

Lemma take_chars_prefix (n : nat) (s : string) :
  String.prefix (take_chars n s) s = true.
Proof.
  revert n. induction s as [|c s IH]; intros n; simpl; [done|].
  destruct (is_continuation c).
  - simpl. destruct (Ascii.ascii_dec c c); [apply IH|done].
  - destruct n as [|n]; simpl; [done|].
    destruct (Ascii.ascii_dec c c); [apply IH|done].
Qed.

Lemma characters_take_chars (n : nat) (s : string) :
  characters (take_chars n s) = (n `min` characters s)%nat.
Proof.
  revert n. induction s as [|c s IH]; intros n; simpl; [lia|].
  destruct (is_continuation c) eqn:Hc; simpl.
  - rewrite Hc, IH. lia.
  - destruct n as [|n]; simpl; [lia|]. rewrite Hc, IH. lia.
Qed.

Lemma take_chars_all (n : nat) (s : string) :
  (characters s ≤ n)%nat → take_chars n s = s.
Proof.
  revert n. induction s as [|c s IH]; intros n; simpl; [done|].
  destruct (is_continuation c); simpl; intros Hn.
  - f_equal. apply IH. lia.
  - destruct n as [|n]; [lia|]. f_equal. apply IH. lia.
Qed.

(** An entry of the name mapping is the label of a record of the input. *)
Lemma name_mapping_origin objs flags sep which track G R nm uid lbl :
  build_graph objs flags sep which track = Ok (Some (G, R, nm)) →
  nm !! uid = Some lbl →
  ∃ obj name ty fields,
    obj ∈ objs ∧ classify track obj = Ok (Tracked uid name ty fields)
    ∧ lbl = label name uid.
Proof.
  intros (st & Hloop & _ & -> & _)%build_graph_loop. revert lbl.
  set (P := λ s : build_state, ∀ lbl, name_mapping s !! uid = Some lbl →
    ∃ obj name ty fields,
      obj ∈ objs ∧ classify track obj = Ok (Tracked uid name ty fields)
      ∧ lbl = label name uid).
  change (P st).
  apply (for_each_invariant (build_step which track flags sep) P objs initial_state st);
    [|by intros lbl; simpl; rewrite lookup_empty|done]; unfold P.
  intros obj s1 s2 Hin IH
    [(_ & ->)|[(_ & ->)|(uid' & name & ty & fields & G' & Hc & _ & ->)]]%build_step_cases;
    [done..|]. simpl. intros lbl.
  destruct (decide (uid' = uid)) as [->|Hne].
  - rewrite lookup_insert_eq. intros [= <-]. by exists obj, name, ty, fields.
  - rewrite lookup_insert_ne by done. apply IH.
Qed.

(** X18.  In the name mapping [build_graph] returns, the entry of an
    identifier is the name of a record with that identifier, a comma, two
    spaces and a prefix of the identifier: its first three characters,
    and the whole of it when it has no more than three.  So the entries
    of two identifiers that share their first three characters are the
    same when their records share a name: the labels do not tell the
    nodes apart. *)
Theorem label_reads_three_characters objs flags sep which track G R nm :
  build_graph objs flags sep which track = Ok (Some (G, R, nm)) →
  (∀ uid lbl,
     nm !! uid = Some lbl →
     ∃ obj name ty fields p,
       obj ∈ objs ∧ classify track obj = Ok (Tracked uid name ty fields)
       ∧ lbl = fmt name ++ ",  " ++ p
       ∧ String.prefix p uid = true
       ∧ characters p = (3 `min` characters uid)%nat
       ∧ ((characters uid ≤ 3)%nat → p = uid))
  ∧ (∀ uid1 uid2 l1 l2 shown,
       nm !! uid1 = Some l1 → nm !! uid2 = Some l2 →
       (∀ obj uid name ty fields,
          obj ∈ objs → classify track obj = Ok (Tracked uid name ty fields) →
          uid = uid1 ∨ uid = uid2 → fmt name = shown) →
       first3 uid1 = first3 uid2 → l1 = l2).
Proof.
  intros Hb. split.
  - intros uid lbl Hl.
    destruct (name_mapping_origin _ _ _ _ _ _ _ _ _ _ Hb Hl)
      as (obj & name & ty & fields & Hin & Hc & ->).
    exists obj, name, ty, fields, (first3 uid). unfold label, first3.
    split_and!; [done..| | |].
    + apply take_chars_prefix.
    + apply characters_take_chars.
    + apply take_chars_all.
  - intros uid1 uid2 l1 l2 shown Hl1 Hl2 Hname Hsame.
    destruct (name_mapping_origin _ _ _ _ _ _ _ _ _ _ Hb Hl1)
      as (o1 & n1 & t1 & f1 & Hin1 & Hc1 & ->).
    destruct (name_mapping_origin _ _ _ _ _ _ _ _ _ _ Hb Hl2)
      as (o2 & n2 & t2 & f2 & Hin2 & Hc2 & ->).
    unfold label.
    rewrite (Hname _ _ _ _ _ Hin1 Hc1) by auto.
    rewrite (Hname _ _ _ _ _ Hin2 Hc2) by auto.
    by rewrite Hsame.
Qed.

End Labels.

(** ** The amended statements at concrete inputs *)



(** C9, as amended, at a process whose identifier starts with a
    character of two bytes: the label has its first three characters. *)
Lemma name_mapping_label_witness :
  build_graph (H := example_host) ([] ++ p_accent :: []) no_assets false "spec" "auto"
  = Ok (Some (accent_alone,
              map_to_graphviz (H := example_host) accent_alone accent_names,
              accent_names))
  ∧ classify (H := example_host) "auto" p_accent
    = Ok (Tracked "é12x" (JStr "Melting") "process_spec" (fields_of p_accent))
  ∧ accent_names !! "é12x"
    = Some (fmt (H := example_host) (JStr "Melting") ++ ",  " ++ first3 "é12x").
Proof.
  assert (build_graph (H := example_host) ([] ++ p_accent :: []) no_assets false
            "spec" "auto"
          = Ok (Some (accent_alone,
                      map_to_graphviz (H := example_host) accent_alone accent_names,
                      accent_names))) as Hb
    by (vm_compute; reflexivity).
  assert (classify (H := example_host) "auto" p_accent
          = Ok (Tracked "é12x" (JStr "Melting") "process_spec" (fields_of p_accent)))
    as Hc by (vm_compute; reflexivity).
  assert (∀ o name' ty' fields', o ∈ @nil json →
            classify (H := example_host) "auto" o ≠ Ok (Tracked "é12x" name' ty' fields'))
    as Hpost by (intros o ? ? ? Ho; inversion Ho).
  split_and!; [exact Hb|exact Hc|].
  exact (proj1 (name_mapping_label (H := example_host) _ _ _ _ _ _ _ _ _ _ _ _ _ _
                  Hb Hc Hpost)).
Defined.

(** C10 at a process with a file link and a tag, in separate-node
    mode: the url is in the mapping of the node. *)
Lemma tags_and_file_links_inline_witness :
  build_graph (H := example_host) [p_linked] all_assets true "spec" "auto"
  = Ok (Some (p_linked_graph,
              map_to_graphviz (H := example_host) p_linked_graph p1_names, p1_names))
  ∧ p_linked ∈ [p_linked]
  ∧ eligible_record (H := example_host) "spec" "auto" p_linked "p1" Process
      (fields_of p_linked)
  ∧ collection_read all_assets "file_links" = true
  ∧ assoc "file_links" (fields_of p_linked)
    = Some (JList [file_link "https://example.org/log.txt"])
  ∧ py_iter (JList [file_link "https://example.org/log.txt"])
    = Ok [file_link "https://example.org/log.txt"]
  ∧ file_link "https://example.org/log.txt" ∈ [file_link "https://example.org/log.txt"]
  ∧ inline_value (file_link "https://example.org/log.txt")
    = Some ("file_links", "https://example.org/log.txt")
  ∧ holds_value p_linked_graph "p1" "file_links" "https://example.org/log.txt".
Proof.
  assert (build_graph (H := example_host) [p_linked] all_assets true "spec" "auto"
          = Ok (Some (p_linked_graph,
                      map_to_graphviz (H := example_host) p_linked_graph p1_names,
                      p1_names))) as Hb
    by (vm_compute; reflexivity).
  assert (p_linked ∈ [p_linked]) as Hin by (by left).
  assert (eligible_record (H := example_host) "spec" "auto" p_linked "p1" Process
            (fields_of p_linked)) as He
    by (exists (JStr "Melting"), "process_spec"; split_and!; vm_compute; reflexivity).
  assert (collection_read all_assets "file_links" = true) as Hr by reflexivity.
  assert (assoc "file_links" (fields_of p_linked)
          = Some (JList [file_link "https://example.org/log.txt"])) as Hc
    by reflexivity.
  assert (py_iter (JList [file_link "https://example.org/log.txt"])
          = Ok [file_link "https://example.org/log.txt"]) as Hit by reflexivity.
  assert (file_link "https://example.org/log.txt"
          ∈ [file_link "https://example.org/log.txt"]) as Hatt by (by left).
  assert (inline_value (file_link "https://example.org/log.txt")
          = Some ("file_links", "https://example.org/log.txt")) as Hv by reflexivity.
  split_and!; [exact Hb|exact Hin|exact He|exact Hr|exact Hc|exact Hit|exact Hatt|exact Hv|].
  exact (proj1 (proj2 (proj2 (proj2 (proj2 (proj2 (proj2
           (tags_and_file_links_inline (H := example_host))))))))
           _ _ _ _ _ _ _ _ _ _ _ _ _ _ _ _ _ _ Hb Hin He Hr Hc Hit Hatt Hv).
Defined.

(** X11 at a material with its process and one property: inline, the
    one edge is from the process; in separate-node mode there is the
    edge to the property too. *)
Lemma inline_edges_in_separate_witness :
  build_graph (H := example_host) [m1a] all_assets false "spec" "auto"
  = Ok (Some (m1a_inline,
              map_to_graphviz (H := example_host) m1a_inline m1_names, m1_names))
  ∧ build_graph (H := example_host) [m1a] all_assets true "spec" "auto"
    = Ok (Some (m1a_separate,
                map_to_graphviz (H := example_host) m1a_separate m1_names, m1_names))
  ∧ ("m1", "Atmosphere, argon") ∈ edges m1a_separate
  ∧ (("m1", "Atmosphere, argon") ∉ edges m1a_inline)
  ∧ edges m1a_inline ⊆ edges m1a_separate.
Proof.
  assert (build_graph (H := example_host) [m1a] all_assets false "spec" "auto"
          = Ok (Some (m1a_inline,
                      map_to_graphviz (H := example_host) m1a_inline m1_names,
                      m1_names))) as Hb1
    by (vm_compute; reflexivity).
  assert (build_graph (H := example_host) [m1a] all_assets true "spec" "auto"
          = Ok (Some (m1a_separate,
                      map_to_graphviz (H := example_host) m1a_separate m1_names,
                      m1_names))) as Hb2
    by (vm_compute; reflexivity).
  assert (("m1", "Atmosphere, argon") ∈ edges m1a_separate) as Hin
    by (vm_compute; reflexivity).
  assert (("m1", "Atmosphere, argon") ∉ edges m1a_inline) as Hout
    by (vm_compute; discriminate).
  split_and!; [exact Hb1|exact Hb2|exact Hin|exact Hout|].
  exact (inline_edges_in_separate (H := example_host) _ _ _ _ _ _ _ _ _ _ Hb1 Hb2).
Defined.

(** X18 at two processes of one name whose identifiers share their
    first three characters: they get one label. *)
Lemma label_reads_three_characters_witness :
  build_graph (H := example_host) [pa1; pa2] no_assets false "spec" "auto"
  = Ok (Some (abc_graph,
              map_to_graphviz (H := example_host) abc_graph abc_names, abc_names))
  ∧ abc_names !! "abc1" = Some "Melting,  abc"
  ∧ abc_names !! "abc2" = Some "Melting,  abc"
  ∧ first3 "abc1" = first3 "abc2"
  ∧ "Melting,  abc" = "Melting,  abc".
Proof.
  assert (build_graph (H := example_host) [pa1; pa2] no_assets false "spec" "auto"
          = Ok (Some (abc_graph,
                      map_to_graphviz (H := example_host) abc_graph abc_names,
                      abc_names))) as Hb
    by (vm_compute; reflexivity).
  assert (abc_names !! "abc1" = Some "Melting,  abc") as Hl1 by (vm_compute; reflexivity).
  assert (abc_names !! "abc2" = Some "Melting,  abc") as Hl2 by (vm_compute; reflexivity).
  assert (first3 "abc1" = first3 "abc2") as Hsame by reflexivity.
  assert (∀ obj uid name ty fields,
            obj ∈ [pa1; pa2] →
            classify (H := example_host) "auto" obj = Ok (Tracked uid name ty fields) →
            uid = "abc1" ∨ uid = "abc2" →
            fmt (H := example_host) name = "Melting") as Hname.
  { intros obj uid name ty fields Hin Hc _.
    apply elem_of_cons in Hin as [->|Hin].
    - vm_compute in Hc. by injection Hc as <- <- <- <-.
    - apply list_elem_of_singleton in Hin as ->.
      vm_compute in Hc. by injection Hc as <- <- <- <-. }
  split_and!; [exact Hb|exact Hl1|exact Hl2|exact Hsame|].
  exact (proj2 (label_reads_three_characters (H := example_host) _ _ _ _ _ _ _ _ Hb)
           "abc1" "abc2" _ _ "Melting" Hl1 Hl2 Hname Hsame).
Defined.
